(** * Reconciliation modules for a LiteLLM proxy: teams, virtual keys,
      endpoints and models

    A shallow embedding of the four Ansible modules under
    [plugins/modules/]: [litellm_team.py], [litellm_virtual_key.py],
    [litellm_endpoint.py] and [litellm_model.py].

    - Python values (module parameters and decoded JSON bodies) are the
      inductive type [value].  A dictionary is an association list in
      insertion order, as Python keeps it, and holds each key once, as a
      decoded JSON object does.  Numbers are rationals, which covers the
      finite [int] and [float] values of JSON; a parameter of type
      [float] holds the number its conversion to [float] gives.  A string
      is the list of the bytes of its UTF-8 encoding; equality, emptiness,
      concatenation, substring search and the split at [/] are the same
      on bytes and on characters, and iteration goes by character
      ([Py.chars]).
    - Dynamic failures of Python operations ([.get] on a non-dict,
      iteration over [None], ...) are results in the error monad [res].
    - HTTP traffic is explicit: a manager method is a computation in the
      monad [M], which threads the remote server's state together with the
      log of the requests issued so far, and ends in a normal return, in
      [module.fail_json] or in an uncaught exception.  The log survives a
      failure, so that one can say what was sent before a run aborted.  A
      request is logged by method, path and JSON body; [api_url], the
      headers and [validate_certs] are the same for every request of a run
      and are left out.
    - [AnsibleModule(...)] is modelled by what the argument spec in [main]
      asks of it: the defaults it fills in and the [required_if] rules it
      enforces.  A parameter without a value is [None] in [module.params],
      whether the task leaves it out or sets it to [null]; [required_if]
      tells the two apart, since it counts the parameters a task mentions,
      so the parameters it names come with a flag that says whether the
      task sets them to [null].  A task that sets [metadata], [model_info]
      to [null] is not covered.  The [requests] library is taken to be
      installed. *)

From Stdlib Require Import String Ascii List ZArith QArith Bool Lia.
From ExtLib Require Import Structures.Monad.
Import ListNotations MonadNotation.

Local Open Scope string_scope.
Local Open Scope list_scope.
Local Open Scope monad_scope.
Local Close Scope Q_scope.

Set Implicit Arguments.
Set Warnings "-register-all".

(* ================================================================== *)
(** * Python values *)
(* ================================================================== *)

(** [None] and JSON [null] are both [JNull].  Python compares an [int]
    and a [float] by value, hence one kind of number. *)
Inductive value : Type :=
| JNull
| JBool (b : bool)
| JNum (q : Q)
| JStr (s : string)
| JList (l : list value)
| JDict (d : list (string * value)).

Definition dict := list (string * value).

Inductive exn : Type :=
| AttributeError (attr : string)
| TypeError
| KeyError (k : string)
| ValueError.

(** The result of a Python expression: a value or a raised exception. *)
Inductive res (A : Type) : Type :=
| Ok (a : A)
| Exn (e : exn).
Arguments Exn {A} e.

#[export] Instance Monad_res : Monad res :=
  {| ret := fun _ a => Ok a;
     bind := fun _ _ c k => match c with Ok a => k a | Exn e => Exn e end |}.

Module Py.

Definition is_nil {A} (l : list A) : bool :=
  match l with [] => true | _ :: _ => false end.

(** [bool(v)], the test of [if v:]. *)
Definition truthy (v : value) : bool :=
  match v with
  | JNull => false
  | JBool b => b
  | JNum q => negb (Qeq_bool q (0 # 1))
  | JStr s => negb (s =? "")
  | JList l => negb (is_nil l)
  | JDict d => negb (is_nil d)
  end.

(** [if s:] for an optional string parameter. *)
Definition truthy_str (s : option string) : bool :=
  match s with Some s => negb (s =? "") | None => false end.

(** The string behind a parameter that is known to be set. *)
Definition str_of (s : option string) : string :=
  match s with Some s => s | None => "" end.

Definition of_str (s : option string) : value :=
  match s with Some s => JStr s | None => JNull end.

Definition of_num (q : option Q) : value :=
  match q with Some q => JNum q | None => JNull end.

Definition of_int (z : option Z) : value :=
  match z with Some z => JNum (inject_Z z) | None => JNull end.

Definition int (z : Z) : value := JNum (inject_Z z).

Definition of_strs (l : list string) : value := JList (map JStr l).

(** [f"{s}"] for an optional string. *)
Definition format (s : option string) : string :=
  match s with Some s => s | None => "None" end.

Definition of_dict (m : option dict) : value :=
  match m with Some d => JDict d | None => JNull end.

Definition of_list (l : option (list string)) : value :=
  match l with Some l => of_strs l | None => JNull end.

Definition is_dict (v : value) : bool :=
  match v with JDict _ => true | _ => false end.

Definition truthy_dict (m : option dict) : bool :=
  match m with Some d => negb (is_nil d) | None => false end.

Definition truthy_list (l : option (list string)) : bool :=
  match l with Some l => negb (is_nil l) | None => false end.

Fixpoint lookup (d : dict) (k : string) : option value :=
  match d with
  | [] => None
  | (k', v) :: d' => if k' =? k then Some v else lookup d' k
  end.

(** [d[k] = v]: replaces the value in place, or appends a new key. *)
Fixpoint setitem (d : dict) (k : string) (v : value) : dict :=
  match d with
  | [] => [(k, v)]
  | (k', v') :: d' => if k' =? k then (k', v) :: d' else (k', v') :: setitem d' k v
  end.

(** [d[k] = v] when the optional [v] is set (the test [is not None]). *)
Definition set_some (d : dict) (k : string) (v : option value) : dict :=
  match v with Some v => setitem d k v | None => d end.

(** [d[k] = v] under a guard (the test [if v:]). *)
Definition set_if (c : bool) (d : dict) (k : string) (v : value) : dict :=
  if c then setitem d k v else d.

Definition keys (d : dict) : list string := map fst d.

Definition num_of_bool (b : bool) : Q := if b then 1 # 1 else 0 # 1.

(** [a == b] on decoded JSON: numbers by value ([True == 1]), lists
    element by element, dictionaries regardless of order. *)
Fixpoint equal (a b : value) {struct a} : bool :=
  match a, b with
  | JNull, JNull => true
  | JBool x, JBool y => Bool.eqb x y
  | JBool x, JNum q => Qeq_bool (num_of_bool x) q
  | JNum p, JBool y => Qeq_bool p (num_of_bool y)
  | JNum p, JNum q => Qeq_bool p q
  | JStr s, JStr t => s =? t
  | JList l, JList m =>
      (fix go (l m : list value) : bool :=
         match l, m with
         | [], [] => true
         | x :: l', y :: m' => equal x y && go l' m'
         | _, _ => false
         end) l m
  | JDict d, JDict e =>
      (length d =? length e)%nat &&
      (fix all (d : dict) : bool :=
         match d with
         | [] => true
         | (k, v) :: d' =>
             match lookup e k with
             | Some v' => equal v v'
             | None => false
             end && all d'
         end) d
  | _, _ => false
  end.

(** [v.get(k, default)] *)
Definition get (v : value) (k : string) (default : value) : res value :=
  match v with
  | JDict d => Ok (match lookup d k with Some x => x | None => default end)
  | _ => Exn (AttributeError "get")
  end.

(** [v[k]] with a string subscript. *)
Definition getitem (v : value) (k : string) : res value :=
  match v with
  | JDict d => match lookup d k with Some x => Ok x | None => Exn (KeyError k) end
  | _ => Exn TypeError
  end.

Fixpoint is_substring (p s : string) : bool :=
  String.prefix p s ||
  match s with
  | EmptyString => false
  | String _ s' => is_substring p s'
  end.

(** [k in v] for a string [k]: a key of a dict, an element of a list, a
    substring of a string. *)
Definition contains (k : string) (v : value) : res bool :=
  match v with
  | JDict d => Ok (existsb (String.eqb k) (keys d))
  | JList l => Ok (existsb (equal (JStr k)) l)
  | JStr s => Ok (is_substring k s)
  | _ => Exn TypeError
  end.

(** A byte [10xxxxxx] continues the character begun before it. *)
Definition is_continuation (c : ascii) : bool :=
  match c with
  | Ascii _ _ _ _ _ _ b6 b7 => b7 && negb b6
  end.

(** The characters of a string, each with the bytes that encode it. *)
Fixpoint chars (s : string) : list string :=
  match s with
  | EmptyString => []
  | String c s' =>
      let rest := chars s' in
      match s', rest with
      | String c' _, h :: t =>
          if is_continuation c' then String c h :: t
          else String c "" :: rest
      | _, _ => String c "" :: rest
      end
  end.

(** The elements a [for] loop goes through; a string gives its
    characters. *)
Definition iter (v : value) : res (list value) :=
  match v with
  | JList l => Ok l
  | JDict d => Ok (map JStr (keys d))
  | JStr s => Ok (map JStr (chars s))
  | _ => Exn TypeError
  end.

Definition hashable (v : value) : bool :=
  match v with
  | JList _ | JDict _ => false
  | _ => true
  end.

(** [set(v)]: the elements of [v], all of which must be hashable.  A set
    is kept as the list of its elements and only ever compared through
    [set_eq], which ignores order and repetition. *)
Definition to_set (v : value) : res (list value) :=
  l <- iter v ;;
  if forallb hashable l then Ok l else Exn TypeError.

Definition subset (s t : list value) : bool :=
  forallb (fun x => existsb (equal x) t) s.

Definition set_eq (s t : list value) : bool := subset s t && subset t s.

(** [current.get(k) != v] *)
Definition differs (current : value) (k : string) (v : value) : res bool :=
  c <- get current k JNull ;;
  ret (negb (equal c v)).

(** [set(current.get(k, [])) != set(v)] *)
Definition sets_differ (current : value) (k : string) (v : value)
  : res bool :=
  c <- get current k (JList []) ;;
  current_set <- to_set c ;;
  new_set <- to_set v ;;
  ret (negb (set_eq current_set new_set)).

(** The statement [if guard and test: needs_update = True]; [test] is
    evaluated only under the guard. *)
Definition flag_if (guard : bool) (test : res bool) (needs_update : bool)
  : res bool :=
  if guard then
    t <- test ;;
    ret (if t : bool then true else needs_update)
  else ret needs_update.

Definition is_some {A} (o : option A) : bool :=
  match o with Some _ => true | None => false end.

(** [s.split(sep)] for a one-character separator. *)
Fixpoint split (sep : ascii) (s : string) : list string :=
  match s with
  | EmptyString => [""]
  | String c s' =>
      if Ascii.eqb c sep then "" :: split sep s'
      else match split sep s' with
           | h :: t => String c h :: t
           | [] => [String c ""]
           end
  end.

End Py.

(* ================================================================== *)
(** * The remote API and the module runtime *)
(* ================================================================== *)

Inductive method : Type := GET | POST | PUT | DELETE.

(** One call of [requests]: the method, the path appended to [api_url],
    and the [json=] body (sent by POST and PUT only). *)
Record request : Type := Request {
  rq_method : method;
  rq_endpoint : string;
  rq_json : option value
}.

(** [json] is what [response.json()] decodes; [None] when the body is not
    JSON, in which case [response.json()] raises [ValueError]. *)
Record response : Type := Response {
  status_code : Z;
  json : option value;
  text : string
}.

Inductive reply : Type :=
| Reply (r : response)
| RequestException (e : string).

(** The text of a message, piece by piece as the f-strings build it. *)
Inductive piece : Type :=
| Lit (s : string)
| Num (z : Z)
| Repr (v : value)
| ExnStr (e : exn).

Definition message := list piece.

(** How a computation ends: normally, in [module.fail_json(msg=...)]
    (which raises [SystemExit]), or in an exception nobody caught. *)
Inductive outcome (A : Type) : Type :=
| Done (a : A)
| Failed (msg : message)
| Raised (e : exn).
Arguments Failed {A} msg.
Arguments Raised {A} e.

Record world (Server : Type) : Type := World {
  srv : Server;
  log : list request
}.

Definition M (Server : Type) (A : Type) : Type :=
  world Server -> outcome A * world Server.

#[export] Instance Monad_M {Server : Type} : Monad (M Server) :=
  {| ret := fun _ a w => (Done a, w);
     bind := fun _ _ c k w =>
       match c w with
       | (Done a, w') => k a w'
       | (Failed m, w') => (Failed m, w')
       | (Raised e, w') => (Raised e, w')
       end |}.

Definition lift {Server A} (r : res A) : M Server A :=
  fun w => (match r with Ok a => Done a | Exn e => Raised e end, w).

Definition fail_json {Server A} (msg : message) : M Server A :=
  fun w => (Failed msg, w).

(** [try: c except Exception as e: h e].  [SystemExit] is not an
    [Exception], so a [fail_json] inside [c] passes through. *)
Definition try_except {Server A} (c : M Server A) (h : exn -> M Server A)
  : M Server A :=
  fun w =>
    match c w with
    | (Raised e, w') => h e w'
    | r => r
    end.

Definition response_json (r : response) : res value :=
  match json r with
  | Some v => Ok v
  | None => Exn ValueError
  end.

(** What a module hands to [exit_json]: the change flag, the message and
    the resource ([team], [virtual_key], [endpoint] or [model]). *)
Record result : Type := Result {
  changed : bool;
  resource : value;
  message_of : message
}.

Inductive lifecycle : Type := present | absent.

Definition is_write (rq : request) : bool :=
  match rq_method rq with
  | GET => false
  | _ => true
  end.

(** The create, update and delete calls among a log of requests. *)
Definition writes (l : list request) : list request := filter is_write l.

(** Running a computation against a server, from an empty log. *)
Definition run {Server A} (c : M Server A) (s : Server)
  : outcome A * list request :=
  let (o, w) := c (World s []) in (o, log w).

Section Transport.

Context {Server : Type} (handle : Server -> request -> reply * Server).

(** [_make_request] of the team, key and endpoint managers. *)
Definition _make_request (m : method) (endpoint : string)
  (data : option value) : M Server response :=
  fun w =>
    let rq := Request m endpoint
                (match m with POST | PUT => data | _ => None end) in
    let (r, s') := handle (srv w) rq in
    let w' := World s' (log w ++ [rq]) in
    match r with
    | Reply rsp => (Done rsp, w')
    | RequestException e =>
        (Failed [Lit "Errore nella richiesta HTTP: "; Lit e], w')
    end.

End Transport.

(* ================================================================== *)
(** * litellm_team.py *)
(* ================================================================== *)

Module Team.

(** The module object: [module.params] and [module.check_mode].  An
    optional parameter without a value is [None]. *)
Record module : Type := Module {
  team_id : option string;
  name : option string;
  metadata : option dict;
  max_budget : option Q;
  models : option (list string);
  state : lifecycle;
  check_mode : bool
}.

(** Whether the task sets [team_id], [name] to [null]: such a parameter is
    [None] in [module.params], as one the task leaves out, but the task
    mentions it. *)
Record nulls : Type := Nulls {
  null_team_id : bool;
  null_name : bool
}.

Definition no_nulls : nulls := Nulls false false.

(** What [AnsibleModule(argument_spec, required_if)] does to the
    arguments of the task.  [required_if] counts the parameters the task
    mentions, with a value or with [null]: it rejects a task that leaves
    out [name] with [state=present], or [team_id] with [state=absent].
    [default={}] fills in [metadata] when the task leaves it out. *)
Definition AnsibleModule_given {Server} (given : nulls) (task : module)
  : M Server module :=
  let mentioned (null : bool) (v : option string) := Py.is_some v || null in
  let params :=
    Module (team_id task) (name task)
      (match metadata task with Some m => Some m | None => Some [] end)
      (max_budget task) (models task) (state task) (check_mode task) in
  match state task with
  | present =>
      if mentioned (null_name given) (name task) then ret params
      else fail_json [Lit "state is present but all of the following are missing: name"]
  | absent =>
      if mentioned (null_team_id given) (team_id task) then ret params
      else fail_json [Lit "state is absent but all of the following are missing: team_id"]
  end.

(** [AnsibleModule] for a task that sets no parameter to [null]: [None]
    stands for a parameter the task leaves out. *)
Definition AnsibleModule {Server} (task : module) : M Server module :=
  AnsibleModule_given no_nulls task.

(** The loop of [get_team_by_name]: the first entry whose [team_alias] or
    [team_name] equals [name], or [None]. *)
Fixpoint first_team (teams : list value) (name : string) : res value :=
  match teams with
  | [] => Ok JNull
  | team :: rest =>
      a <- Py.get team "team_alias" JNull ;;
      if Py.equal a (JStr name) then Ok team
      else
        n <- Py.get team "team_name" JNull ;;
        if Py.equal n (JStr name) then Ok team
        else first_team rest name
  end.

(** The body sent by [create_team]. *)
Definition create_team_data (name : option string) (metadata : option dict)
  (max_budget : option Q) (models : option (list string)) : dict :=
  let data := [("team_alias", Py.of_str name)] in
  let data := Py.set_if (Py.truthy_dict metadata) data
                "metadata" (Py.of_dict metadata) in
  let data := Py.set_some data "max_budget" (option_map JNum max_budget) in
  let data := Py.set_if (Py.truthy_list models) data
                "models" (Py.of_list models) in
  data.

(** The body sent by [update_team]. *)
Definition update_team_data (team_id : value) (name : option string)
  (metadata : option dict) (max_budget : option Q)
  (models : option (list string)) : dict :=
  let data := [("team_id", team_id)] in
  let data := Py.set_if (Py.truthy_str name) data
                "team_alias" (Py.of_str name) in
  let data := Py.set_some data "metadata" (option_map JDict metadata) in
  let data := Py.set_some data "max_budget" (option_map JNum max_budget) in
  let data := Py.set_some data "models" (option_map Py.of_strs models) in
  data.

Definition team_needs_update (current_team : value) (name : option string)
  (metadata : option dict) (max_budget : option Q)
  (models : option (list string)) : res bool :=
  let needs_update := false in
  needs_update <-
    Py.flag_if (Py.truthy_str name)
      (Py.differs current_team "team_alias" (Py.of_str name)) needs_update ;;
  needs_update <-
    Py.flag_if (Py.is_some metadata)
      (Py.differs current_team "metadata" (Py.of_dict metadata)) needs_update ;;
  needs_update <-
    Py.flag_if (Py.is_some max_budget)
      (Py.differs current_team "max_budget" (Py.of_num max_budget)) needs_update ;;
  needs_update <-
    Py.flag_if (Py.is_some models)
      (Py.sets_differ current_team "models" (Py.of_list models)) needs_update ;;
  ret needs_update.

Section Manager.

Context {Server : Type} (handle : Server -> request -> reply * Server).

Definition get_team (team_id : string) : M Server value :=
  response <- _make_request handle GET ("/team/" ++ team_id) None ;;
  if (status_code response =? 200)%Z then lift (response_json response)
  else if (status_code response =? 404)%Z then ret JNull
  else fail_json [Lit "Errore nel recupero del team: ";
                  Num (status_code response); Lit " - "; Lit (text response)].

Definition get_team_by_name (name : string) : M Server value :=
  response <- _make_request handle GET "/team/list" None ;;
  if (status_code response =? 200)%Z then
    data <- lift (response_json response) ;;
    teams <- lift (match data with
                   | JList _ => Ok data
                   | _ => Py.get data "teams" (JList [])
                   end) ;;
    entries <- lift (Py.iter teams) ;;
    lift (first_team entries name)
  else fail_json [Lit "Errore nella ricerca del team: ";
                  Num (status_code response); Lit " - "; Lit (text response)].

Definition create_team (name : option string) (metadata : option dict)
  (max_budget : option Q) (models : option (list string)) : M Server value :=
  let data := create_team_data name metadata max_budget models in
  response <- _make_request handle POST "/team/new" (Some (JDict data)) ;;
  if (status_code response =? 200)%Z || (status_code response =? 201)%Z
  then lift (response_json response)
  else fail_json [Lit "Errore nella creazione del team: ";
                  Num (status_code response); Lit " - "; Lit (text response)].

Definition update_team (team_id : value) (name : option string)
  (metadata : option dict) (max_budget : option Q)
  (models : option (list string)) : M Server value :=
  let data := update_team_data team_id name metadata max_budget models in
  response <- _make_request handle POST "/team/update" (Some (JDict data)) ;;
  if (status_code response =? 200)%Z then lift (response_json response)
  else fail_json [Lit "Errore nell'aggiornamento del team: ";
                  Num (status_code response); Lit " - "; Lit (text response)].

Definition delete_team (team_id : value) : M Server bool :=
  let data := [("team_ids", JList [team_id])] in
  response <- _make_request handle POST "/team/delete" (Some (JDict data)) ;;
  if (status_code response =? 200)%Z then ret true
  else fail_json [Lit "Errore nell'eliminazione del team: ";
                  Num (status_code response); Lit " - "; Lit (text response)].

(** [main], first half: looking for the existing team. *)
Definition main_find (m : module) : M Server value :=
  if Py.truthy_str (team_id m) then get_team (Py.str_of (team_id m))
  else if Py.truthy_str (name m) then get_team_by_name (Py.str_of (name m))
  else ret JNull.

(** [main], second half: the branches on [state] and [existing_team]. *)
Definition main_reconcile (m : module) (existing_team : value)
  : M Server result :=
  match state m with
  | present =>
      if Py.truthy existing_team then
        needs_update <- lift (team_needs_update existing_team (name m)
                                (metadata m) (max_budget m) (models m)) ;;
        if needs_update : bool then
          team <- (if negb (check_mode m) then
                     current_team_id <- lift (Py.get existing_team "team_id" JNull) ;;
                     update_team current_team_id (name m) (metadata m)
                       (max_budget m) (models m)
                   else ret (JDict [])) ;;
          ret (Result true team [Lit "Team aggiornato con successo"])
        else
          ret (Result false existing_team
                 [Lit "Team già esistente con le configurazioni richieste"])
      else
        team <- (if negb (check_mode m) then
                   create_team (name m) (metadata m) (max_budget m) (models m)
                 else ret (JDict [])) ;;
        ret (Result true team [Lit "Team creato con successo"])
  | absent =>
      if Py.truthy existing_team then
        (if negb (check_mode m) then
           current_team_id <- lift (Py.get existing_team "team_id" JNull) ;;
           delete_team current_team_id ;;
           ret tt
         else ret tt) ;;
        ret (Result true (JDict []) [Lit "Team eliminato con successo"])
      else
        ret (Result false (JDict [])
               [Lit "Team non trovato, nessuna azione necessaria"])
  end.

(** [main]: the run of the module on the arguments of a task. *)
Definition main_given (given : nulls) (task : module) : M Server result :=
  m <- AnsibleModule_given given task ;;
  existing_team <- main_find m ;;
  main_reconcile m existing_team.

(** [main] on a task that sets no parameter to [null]. *)
Definition main (task : module) : M Server result :=
  main_given no_nulls task.

End Manager.

End Team.

(* ================================================================== *)
(** * litellm_virtual_key.py *)
(* ================================================================== *)

Module VirtualKey.

Record module : Type := Module {
  key_id : option string;
  key_alias : option string;
  team_id : option string;
  models : option (list string);
  max_budget : option Q;
  budget_duration : option string;
  metadata : option dict;
  expires : option string;
  max_parallel_requests : option Z;
  tpm_limit : option Z;
  rpm_limit : option Z;
  state : lifecycle;
  check_mode : bool
}.

(** [AnsibleModule(argument_spec, required_if)]: [required_if] asks for
    [key_id] with [state=absent] and for nothing with [state=present]; it
    counts a [key_id] the task sets to [null] ([null_key_id]) as given.
    [default={}] fills in [metadata] when the task leaves it out. *)
Definition AnsibleModule_given {Server} (null_key_id : bool) (task : module)
  : M Server module :=
  let params :=
    Module (key_id task) (key_alias task) (team_id task) (models task)
      (max_budget task) (budget_duration task)
      (match metadata task with Some m => Some m | None => Some [] end)
      (expires task) (max_parallel_requests task) (tpm_limit task)
      (rpm_limit task) (state task) (check_mode task) in
  match state task with
  | present => ret params
  | absent =>
      if Py.is_some (key_id task) || null_key_id then ret params
      else fail_json [Lit "state is absent but all of the following are missing: key_id"]
  end.

(** [AnsibleModule] for a task that sets no parameter to [null]: [None]
    stands for a parameter the task leaves out. *)
Definition AnsibleModule {Server} (task : module) : M Server module :=
  AnsibleModule_given false task.

(** The loop of [get_key_by_alias]: the first entry that is a dict and
    whose [key_alias] or [key_name] equals [alias], or [None]. *)
Fixpoint first_key (keys : list value) (alias : string) : value :=
  match keys with
  | [] => JNull
  | key :: rest =>
      match key with
      | JDict d =>
          let a := match Py.lookup d "key_alias" with Some x => x | None => JNull end in
          let n := match Py.lookup d "key_name" with Some x => x | None => JNull end in
          if Py.equal a (JStr alias) || Py.equal n (JStr alias) then key
          else first_key rest alias
      | _ => first_key rest alias
      end
  end.

(** The body sent by [create_key]. *)
Definition create_key_data (key_alias team_id : option string)
  (models : option (list string)) (max_budget : option Q)
  (budget_duration : option string) (metadata : option dict)
  (expires : option string) (max_parallel_requests tpm_limit rpm_limit : option Z)
  : dict :=
  let data := [] in
  let data := Py.set_if (Py.truthy_str key_alias) data
                "key_alias" (Py.of_str key_alias) in
  let data := Py.set_if (Py.truthy_str team_id) data
                "team_id" (Py.of_str team_id) in
  let data := Py.set_if (Py.truthy_list models) data
                "models" (Py.of_list models) in
  let data := Py.set_some data "max_budget" (option_map JNum max_budget) in
  let data := Py.set_if (Py.truthy_str budget_duration) data
                "budget_duration" (Py.of_str budget_duration) in
  let data := Py.set_if (Py.truthy_dict metadata) data
                "metadata" (Py.of_dict metadata) in
  let data := Py.set_if (Py.truthy_str expires) data
                "expires" (Py.of_str expires) in
  let data := Py.set_some data "max_parallel_requests"
                (option_map Py.int max_parallel_requests) in
  let data := Py.set_some data "tpm_limit"
                (option_map Py.int tpm_limit) in
  let data := Py.set_some data "rpm_limit"
                (option_map Py.int rpm_limit) in
  data.

(** The body sent by [update_key]. *)
Definition update_key_data (key_id : value) (key_alias team_id : option string)
  (models : option (list string)) (max_budget : option Q)
  (budget_duration : option string) (metadata : option dict)
  (expires : option string) (max_parallel_requests tpm_limit rpm_limit : option Z)
  : dict :=
  let data := [("key", key_id)] in
  let data := Py.set_if (Py.truthy_str key_alias) data
                "key_alias" (Py.of_str key_alias) in
  let data := Py.set_if (Py.truthy_str team_id) data
                "team_id" (Py.of_str team_id) in
  let data := Py.set_some data "models" (option_map Py.of_strs models) in
  let data := Py.set_some data "max_budget" (option_map JNum max_budget) in
  let data := Py.set_if (Py.truthy_str budget_duration) data
                "budget_duration" (Py.of_str budget_duration) in
  let data := Py.set_some data "metadata" (option_map JDict metadata) in
  let data := Py.set_if (Py.truthy_str expires) data
                "expires" (Py.of_str expires) in
  let data := Py.set_some data "max_parallel_requests"
                (option_map Py.int max_parallel_requests) in
  let data := Py.set_some data "tpm_limit"
                (option_map Py.int tpm_limit) in
  let data := Py.set_some data "rpm_limit"
                (option_map Py.int rpm_limit) in
  data.

Definition key_needs_update (current_key : value)
  (key_alias team_id : option string) (models : option (list string))
  (max_budget : option Q) (budget_duration : option string)
  (metadata : option dict) (expires : option string)
  (max_parallel_requests tpm_limit rpm_limit : option Z) : res bool :=
  let needs_update := false in
  needs_update <-
    Py.flag_if (Py.truthy_str key_alias)
      (Py.differs current_key "key_alias" (Py.of_str key_alias)) needs_update ;;
  needs_update <-
    Py.flag_if (Py.truthy_str team_id)
      (Py.differs current_key "team_id" (Py.of_str team_id)) needs_update ;;
  needs_update <-
    Py.flag_if (Py.is_some models)
      (Py.sets_differ current_key "models" (Py.of_list models)) needs_update ;;
  needs_update <-
    Py.flag_if (Py.is_some max_budget)
      (Py.differs current_key "max_budget" (Py.of_num max_budget)) needs_update ;;
  needs_update <-
    Py.flag_if (Py.truthy_str budget_duration)
      (Py.differs current_key "budget_duration" (Py.of_str budget_duration))
      needs_update ;;
  needs_update <-
    Py.flag_if (Py.is_some metadata)
      (Py.differs current_key "metadata" (Py.of_dict metadata)) needs_update ;;
  needs_update <-
    Py.flag_if (Py.truthy_str expires)
      (Py.differs current_key "expires" (Py.of_str expires)) needs_update ;;
  needs_update <-
    Py.flag_if (Py.is_some max_parallel_requests)
      (Py.differs current_key "max_parallel_requests"
         (Py.of_int max_parallel_requests)) needs_update ;;
  needs_update <-
    Py.flag_if (Py.is_some tpm_limit)
      (Py.differs current_key "tpm_limit" (Py.of_int tpm_limit)) needs_update ;;
  needs_update <-
    Py.flag_if (Py.is_some rpm_limit)
      (Py.differs current_key "rpm_limit" (Py.of_int rpm_limit)) needs_update ;;
  ret needs_update.

(** [existing_key.get('token') or existing_key.get('key')] *)
Definition current_key_id (existing_key : value) : res value :=
  token <- Py.get existing_key "token" JNull ;;
  if Py.truthy token then ret token else Py.get existing_key "key" JNull.

Section Manager.

Context {Server : Type} (handle : Server -> request -> reply * Server).

Definition get_key (key_id : string) : M Server value :=
  response <- _make_request handle GET ("/key/info?key=" ++ key_id) None ;;
  if (status_code response =? 200)%Z then lift (response_json response)
  else if (status_code response =? 404)%Z then ret JNull
  else fail_json [Lit "Errore nel recupero della key: ";
                  Num (status_code response); Lit " - "; Lit (text response)].

Definition get_key_by_alias (alias : string) : M Server value :=
  response <- _make_request handle GET "/key/list" None ;;
  if (status_code response =? 200)%Z then
    keys <- (match json response with
             | Some (JList l) => ret (JList l)
             | Some (JDict d) => lift (Py.get (JDict d) "keys" (JList []))
             | Some data =>
                 fail_json [Lit "Risposta API non valida per /key/list: ";
                            Repr data]
             | None =>
                 fail_json [Lit "Risposta non JSON valida da /key/list: ";
                            Lit (text response)]
             end) ;;
    entries <- lift (Py.iter keys) ;;
    ret (first_key entries alias)
  else fail_json [Lit "Errore nella ricerca della key: ";
                  Num (status_code response); Lit " - "; Lit (text response)].

Definition create_key (key_alias team_id : option string)
  (models : option (list string)) (max_budget : option Q)
  (budget_duration : option string) (metadata : option dict)
  (expires : option string) (max_parallel_requests tpm_limit rpm_limit : option Z)
  : M Server value :=
  let data := create_key_data key_alias team_id models max_budget
                budget_duration metadata expires max_parallel_requests
                tpm_limit rpm_limit in
  response <- _make_request handle POST "/key/generate" (Some (JDict data)) ;;
  if (status_code response =? 200)%Z || (status_code response =? 201)%Z
  then lift (response_json response)
  else fail_json [Lit "Errore nella creazione della key: ";
                  Num (status_code response); Lit " - "; Lit (text response)].

Definition update_key (key_id : value) (key_alias team_id : option string)
  (models : option (list string)) (max_budget : option Q)
  (budget_duration : option string) (metadata : option dict)
  (expires : option string) (max_parallel_requests tpm_limit rpm_limit : option Z)
  : M Server value :=
  let data := update_key_data key_id key_alias team_id models max_budget
                budget_duration metadata expires max_parallel_requests
                tpm_limit rpm_limit in
  response <- _make_request handle POST "/key/update" (Some (JDict data)) ;;
  if (status_code response =? 200)%Z then lift (response_json response)
  else fail_json [Lit "Errore nell'aggiornamento della key: ";
                  Num (status_code response); Lit " - "; Lit (text response)].

Definition delete_key (key_id : value) : M Server bool :=
  let data := [("keys", JList [key_id])] in
  response <- _make_request handle POST "/key/delete" (Some (JDict data)) ;;
  if (status_code response =? 200)%Z then ret true
  else fail_json [Lit "Errore nell'eliminazione della key: ";
                  Num (status_code response); Lit " - "; Lit (text response)].

(** [main], first half: looking for the existing key. *)
Definition main_find (m : module) : M Server value :=
  if Py.truthy_str (key_id m) then get_key (Py.str_of (key_id m))
  else if Py.truthy_str (key_alias m)
       then get_key_by_alias (Py.str_of (key_alias m))
       else ret JNull.

(** [main], second half: the branches on [state] and [existing_key]. *)
Definition main_reconcile (m : module) (existing_key : value)
  : M Server result :=
  match state m with
  | present =>
      if Py.truthy existing_key then
        needs_update <- lift (key_needs_update existing_key (key_alias m)
                                (team_id m) (models m) (max_budget m)
                                (budget_duration m) (metadata m) (expires m)
                                (max_parallel_requests m) (tpm_limit m)
                                (rpm_limit m)) ;;
        if needs_update : bool then
          virtual_key <- (if negb (check_mode m) then
                            id <- lift (current_key_id existing_key) ;;
                            update_key id (key_alias m) (team_id m) (models m)
                              (max_budget m) (budget_duration m) (metadata m)
                              (expires m) (max_parallel_requests m)
                              (tpm_limit m) (rpm_limit m)
                          else ret (JDict [])) ;;
          ret (Result true virtual_key
                 [Lit "Virtual key aggiornata con successo"])
        else
          ret (Result false existing_key
                 [Lit "Virtual key già esistente con le configurazioni richieste"])
      else
        virtual_key <- (if negb (check_mode m) then
                          create_key (key_alias m) (team_id m) (models m)
                            (max_budget m) (budget_duration m) (metadata m)
                            (expires m) (max_parallel_requests m)
                            (tpm_limit m) (rpm_limit m)
                        else ret (JDict [])) ;;
        ret (Result true virtual_key [Lit "Virtual key creata con successo"])
  | absent =>
      if Py.truthy existing_key then
        (if negb (check_mode m) then
           id <- lift (current_key_id existing_key) ;;
           delete_key id ;;
           ret tt
         else ret tt) ;;
        ret (Result true (JDict []) [Lit "Virtual key eliminata con successo"])
      else
        ret (Result false (JDict [])
               [Lit "Virtual key non trovata, nessuna azione necessaria"])
  end.

Definition main_given (null_key_id : bool) (task : module)
  : M Server result :=
  m <- AnsibleModule_given null_key_id task ;;
  existing_key <- main_find m ;;
  main_reconcile m existing_key.

(** [main] on a task that sets no parameter to [null]. *)
Definition main (task : module) : M Server result :=
  main_given false task.

End Manager.

End VirtualKey.

(* ================================================================== *)
(** * litellm_endpoint.py *)
(* ================================================================== *)

Module Endpoint.

Record module : Type := Module {
  endpoint_name : string;
  api_base : option string;
  provider : option string;
  endpoint_api_key : option string;
  api_version : option string;
  metadata : option dict;
  state : lifecycle;
  check_mode : bool
}.

(** [AnsibleModule(argument_spec, supports_check_mode=True)]: no
    [required_if]; [default={}] for [metadata]. *)
Definition AnsibleModule {Server} (task : module) : M Server module :=
  ret (Module (endpoint_name task) (api_base task) (provider task)
         (endpoint_api_key task) (api_version task)
         (match metadata task with Some m => Some m | None => Some [] end)
         (state task) (check_mode task)).

Definition _extract_provider (litellm_params : value) : res value :=
  model <- Py.get litellm_params "model" (JStr "") ;;
  has_slash <- Py.contains "/" model ;;
  if has_slash : bool then
    match model with
    | JStr s => Ok (JStr (hd "" (Py.split "/" s)))
    | _ => Exn (AttributeError "split")
    end
  else Ok (JStr "unknown").

(** The loop of [get_endpoints]: the models that carry an [api_base] among
    their [litellm_params], each turned into an endpoint record. *)
Fixpoint endpoints_among (models : list value) : res (list value) :=
  match models with
  | [] => Ok []
  | model :: rest =>
      has_params <- Py.contains "litellm_params" model ;;
      is_endpoint <-
        (if has_params : bool then
           litellm_params <- Py.getitem model "litellm_params" ;;
           Py.contains "api_base" litellm_params
         else ret false) ;;
      if is_endpoint : bool then
        endpoint_name <- Py.get model "model_name" (JStr "unknown") ;;
        litellm_params <- Py.getitem model "litellm_params" ;;
        api_base <- Py.getitem litellm_params "api_base" ;;
        provider <- _extract_provider litellm_params ;;
        metadata <- Py.get model "model_info" (JDict []) ;;
        let endpoint_info :=
          JDict [("endpoint_name", endpoint_name); ("api_base", api_base);
                 ("provider", provider); ("metadata", metadata)] in
        endpoints <- endpoints_among rest ;;
        ret (endpoint_info :: endpoints)
      else endpoints_among rest
  end.

(** What [get_endpoints] makes of the decoded body of [/model/info]. *)
Definition endpoints_of (data : value) : res value :=
  has_data <- Py.contains "data" data ;;
  endpoints <-
    (if has_data : bool then
       models <- Py.getitem data "data" ;;
       entries <- Py.iter models ;;
       endpoints_among entries
     else ret []) ;;
  ret (JDict [("endpoints", JList endpoints)]).

(** The loop of [get_endpoint]. *)
Fixpoint first_endpoint (endpoints : list value) (endpoint_name : string)
  : res value :=
  match endpoints with
  | [] => Ok JNull
  | endpoint :: rest =>
      n <- Py.get endpoint "endpoint_name" JNull ;;
      if Py.equal n (JStr endpoint_name) then Ok endpoint
      else first_endpoint rest endpoint_name
  end.

(** The body sent by [create_endpoint].  [metadata or {}] is the
    parameter's own dictionary, which the assignment of [endpoint_type]
    changes in place; [main] does not read it again. *)
Definition create_endpoint_data (endpoint_name : string)
  (api_base provider api_key api_version : option string)
  (metadata : option dict) : dict :=
  let litellm_params :=
    [("model", JStr (Py.format provider ++ "/endpoint-" ++ endpoint_name));
     ("api_base", Py.of_str api_base)] in
  let litellm_params := Py.set_if (Py.truthy_str api_key) litellm_params
                          "api_key" (Py.of_str api_key) in
  let litellm_params := Py.set_if (Py.truthy_str api_version) litellm_params
                          "api_version" (Py.of_str api_version) in
  let model_info := if Py.truthy_dict metadata
                    then match metadata with Some m => m | None => [] end
                    else [] in
  let model_info := Py.setitem model_info "endpoint_type"
                      (JStr "managed_endpoint") in
  [("model_name", JStr endpoint_name);
   ("litellm_params", JDict litellm_params);
   ("model_info", JDict model_info)].

Definition delete_endpoint_msg : message :=
  [Lit "Eliminazione endpoint non supportata direttamente dall'API. Rimuovi l'endpoint dal file di configurazione config.yaml"].

Section Manager.

Context {Server : Type} (handle : Server -> request -> reply * Server).

Definition get_endpoints : M Server value :=
  response <- _make_request handle GET "/model/info" None ;;
  if (status_code response =? 200)%Z then
    data <- lift (response_json response) ;;
    lift (endpoints_of data)
  else fail_json [Lit "Errore nel recupero degli endpoint: ";
                  Num (status_code response); Lit " - "; Lit (text response)].

Definition get_endpoint (endpoint_name : string) : M Server value :=
  endpoints <- get_endpoints ;;
  l <- lift (Py.get endpoints "endpoints" (JList [])) ;;
  entries <- lift (Py.iter l) ;;
  lift (first_endpoint entries endpoint_name).

Definition create_endpoint (endpoint_name : string)
  (api_base provider api_key api_version : option string)
  (metadata : option dict) : M Server value :=
  let data := create_endpoint_data endpoint_name api_base provider api_key
                api_version metadata in
  response <- _make_request handle POST "/model/new" (Some (JDict data)) ;;
  if (status_code response =? 200)%Z || (status_code response =? 201)%Z
  then lift (response_json response)
  else fail_json [Lit "Errore nella creazione dell'endpoint: ";
                  Num (status_code response); Lit " - "; Lit (text response)].

Definition delete_endpoint (endpoint_name : string) : M Server unit :=
  fail_json delete_endpoint_msg.

(** The body of the outer [try] of [main]. *)
Definition main_body (m : module) : M Server result :=
  let changed := false in
  let message := [Lit ""] in
  '(changed, message) <-
    (match state m with
     | present =>
         (if negb (Py.truthy_str (api_base m)) || negb (Py.truthy_str (provider m))
          then fail_json [Lit "api_base e provider sono richiesti quando state è 'present'"]
          else ret tt) ;;
         existing_endpoint <- get_endpoint (endpoint_name m) ;;
         if Py.truthy existing_endpoint then
           ret (changed,
                [Lit ("Endpoint '" ++ endpoint_name m ++ "' già esistente")])
         else
           create_endpoint (endpoint_name m) (api_base m) (provider m)
             (endpoint_api_key m) (api_version m) (metadata m) ;;
           ret (true,
                [Lit ("Endpoint '" ++ endpoint_name m ++ "' creato con successo")])
     | absent =>
         existing_endpoint <- get_endpoint (endpoint_name m) ;;
         if Py.truthy existing_endpoint then
           try_except
             (delete_endpoint (endpoint_name m) ;;
              ret (true,
                   [Lit ("Endpoint '" ++ endpoint_name m ++ "' eliminato con successo")]))
             (fun e => fail_json [ExnStr e])
         else
           ret (changed,
                [Lit ("Endpoint '" ++ endpoint_name m ++ "' non trovato")])
     end) ;;
  endpoint <- (match state m with
               | present => get_endpoint (endpoint_name m)
               | absent => ret JNull
               end) ;;
  ret (Result changed endpoint message).

Definition main (task : module) : M Server result :=
  m <- AnsibleModule task ;;
  try_except (main_body m)
    (fun e => fail_json [Lit "Errore imprevisto: "; ExnStr e]).

End Manager.

End Endpoint.

(* ================================================================== *)
(** * litellm_model.py *)
(* ================================================================== *)

Module Model.

Record module : Type := Module {
  model_name : string;
  litellm_params : option dict;
  model_info : option dict;
  state : lifecycle;
  check_mode : bool
}.

(** [AnsibleModule(argument_spec, supports_check_mode=True)]: no
    [required_if]; [default={}] for [model_info]. *)
Definition AnsibleModule {Server} (task : module) : M Server module :=
  ret (Module (model_name task) (litellm_params task)
         (match model_info task with Some m => Some m | None => Some [] end)
         (state task) (check_mode task)).

(** The loop of [get_model]. *)
Fixpoint first_model (models : list value) (model_name : string) : res value :=
  match models with
  | [] => Ok JNull
  | model :: rest =>
      n <- Py.get model "model_name" JNull ;;
      if Py.equal n (JStr model_name) then Ok model
      else first_model rest model_name
  end.

(** What [get_model] makes of the decoded body of [/model/info]. *)
Definition model_of (models : value) (model_name : string) : res value :=
  has_data <- Py.contains "data" models ;;
  if has_data : bool then
    l <- Py.getitem models "data" ;;
    entries <- Py.iter l ;;
    first_model entries model_name
  else ret JNull.

(** The body sent by [create_model]. *)
Definition create_model_data (model_name : string)
  (litellm_params model_info : option dict) : dict :=
  let data := [("model_name", JStr model_name);
               ("litellm_params", Py.of_dict litellm_params)] in
  Py.set_if (Py.truthy_dict model_info) data
    "model_info" (Py.of_dict model_info).

Definition delete_model_msg : message :=
  [Lit "Eliminazione modelli non supportata direttamente dall'API. Rimuovi il modello dal file di configurazione config.yaml"].

Section Manager.

Context {Server : Type} (handle : Server -> request -> reply * Server).

(** This manager's [_make_request] has no PUT branch. *)
Definition _make_request (m : method) (endpoint : string)
  (data : option value) : M Server response :=
  match m with
  | PUT => fail_json [Lit "Metodo HTTP non supportato: PUT"]
  | _ => _make_request handle m endpoint data
  end.

Definition get_models : M Server value :=
  response <- _make_request GET "/model/info" None ;;
  if (status_code response =? 200)%Z then lift (response_json response)
  else fail_json [Lit "Errore nel recupero dei modelli: ";
                  Num (status_code response); Lit " - "; Lit (text response)].

Definition get_model (model_name : string) : M Server value :=
  models <- get_models ;;
  lift (model_of models model_name).

Definition create_model (model_name : string)
  (litellm_params model_info : option dict) : M Server value :=
  let data := create_model_data model_name litellm_params model_info in
  response <- _make_request POST "/model/new" (Some (JDict data)) ;;
  if (status_code response =? 200)%Z || (status_code response =? 201)%Z
  then lift (response_json response)
  else fail_json [Lit "Errore nella creazione del modello: ";
                  Num (status_code response); Lit " - "; Lit (text response)].

Definition delete_model (model_name : string) : M Server unit :=
  fail_json delete_model_msg.

(** The body of the outer [try] of [main]. *)
Definition main_body (m : module) : M Server result :=
  let changed := false in
  let message := [Lit ""] in
  '(changed, message) <-
    (match state m with
     | present =>
         (if negb (Py.truthy_dict (litellm_params m))
          then fail_json [Lit "litellm_params è richiesto quando state è 'present'"]
          else ret tt) ;;
         existing_model <- get_model (model_name m) ;;
         if Py.truthy existing_model then
           ret (changed,
                [Lit ("Modello '" ++ model_name m ++ "' già esistente")])
         else
           create_model (model_name m) (litellm_params m) (model_info m) ;;
           ret (true,
                [Lit ("Modello '" ++ model_name m ++ "' creato con successo")])
     | absent =>
         existing_model <- get_model (model_name m) ;;
         if Py.truthy existing_model then
           try_except
             (delete_model (model_name m) ;;
              ret (true,
                   [Lit ("Modello '" ++ model_name m ++ "' eliminato con successo")]))
             (fun e => fail_json [ExnStr e])
         else
           ret (changed,
                [Lit ("Modello '" ++ model_name m ++ "' non trovato")])
     end) ;;
  model <- (match state m with
            | present => get_model (model_name m)
            | absent => ret JNull
            end) ;;
  ret (Result changed model message).

Definition main (task : module) : M Server result :=
  m <- AnsibleModule task ;;
  try_except (main_body m)
    (fun e => fail_json [Lit "Errore imprevisto: "; ExnStr e]).

End Manager.

End Model.

(* ================================================================== *)
(** * Observing a run *)
(* ================================================================== *)

(** The endpoint record that [get_endpoints] builds from the model
    [create_endpoint] registers. *)
Definition endpoint_record (endpoint_name : string)
  (api_base : option string) (provider : string) (metadata : value) : value :=
  JDict [("endpoint_name", JStr endpoint_name);
         ("api_base", Py.of_str api_base);
         ("provider", JStr provider);
         ("metadata", metadata)].

(** The requests a computation adds to the log, in order. *)
Definition sends {Server A} (c : M Server A) (w : world Server)
  (calls : list request) : Prop :=
  log (snd (c w)) = log w ++ calls.

(** The run ends in [exit_json] with the given change flag. *)
Definition reports {Server} (c : M Server result) (w : world Server)
  (flag : bool) : Prop :=
  exists r, fst (c w) = Done r /\ changed r = flag.

(** The run ends in [fail_json] or in an uncaught exception. *)
Definition is_error {A} (o : outcome A) : Prop :=
  match o with
  | Done _ => False
  | _ => True
  end.

(** What the server answers to a request made in world [w]. *)
Definition answer {Server} (handle : Server -> request -> reply * Server)
  (w : world Server) (rq : request) : reply :=
  fst (handle (srv w) rq).

(** The answer carries one of the given status codes. *)
Definition status_in (codes : list Z) (r : reply) : Prop :=
  exists rsp, r = Reply rsp /\ In (status_code rsp) codes.

(** The answer carries one of the given status codes and a JSON body. *)
Definition accepted (codes : list Z) (r : reply) : Prop :=
  exists rsp, r = Reply rsp /\ In (status_code rsp) codes /\ json rsp <> None.

(** The calls [main] makes in its create, update and delete branches, and
    the comparison it makes before an update, as functions of the module
    parameters. *)
Definition team_create_call (m : Team.module) : request :=
  Request POST "/team/new"
    (Some (JDict (Team.create_team_data (Team.name m) (Team.metadata m)
                    (Team.max_budget m) (Team.models m)))).

Definition team_update_call (m : Team.module) (id : value) : request :=
  Request POST "/team/update"
    (Some (JDict (Team.update_team_data id (Team.name m) (Team.metadata m)
                    (Team.max_budget m) (Team.models m)))).

Definition team_delete_call (id : value) : request :=
  Request POST "/team/delete" (Some (JDict [("team_ids", JList [id])])).

Definition team_differs (m : Team.module) (existing : value) : res bool :=
  Team.team_needs_update existing (Team.name m) (Team.metadata m)
    (Team.max_budget m) (Team.models m).

Definition key_create_call (m : VirtualKey.module) : request :=
  Request POST "/key/generate"
    (Some (JDict (VirtualKey.create_key_data (VirtualKey.key_alias m)
                    (VirtualKey.team_id m) (VirtualKey.models m)
                    (VirtualKey.max_budget m) (VirtualKey.budget_duration m)
                    (VirtualKey.metadata m) (VirtualKey.expires m)
                    (VirtualKey.max_parallel_requests m)
                    (VirtualKey.tpm_limit m) (VirtualKey.rpm_limit m)))).

Definition key_update_call (m : VirtualKey.module) (id : value) : request :=
  Request POST "/key/update"
    (Some (JDict (VirtualKey.update_key_data id (VirtualKey.key_alias m)
                    (VirtualKey.team_id m) (VirtualKey.models m)
                    (VirtualKey.max_budget m) (VirtualKey.budget_duration m)
                    (VirtualKey.metadata m) (VirtualKey.expires m)
                    (VirtualKey.max_parallel_requests m)
                    (VirtualKey.tpm_limit m) (VirtualKey.rpm_limit m)))).

Definition key_delete_call (id : value) : request :=
  Request POST "/key/delete" (Some (JDict [("keys", JList [id])])).

Definition key_differs (m : VirtualKey.module) (existing : value) : res bool :=
  VirtualKey.key_needs_update existing (VirtualKey.key_alias m)
    (VirtualKey.team_id m) (VirtualKey.models m) (VirtualKey.max_budget m)
    (VirtualKey.budget_duration m) (VirtualKey.metadata m)
    (VirtualKey.expires m) (VirtualKey.max_parallel_requests m)
    (VirtualKey.tpm_limit m) (VirtualKey.rpm_limit m).

Definition team_in_check_mode (m : Team.module) : Team.module :=
  Team.Module (Team.team_id m) (Team.name m) (Team.metadata m)
    (Team.max_budget m) (Team.models m) (Team.state m) true.

Definition key_in_check_mode (m : VirtualKey.module) : VirtualKey.module :=
  VirtualKey.Module (VirtualKey.key_id m) (VirtualKey.key_alias m)
    (VirtualKey.team_id m) (VirtualKey.models m) (VirtualKey.max_budget m)
    (VirtualKey.budget_duration m) (VirtualKey.metadata m)
    (VirtualKey.expires m) (VirtualKey.max_parallel_requests m)
    (VirtualKey.tpm_limit m) (VirtualKey.rpm_limit m) (VirtualKey.state m)
    true.

Definition is_list (v : value) : bool :=
  match v with JList _ => true | _ => false end.

(** The world after one request. *)
Definition after {Server} (handle : Server -> request -> reply * Server)
  (w : world Server) (rq : request) : world Server :=
  World (snd (handle (srv w) rq)) (log w ++ [rq]).

(** [module.params] of the key module once the default of [metadata] is
    filled in. *)
Definition key_params (task : VirtualKey.module) : VirtualKey.module :=
  VirtualKey.Module (VirtualKey.key_id task) (VirtualKey.key_alias task)
    (VirtualKey.team_id task) (VirtualKey.models task)
    (VirtualKey.max_budget task) (VirtualKey.budget_duration task)
    (match VirtualKey.metadata task with Some m => Some m | None => Some [] end)
    (VirtualKey.expires task) (VirtualKey.max_parallel_requests task)
    (VirtualKey.tpm_limit task) (VirtualKey.rpm_limit task)
    (VirtualKey.state task) (VirtualKey.check_mode task).

(* ================================================================== *)
(** * Remote APIs and tasks to run the modules on *)
(* ================================================================== *)

(** A server without state that answers by a fixed table of routes, and
    with 404 elsewhere. *)
Fixpoint route (table : list (method * string * response)) (rq : request)
  : response :=
  match table with
  | [] => Response 404 None "Not Found"
  | (m, path, rsp) :: rest =>
      if (match m, rq_method rq with
          | GET, GET | POST, POST | PUT, PUT | DELETE, DELETE => true
          | _, _ => false
          end) && (path =? rq_endpoint rq)
      then rsp else route rest rq
  end.

Definition canned (table : list (method * string * response)) (s : unit)
  (rq : request) : reply * unit :=
  (Reply (route table rq), s).

Definition ok_json (v : value) : response := Response 200 (Some v) "".

(** A server that keeps the models registered so far: [POST /model/new]
    stores the body it receives, [GET /model/info] lists what is stored. *)
Definition model_store (models : list value) (rq : request)
  : reply * list value :=
  match rq_method rq, rq_json rq with
  | POST, Some body =>
      if rq_endpoint rq =? "/model/new"
      then (Reply (ok_json body), models ++ [body])
      else (Reply (Response 404 None "Not Found"), models)
  | GET, _ =>
      if rq_endpoint rq =? "/model/info"
      then (Reply (ok_json (JDict [("data", JList models)])), models)
      else (Reply (Response 404 None "Not Found"), models)
  | _, _ => (Reply (Response 404 None "Not Found"), models)
  end.

(** A team as the API reports it. *)
Definition team_x (budget : Q) : value :=
  JDict [("team_id", JStr "t1"); ("team_alias", JStr "team-x");
         ("max_budget", JNum budget); ("metadata", JDict [])].

Definition team_api : unit -> request -> reply * unit :=
  canned [(POST, "/team/new", ok_json (team_x (1000 # 1)));
          (POST, "/team/update", ok_json (team_x (1000 # 1)));
          (POST, "/team/delete", ok_json (JDict []))].

Definition team_x_task (s : lifecycle) : Team.module :=
  Team.Module None (Some "team-x") (Some []) (Some (1000 # 1)%Q) None s false.

(** A key as the API reports it. *)
Definition key_x (budget : Q) : value :=
  JDict [("token", JStr "k1"); ("key_alias", JStr "alias-x");
         ("max_budget", JNum budget); ("metadata", JDict [])].

Definition key_x_api : unit -> request -> reply * unit :=
  canned [(POST, "/key/generate", ok_json (key_x (1000 # 1)));
          (POST, "/key/update", ok_json (key_x (1000 # 1)));
          (POST, "/key/delete", ok_json (JDict []))].

Definition key_x_task (s : lifecycle) : VirtualKey.module :=
  VirtualKey.Module None (Some "alias-x") None None (Some (1000 # 1)%Q) None
    (Some []) None None None None s false.

(** An API that lists no model yet and accepts registrations. *)
Definition empty_model_api : unit -> request -> reply * unit :=
  canned [(GET, "/model/info", ok_json (JDict [("data", JList [])]));
          (POST, "/model/new", ok_json (JDict []))].

Definition openai_endpoint_task (check : bool) : Endpoint.module :=
  Endpoint.Module "openai-prod" (Some "https://api.openai.com/v1")
    (Some "openai") None None None present check.

Definition gpt4_model_task (check : bool) : Model.module :=
  Model.Module "gpt-4" (Some [("model", JStr "gpt-4")]) None present check.

(** An API that lists one endpoint, [old-endpoint]. *)
Definition old_endpoint_api : unit -> request -> reply * unit :=
  canned [(GET, "/model/info",
           ok_json (JDict [("data", JList [JDict
             [("model_name", JStr "old-endpoint");
              ("litellm_params",
               JDict [("model", JStr "openai/endpoint-old-endpoint");
                      ("api_base", JStr "https://api.openai.com/v1")]);
              ("model_info",
               JDict [("endpoint_type", JStr "managed_endpoint")])]])]))].

Definition old_endpoint_task : Endpoint.module :=
  Endpoint.Module "old-endpoint" None None None None None absent false.

Definition old_model_task : Model.module :=
  Model.Module "old-endpoint" None None absent false.

Definition team_t1 : value :=
  JDict [("team_id", JStr "t1"); ("team_alias", JStr "team-x")].

Definition team_t2 : value :=
  JDict [("team_id", JStr "t2"); ("team_alias", JStr "team-y")].

Definition key_k1 : value :=
  JDict [("token", JStr "k1"); ("key_alias", JStr "alias-x")].

Definition key_k2 : value :=
  JDict [("token", JStr "k2"); ("key_alias", JStr "alias-y")].

(** An API with two teams and two keys. *)
Definition two_of_each_api : unit -> request -> reply * unit :=
  canned [(GET, "/team/t1", ok_json team_t1);
          (GET, "/team/list", ok_json (JList [team_t1; team_t2]));
          (GET, "/key/info?key=k1", ok_json key_k1);
          (GET, "/key/list", ok_json (JDict [("keys", JList [key_k1; key_k2])]))].

(** A task whose ID names [t1] and whose name names [t2]. *)
Definition disagreeing_team_task : Team.module :=
  Team.Module (Some "t1") (Some "team-y") (Some []) None None present false.

Definition disagreeing_key_task : VirtualKey.module :=
  VirtualKey.Module (Some "k1") (Some "alias-y") None None None None (Some [])
    None None None None present false.

(** An API whose listings answer 200 with an error object. *)
Definition error_object_api : unit -> request -> reply * unit :=
  canned [(GET, "/key/list", ok_json (JDict [("error", JStr "rate limited")]));
          (GET, "/team/list", ok_json (JDict [("error", JStr "rate limited")]));
          (POST, "/key/generate", ok_json (JDict [("key", JStr "sk-1")]))].

Definition prod_key_task : VirtualKey.module :=
  VirtualKey.Module None (Some "ds-team-prod-key") None None None None None
    None None None None present false.

(** An API that generates keys. *)
Definition key_api : unit -> request -> reply * unit :=
  canned [(POST, "/key/generate", ok_json (JDict [("key", JStr "sk-1")]))].

Definition anonymous_key_task : VirtualKey.module :=
  VirtualKey.Module None None None None (Some (10 # 1)%Q) None None None None
    None None present false.

(** A team the API reports with some metadata of its own. *)
Definition owned_team (budget : Q) : value :=
  JDict [("team_id", JStr "t1"); ("team_alias", JStr "team-x");
         ("max_budget", JNum budget);
         ("metadata", JDict [("owner", JStr "ml")])].

Definition owned_team_api : unit -> request -> reply * unit :=
  canned [(GET, "/team/list", ok_json (JList [owned_team (500 # 1)]));
          (POST, "/team/update", ok_json (owned_team (500 # 1)))].

(** Team tasks that name no team: without a name ([name] left out or set
    to [null], which [null_name] tells apart), and with an empty name. *)
Definition nameless_team_task : Team.module :=
  Team.Module None None None None None present false.

Definition empty_name_team_task : Team.module :=
  Team.Module None (Some "") None None None present false.

Definition null_name : Team.nulls := Team.Nulls false true.

(** A task that declares the name of the team and nothing else. *)
Definition name_only_task : Team.module :=
  Team.Module None (Some "team-x") None None None present false.

Definition budget_task : Team.module :=
  Team.Module None (Some "team-x") None (Some (1000 # 1)%Q) None present false.

Definition key_456 : value :=
  JDict [("token", JStr "key-456"); ("max_budget", JNum (500 # 1));
         ("metadata", JDict [("environment", JStr "production")])].

Definition key_456_api : unit -> request -> reply * unit :=
  canned [(GET, "/key/info?key=key-456", ok_json key_456);
          (POST, "/key/update", ok_json key_456)].

(** The task of the module's own example "Update key budget". *)
Definition key_budget_task : VirtualKey.module :=
  VirtualKey.Module (Some "key-456") None None None (Some (1000 # 1)%Q) None
    None None None None None present false.

(* ================================================================== *)
(** * Module parameters, entry tests and more servers *)
(* ================================================================== *)

(** [module.params] of the team module once the default of [metadata] is
    filled in. *)
Definition team_params (task : Team.module) : Team.module :=
  Team.Module (Team.team_id task) (Team.name task)
    (match Team.metadata task with Some m => Some m | None => Some [] end)
    (Team.max_budget task) (Team.models task) (Team.state task)
    (Team.check_mode task).

(** A server that cannot be reached: every request raises. *)
Definition unreachable (e : string) (s : unit) (rq : request)
  : reply * unit :=
  (RequestException e, s).

(** The tasks [required_if] turns down. *)
Definition team_rejected (task : Team.module) : bool :=
  match Team.state task, Team.name task, Team.team_id task with
  | present, None, _ => true
  | absent, _, None => true
  | _, _, _ => false
  end.

Definition key_rejected (task : VirtualKey.module) : bool :=
  match VirtualKey.state task, VirtualKey.key_id task with
  | absent, None => true
  | _, _ => false
  end.

(** Tasks that declare what the remote team and key already have. *)
Definition settled_team_task : Team.module :=
  Team.Module None (Some "team-x") (Some [("owner", JStr "ml")])
    (Some (500 # 1)%Q) None present false.

Definition settled_key_task : VirtualKey.module :=
  VirtualKey.Module (Some "key-456") None None None (Some (500 # 1)%Q) None
    (Some [("environment", JStr "production")]) None None None None present
    false.

(** A task that names a team (a key) by an ID the API does not know. *)
Definition unknown_team_task : Team.module :=
  Team.Module (Some "t9") (Some "team-x") None None None present false.

Definition unknown_key_task : VirtualKey.module :=
  VirtualKey.Module (Some "k9") None None None (Some (10 # 1)%Q) None None
    None None None None present false.

(** A task that declares [old-endpoint] with another base URL and another
    provider than the API lists for it. *)
Definition moved_endpoint_task : Endpoint.module :=
  Endpoint.Module "old-endpoint" (Some "https://eu.example.com/v1")
    (Some "azure") None None None present false.

Definition moved_model_task : Model.module :=
  Model.Module "old-endpoint" (Some [("model", JStr "azure/gpt-4")]) None
    present false.

Definition incomplete_endpoint_task : Endpoint.module :=
  Endpoint.Module "openai-prod" (Some "https://api.openai.com/v1") None None
    None None present false.

Definition incomplete_model_task : Model.module :=
  Model.Module "gpt-4" None None present false.

(** The test the loop of [get_key_by_alias] makes on one entry, and the
    one the loop of [get_team_by_name] makes on an entry that is a dict. *)
Definition key_matches (alias : string) (key : value) : bool :=
  match key with
  | JDict d =>
      Py.equal (match Py.lookup d "key_alias" with Some x => x | None => JNull end)
        (JStr alias)
      || Py.equal (match Py.lookup d "key_name" with Some x => x | None => JNull end)
           (JStr alias)
  | _ => false
  end.

Definition team_matches (name : string) (team : value) : bool :=
  match team with
  | JDict d =>
      Py.equal (match Py.lookup d "team_alias" with Some x => x | None => JNull end)
        (JStr name)
      || Py.equal (match Py.lookup d "team_name" with Some x => x | None => JNull end)
           (JStr name)
  | _ => false
  end.

(** A listing with two keys under the same alias. *)
Definition twin_keys : list value :=
  [JStr "noise";
   JDict [("token", JStr "k1"); ("key_alias", JStr "other")];
   JDict [("token", JStr "k2"); ("key_alias", JStr "twin")];
   JDict [("token", JStr "k3"); ("key_name", JStr "twin")]].

(** A team whose list of models the API reports as [null]. *)
Definition team_with_null_models : value :=
  JDict [("team_id", JStr "t1"); ("team_alias", JStr "team-x");
         ("models", JNull)].

Definition gpt4_team_task : Team.module :=
  Team.Module None (Some "team-x") (Some []) None (Some ["gpt-4"]) present
    false.

(** A model as [litellm_model] registers it, without a base URL. *)
Definition plain_gpt4 : value :=
  JDict (Model.create_model_data "gpt-4" (Some [("model", JStr "gpt-4")]) None).
(** The listing request of the endpoint and model modules, and the model
    each of them registers for a task. *)
Definition listing_call : request := Request GET "/model/info" None.

Definition endpoint_model (task : Endpoint.module) : value :=
  JDict (Endpoint.create_endpoint_data (Endpoint.endpoint_name task)
           (Endpoint.api_base task) (Endpoint.provider task)
           (Endpoint.endpoint_api_key task) (Endpoint.api_version task)
           (match Endpoint.metadata task with
            | Some m => Some m
            | None => Some []
            end)).

Definition registered_model (task : Model.module) : value :=
  JDict (Model.create_model_data (Model.model_name task)
           (Model.litellm_params task)
           (match Model.model_info task with
            | Some m => Some m
            | None => Some []
            end)).

(** Another model the server may hold already. *)
Definition plain_gpt4_turbo : value :=
  JDict (Model.create_model_data "gpt-4-turbo"
           (Some [("model", JStr "gpt-4-turbo")]) None).

(** Every dictionary inside [v] holds each of its keys once, as a decoded
    JSON object or a YAML mapping does. *)
Fixpoint unique_keys (v : value) : bool :=
  match v with
  | JList l =>
      (fix all (l : list value) : bool :=
         match l with
         | [] => true
         | x :: l' => unique_keys x && all l'
         end) l
  | JDict d =>
      (fix all (d : dict) : bool :=
         match d with
         | [] => true
         | (k, x) :: d' =>
             negb (existsb (String.eqb k) (Py.keys d')) && unique_keys x
             && all d'
         end) d
  | _ => true
  end.

(** A team and a key as a server holds them that stores the body of the
    create call as it is, under an identifier of its own. *)
Definition team_as_created (id : value) (m : Team.module) : value :=
  JDict (Py.setitem
           (Team.create_team_data (Team.name m) (Team.metadata m)
              (Team.max_budget m) (Team.models m))
           "team_id" id).

Definition key_as_created (id : value) (m : VirtualKey.module) : value :=
  JDict (Py.setitem
           (VirtualKey.create_key_data (VirtualKey.key_alias m)
              (VirtualKey.team_id m) (VirtualKey.models m)
              (VirtualKey.max_budget m) (VirtualKey.budget_duration m)
              (VirtualKey.metadata m) (VirtualKey.expires m)
              (VirtualKey.max_parallel_requests m)
              (VirtualKey.tpm_limit m) (VirtualKey.rpm_limit m))
           "token" id).

(** [metadata == {}] for a parameter that is set. *)
Definition empty_metadata (metadata : option dict) : bool :=
  match metadata with
  | Some [] => true
  | _ => false
  end.

(* ================================================================== *)
(** * Change detection as the specification words it *)
(* ================================================================== *)

(** The value a remote resource has for a field; a field it does not
    have is absent. *)
Definition remote_field (remote : value) (k : string) : value :=
  match remote with
  | JDict d => match Py.lookup d k with Some v => v | None => JNull end
  | _ => JNull
  end.

(** A list field of the remote resource, as the set of its elements. *)
Definition remote_set (remote : value) (k : string) : list value :=
  match remote_field remote k with
  | JList l => l
  | _ => []
  end.

(** A field the desired state declares differs when its value is not
    equal to the remote one; a field it does not declare never differs. *)
Definition declared_differs (remote : value) (k : string)
  (declared : option value) : bool :=
  match declared with
  | Some v => negb (Py.equal (remote_field remote k) v)
  | None => false
  end.

(** The same for a list field, compared as a set. *)
Definition declared_set_differs (remote : value) (k : string)
  (declared : option (list string)) : bool :=
  match declared with
  | Some l => negb (Py.set_eq (remote_set remote k) (map JStr l))
  | None => false
  end.

(** "Some declared comparable field differs", for a team and for a key. *)
Definition team_fields_differ (desired : Team.module) (remote : value)
  : bool :=
  declared_differs remote "team_alias" (option_map JStr (Team.name desired))
  || declared_differs remote "metadata"
       (option_map JDict (Team.metadata desired))
  || declared_differs remote "max_budget"
       (option_map JNum (Team.max_budget desired))
  || declared_set_differs remote "models" (Team.models desired).

Definition key_fields_differ (desired : VirtualKey.module) (remote : value)
  : bool :=
  declared_differs remote "key_alias"
    (option_map JStr (VirtualKey.key_alias desired))
  || declared_differs remote "team_id"
       (option_map JStr (VirtualKey.team_id desired))
  || declared_set_differs remote "models" (VirtualKey.models desired)
  || declared_differs remote "max_budget"
       (option_map JNum (VirtualKey.max_budget desired))
  || declared_differs remote "budget_duration"
       (option_map JStr (VirtualKey.budget_duration desired))
  || declared_differs remote "metadata"
       (option_map JDict (VirtualKey.metadata desired))
  || declared_differs remote "expires"
       (option_map JStr (VirtualKey.expires desired))
  || declared_differs remote "max_parallel_requests"
       (option_map Py.int (VirtualKey.max_parallel_requests desired))
  || declared_differs remote "tpm_limit"
       (option_map Py.int (VirtualKey.tpm_limit desired))
  || declared_differs remote "rpm_limit"
       (option_map Py.int (VirtualKey.rpm_limit desired)).

(** The comparison the default of [metadata] adds for a task that leaves
    [metadata] out: the remote metadata against [{}]. *)
Definition default_metadata_differs (metadata : option dict) (remote : value)
  : bool :=
  negb (Py.is_some metadata)
  && negb (Py.equal (remote_field remote "metadata") (JDict [])).

(** The remote resource lists its models, if it has any, as a list of
    strings, numbers, booleans or nulls. *)
Definition lists_models (remote : value) : bool :=
  match remote with
  | JDict d =>
      match Py.lookup d "models" with
      | Some (JList l) => forallb Py.hashable l
      | Some _ => false
      | None => true
      end
  | _ => false
  end.

(** A string parameter that is set is not empty. *)
Definition named (s : option string) : bool :=
  match s with
  | Some s => negb (s =? "")
  | None => true
  end.

(** A task that declares the budget [key-456] has, and nothing else. *)
Definition same_budget_key_task : VirtualKey.module :=
  VirtualKey.Module (Some "key-456") None None None (Some (500 # 1)%Q) None
    None None None None None present false.

(** An API that lists two teams and two keys and deletes on request, and
    tasks that ask for the removal of [team-x] and of [alias-x] by name,
    with the identifier set to [null]. *)
Definition removal_api : unit -> request -> reply * unit :=
  canned [(GET, "/team/list", ok_json (JList [team_t1; team_t2]));
          (POST, "/team/delete", ok_json (JDict []));
          (GET, "/key/list", ok_json (JDict [("keys", JList [key_k1; key_k2])]));
          (POST, "/key/delete", ok_json (JDict []))].

Definition remove_team_x_task : Team.module :=
  Team.Module None (Some "team-x") None None None absent false.

Definition remove_alias_x_task : VirtualKey.module :=
  VirtualKey.Module None (Some "alias-x") None None None None None None None
    None None absent false.

Definition null_team_id : Team.nulls := Team.Nulls true false.

(* ================================================================== *)
(** * Facts about the Python primitives *)
(* ================================================================== *)

Module PyFacts.

Lemma prefix_slash (s : string) :
  String.prefix "/" s =
  match s with
  | EmptyString => false
  | String c _ => Ascii.eqb c "/"
  end.
Proof.
  destruct s as [|c s]; [reflexivity|].
  change (String.prefix "/" (String c s))
    with (if ascii_dec "/" c then String.prefix "" s else false).
  destruct (ascii_dec "/" c) as [<-|n].
  - destruct s; reflexivity.
  - symmetry. apply Ascii.eqb_neq. congruence.
Qed.

(** ['/' in s] says whether some character of [s] is a slash. *)
Lemma has_slash_cons (c : ascii) (s : string) :
  Py.is_substring "/" (String c s) = Ascii.eqb c "/" || Py.is_substring "/" s.
Proof.
  change (Py.is_substring "/" (String c s))
    with (String.prefix "/" (String c s) || Py.is_substring "/" s).
  now rewrite prefix_slash.
Qed.

Lemma has_slash_app (p rest : string) :
  Py.is_substring "/" (p ++ String "/" rest) = true.
Proof.
  induction p as [|c p IH].
  - simpl (_ ++ _)%string. rewrite has_slash_cons. reflexivity.
  - simpl (_ ++ _)%string. rewrite has_slash_cons, IH. apply orb_true_r.
Qed.

Lemma split_nonempty (sep : ascii) (s : string) : Py.split sep s <> [].
Proof.
  destruct s as [|c s]; simpl; [discriminate|].
  destruct (Ascii.eqb c sep); [discriminate|].
  destruct (Py.split sep s); discriminate.
Qed.


Lemma equal_str_refl (s : string) : Py.equal (JStr s) (JStr s) = true.
Proof. simpl. apply String.eqb_refl. Qed.

Lemma lookup_setitem_same (d : dict) (k : string) (v : value) :
  Py.lookup (Py.setitem d k v) k = Some v.
Proof.
  induction d as [|[k' v'] d IH]; simpl.
  - now rewrite String.eqb_refl.
  - destruct (k' =? k) eqn:E; simpl; rewrite E; [reflexivity | exact IH].
Qed.

Lemma lookup_setitem_other (d : dict) (k k' : string) (v : value) :
  k <> k' -> Py.lookup (Py.setitem d k v) k' = Py.lookup d k'.
Proof.
  intros Hk. induction d as [|[k0 v0] d IH]; simpl.
  - destruct (k =? k') eqn:E; [apply String.eqb_eq in E; contradiction | reflexivity].
  - destruct (k0 =? k) eqn:E; simpl.
    + apply String.eqb_eq in E. subst k0.
      destruct (k =? k') eqn:E'; [apply String.eqb_eq in E'; contradiction | reflexivity].
    + destruct (k0 =? k'); [reflexivity | exact IH].
Qed.

End PyFacts.

Section PayloadKeys.

Variables (d : dict) (k : string).

Lemma in_keys_setitem (v : value) (k0 : string) :
  In k0 (Py.keys (Py.setitem d k v)) -> In k0 (Py.keys d) \/ k0 = k.
Proof.
  induction d as [|[k' v'] d' IH]; simpl.
  - intros [<-|[]]. now right.
  - destruct (k' =? k); simpl; intros [<-|H]; auto.
    destruct (IH H); auto.
Qed.

Lemma in_keys_set_if (c : bool) (v : value) (k0 : string) :
  In k0 (Py.keys (Py.set_if c d k v)) ->
  In k0 (Py.keys d) \/ (k0 = k /\ c = true).
Proof.
  destruct c; simpl; [|now left].
  intros H. apply in_keys_setitem in H. tauto.
Qed.

Lemma in_keys_set_some (o : option value) (k0 : string) :
  In k0 (Py.keys (Py.set_some d k o)) ->
  In k0 (Py.keys d) \/ (k0 = k /\ o <> None).
Proof.
  destruct o as [v|]; simpl; [|now left].
  intros H. apply in_keys_setitem in H.
  destruct H; [now left | right; split; [assumption | discriminate]].
Qed.

Lemma not_in_keys_set_if (c : bool) (v : value) (k0 : string) :
  ~ In k0 (Py.keys d) -> k0 <> k \/ c = false ->
  ~ In k0 (Py.keys (Py.set_if c d k v)).
Proof.
  intros Hd Hk Hin. apply in_keys_set_if in Hin.
  destruct Hin as [Hin|[-> ->]]; [now apply Hd|].
  destruct Hk as [Hk|Hk]; [now apply Hk | discriminate].
Qed.

Lemma not_in_keys_set_some (o : option value) (k0 : string) :
  ~ In k0 (Py.keys d) -> k0 <> k ->
  ~ In k0 (Py.keys (Py.set_some d k o)).
Proof.
  intros Hd Hk Hin. apply in_keys_set_some in Hin.
  destruct Hin as [Hin|[-> _]]; [now apply Hd | now apply Hk].
Qed.

End PayloadKeys.

(** Peels the assignments off a payload, one key at a time. *)
Ltac payload_keys H :=
  repeat first [ apply in_keys_set_some in H; destruct H as [H|[-> H]]
               | apply in_keys_set_if in H; destruct H as [H|[-> H]] ].

(* ================================================================== *)
(** * The derived identifier of an endpoint *)
(* ================================================================== *)



(** Against a server that stores what it is sent, the endpoint module
    finds, right after the creation, the endpoint under its name and with
    its provider; a second run finds it too and changes nothing. *)
Lemma endpoint_created_then_listed :
  let created := endpoint_record "openai-prod"
                   (Some "https://api.openai.com/v1") "openai"
                   (JDict [("endpoint_type", JStr "managed_endpoint")]) in
  exists stored,
    Endpoint.main model_store (openai_endpoint_task false) (World [] [])
    = (Done (Result true created
               [Lit "Endpoint 'openai-prod' creato con successo"]),
       World stored
         [Request GET "/model/info" None;
          Request POST "/model/new"
            (Some (JDict (Endpoint.create_endpoint_data "openai-prod"
                            (Some "https://api.openai.com/v1") (Some "openai")
                            None None (Some []))));
          Request GET "/model/info" None]) /\
    fst (Endpoint.main model_store (openai_endpoint_task false)
           (World stored []))
    = Done (Result false created
              [Lit "Endpoint 'openai-prod' già esistente"]).
Proof. eexists. split; reflexivity. Qed.

(* ================================================================== *)
(** * Change detection on the list of allowed models *)
(* ================================================================== *)

Section SameModels.

Variables (current : value) (k : string) (cur : list value)
          (desired : list string).
Hypothesis Hget : Py.get current k (JList []) = Ok (JList cur).
Hypothesis Hsame : forall x, In x cur <-> In x (map JStr desired).

Lemma strings_hashable (l : list string) :
  forallb Py.hashable (map JStr l) = true.
Proof. induction l; simpl; auto. Qed.

Lemma same_elements_hashable : forallb Py.hashable cur = true.
Proof.
  apply forallb_forall. intros x Hx. apply Hsame, in_map_iff in Hx.
  destruct Hx as (s & <- & _). reflexivity.
Qed.

Lemma same_elements_subset (s t : list value) :
  (forall x, In x s -> In x (map JStr desired)) ->
  (forall x, In x s -> In x t) ->
  Py.subset s t = true.
Proof.
  intros Hstr Hin. apply forallb_forall. intros x Hx.
  apply existsb_exists. exists x. split; [now apply Hin|].
  apply Hstr, in_map_iff in Hx. destruct Hx as (y & <- & _).
  apply PyFacts.equal_str_refl.
Qed.

Lemma same_elements_set_eq : Py.set_eq cur (map JStr desired) = true.
Proof.
  unfold Py.set_eq. apply andb_true_intro. split.
  - apply same_elements_subset; intros x Hx; now apply Hsame.
  - apply same_elements_subset; intros x Hx; [exact Hx | now apply Hsame].
Qed.

(** Two lists with the same elements are equal as sets, whatever their
    order: the comparison of the models never asks for an update. *)
Lemma sets_differ_same_elements :
  Py.sets_differ current k (Py.of_list (Some desired)) = Ok false.
Proof.
  unfold Py.sets_differ. rewrite Hget. cbn [bind Monad_res].
  unfold Py.to_set, Py.of_list, Py.of_strs. cbn [Py.iter bind Monad_res].
  rewrite same_elements_hashable, strings_hashable.
  now rewrite same_elements_set_eq.
Qed.

Lemma flag_if_same_elements (needs_update : bool) :
  Py.flag_if (Py.is_some (Some desired))
    (Py.sets_differ current k (Py.of_list (Some desired))) needs_update
  = Py.flag_if (Py.is_some (@None (list string)))
      (Py.sets_differ current k (Py.of_list None)) needs_update.
Proof. rewrite sets_differ_same_elements. reflexivity. Qed.

End SameModels.

(** C9.  The allowed-model lists are compared as sets.  When the remote
    resource lists the same models as the desired state, in whatever order,
    the models field asks for no update: [team_needs_update] and
    [key_needs_update] answer as if no models had been declared, and when
    no other declared field differs the run ends without a write and with
    [changed=false]. *)
Theorem models_compared_as_sets
  {Server : Type} (handle : Server -> request -> reply * Server)
  (current : value) (cur : list value) (desired : list string) :
  Py.get current "models" (JList []) = Ok (JList cur) ->
  (forall x, In x cur <-> In x (map JStr desired)) ->
  (forall name metadata max_budget,
      Team.team_needs_update current name metadata max_budget (Some desired)
      = Team.team_needs_update current name metadata max_budget None) /\
  (forall key_alias team_id max_budget budget_duration metadata expires
          max_parallel_requests tpm_limit rpm_limit,
      VirtualKey.key_needs_update current key_alias team_id (Some desired)
        max_budget budget_duration metadata expires max_parallel_requests
        tpm_limit rpm_limit
      = VirtualKey.key_needs_update current key_alias team_id None
          max_budget budget_duration metadata expires max_parallel_requests
          tpm_limit rpm_limit) /\
  (forall (m : Team.module) (w : world Server),
      Team.state m = present ->
      Team.models m = Some desired ->
      Py.truthy current = true ->
      Team.team_needs_update current (Team.name m) (Team.metadata m)
        (Team.max_budget m) None = Ok false ->
      exists msg,
        Team.main_reconcile handle m current w
        = (Done (Result false current msg), w)) /\
  (forall (m : VirtualKey.module) (w : world Server),
      VirtualKey.state m = present ->
      VirtualKey.models m = Some desired ->
      Py.truthy current = true ->
      VirtualKey.key_needs_update current (VirtualKey.key_alias m)
        (VirtualKey.team_id m) None (VirtualKey.max_budget m)
        (VirtualKey.budget_duration m) (VirtualKey.metadata m)
        (VirtualKey.expires m) (VirtualKey.max_parallel_requests m)
        (VirtualKey.tpm_limit m) (VirtualKey.rpm_limit m) = Ok false ->
      exists msg,
        VirtualKey.main_reconcile handle m current w
        = (Done (Result false current msg), w)).
Proof.
  intros Hget Hsame.
  assert (Ht : forall name metadata max_budget,
      Team.team_needs_update current name metadata max_budget (Some desired)
      = Team.team_needs_update current name metadata max_budget None).
  { intros. unfold Team.team_needs_update. cbn [bind ret Monad_res].
    repeat match goal with
           | |- context [match Py.flag_if ?g (Py.differs ?c ?f ?v) ?n with
                         | Ok _ => _ | Exn _ => _ end] =>
               destruct (Py.flag_if g (Py.differs c f v) n); [|reflexivity]
           end.
    now rewrite (@flag_if_same_elements current "models" cur desired Hget Hsame). }
  assert (Hk : forall key_alias team_id max_budget budget_duration metadata
                      expires max_parallel_requests tpm_limit rpm_limit,
      VirtualKey.key_needs_update current key_alias team_id (Some desired)
        max_budget budget_duration metadata expires max_parallel_requests
        tpm_limit rpm_limit
      = VirtualKey.key_needs_update current key_alias team_id None
          max_budget budget_duration metadata expires max_parallel_requests
          tpm_limit rpm_limit).
  { intros. unfold VirtualKey.key_needs_update. cbn [bind ret Monad_res].
    repeat match goal with
           | |- context [match Py.flag_if ?g (Py.differs ?c ?f ?v) ?n with
                         | Ok _ => _ | Exn _ => _ end] =>
               destruct (Py.flag_if g (Py.differs c f v) n); [|reflexivity]
           end.
    now rewrite (@flag_if_same_elements current "models" cur desired Hget Hsame). }
  repeat split; [apply Ht | apply Hk | |].
  - intros m w Hs Hm Htr Hn. unfold Team.main_reconcile.
    rewrite Hs, Htr, Hm, Ht, Hn. eexists. reflexivity.
  - intros m w Hs Hm Htr Hn. unfold VirtualKey.main_reconcile.
    rewrite Hs, Htr, Hm, Hk, Hn. eexists. reflexivity.
Qed.

Lemma models_compared_as_sets_witness :
  let current := JDict [("team_id", JStr "t1"); ("team_alias", JStr "team-x");
                        ("models", JList [JStr "gpt-4"; JStr "gpt-3.5"])] in
  let desired := ["gpt-3.5"; "gpt-4"] in
  Py.get current "models" (JList []) = Ok (JList [JStr "gpt-4"; JStr "gpt-3.5"]) /\
  (forall x, In x [JStr "gpt-4"; JStr "gpt-3.5"] <-> In x (map JStr desired)) /\
  Team.team_needs_update current (Some "team-x") None None (Some desired)
  = Ok false /\
  exists msg,
    Team.main_reconcile (canned [])
      (Team.Module None (Some "team-x") None None (Some desired) present false)
      current (World tt [])
    = (Done (Result false current msg), World tt []).
Proof.
  intros current desired.
  assert (H1 : Py.get current "models" (JList [])
               = Ok (JList [JStr "gpt-4"; JStr "gpt-3.5"])) by reflexivity.
  assert (H2 : forall x, In x [JStr "gpt-4"; JStr "gpt-3.5"]
                         <-> In x (map JStr desired)) by (simpl; tauto).
  destruct (@models_compared_as_sets unit (canned []) current _ desired H1 H2)
    as (Ht & _ & Hr & _).
  split; [exact H1|]. split; [exact H2|]. split.
  - rewrite Ht. reflexivity.
  - apply Hr; reflexivity.
Defined.

(* ================================================================== *)
(** * The decision table *)
(* ================================================================== *)

Section Requests.

Context {Server : Type} (handle : Server -> request -> reply * Server).

(** A POST ends up in the log whatever the answer, and returns a response
    exactly when the server gave one. *)
Lemma post_spec (endpoint : string) (data : value) (w : world Server) :
  let rq := Request POST endpoint (Some data) in
  _make_request handle POST endpoint (Some data) w
  = (match answer handle w rq with
     | Reply rsp => Done rsp
     | RequestException e => Failed [Lit "Errore nella richiesta HTTP: "; Lit e]
     end,
     World (snd (handle (srv w) rq)) (log w ++ [rq])).
Proof.
  unfold _make_request, answer. cbn.
  destruct (handle (srv w) _) as [[rsp|e] s']; reflexivity.
Qed.

Lemma get_spec (endpoint : string) (w : world Server) :
  let rq := Request GET endpoint None in
  _make_request handle GET endpoint None w
  = (match answer handle w rq with
     | Reply rsp => Done rsp
     | RequestException e => Failed [Lit "Errore nella richiesta HTTP: "; Lit e]
     end,
     World (snd (handle (srv w) rq)) (log w ++ [rq])).
Proof.
  unfold _make_request, answer. cbn.
  destruct (handle (srv w) _) as [[rsp|e] s']; reflexivity.
Qed.

End Requests.

(** Case analysis on the answer to the one request of a run. *)
Ltac on_answer :=
  match goal with
  | |- context [answer ?h ?w ?rq] =>
      let rsp := fresh "rsp" in
      let e := fresh "e" in
      let E := fresh "E" in
      destruct (answer h w rq) as [rsp|e] eqn:E
  end.

(** Case analysis on the status tests and on the body of a response. *)
Ltac on_response rsp :=
  repeat match goal with
         | |- context [(?a =? ?b)%Z] => destruct (Z.eqb_spec a b)
         end;
  unfold lift, response_json;
  try (destruct (json rsp) eqn:?);
  cbn.

(** Closes "the run reports [changed] exactly when the answer was
    accepted" once the run has been evaluated. *)
Ltac row_iff :=
  split;
  [ intros (?r & ?Hr & ?Hch);
    first [ discriminate
          | eexists; split; [reflexivity|]; repeat split;
            first [ simpl; lia | congruence ] ]
  | intros (?rsp0 & ?Heq & ?Hin);
    first [ discriminate
          | injection Heq as <-; simpl in Hin; exfalso;
            intuition (try lia; congruence)
          | eexists; split; reflexivity ] ].

(** On a value that is not a dict, every guarded comparison raises. *)
Lemma flag_if_differs_nondict (v : value) (g : bool) (k : string)
  (x : value) (n : bool) :
  Py.is_dict v = false ->
  Py.flag_if g (Py.differs v k x) n
  = if g then Exn (AttributeError "get") else Ok n.
Proof. destruct v; try discriminate; destruct g; reflexivity. Qed.

Lemma flag_if_sets_differ_nondict (v : value) (g : bool) (k : string)
  (x : value) (n : bool) :
  Py.is_dict v = false ->
  Py.flag_if g (Py.sets_differ v k x) n
  = if g then Exn (AttributeError "get") else Ok n.
Proof. destruct v; try discriminate; destruct g; reflexivity. Qed.

(** A chain of guarded comparisons on a non-dict answers [false] or
    raises. *)
Ltac nondict_chain H Hd :=
  cbn [bind ret Monad_res] in H;
  repeat (first [ rewrite (@flag_if_differs_nondict _ _ _ _ _ Hd) in H
                | rewrite (@flag_if_sets_differ_nondict _ _ _ _ _ Hd) in H ];
          match type of H with
          | context [if ?g then Exn _ else Ok _] => destruct g
          end;
          cbn iota beta in H;
          try discriminate H);
  try discriminate H.

Lemma team_needs_update_dict (v : value) name metadata max_budget models :
  Team.team_needs_update v name metadata max_budget models = Ok true ->
  Py.is_dict v = true.
Proof.
  intros H. destruct (Py.is_dict v) eqn:Hd; [reflexivity|].
  unfold Team.team_needs_update in H. nondict_chain H Hd.
Qed.

Section TeamRows.

Context {Server : Type} (handle : Server -> request -> reply * Server).
Variables (m : Team.module) (existing : value) (w : world Server).

Lemma team_create_row :
  Team.state m = present -> Team.check_mode m = false ->
  Py.truthy existing = false ->
  sends (Team.main_reconcile handle m existing) w [team_create_call m] /\
  (reports (Team.main_reconcile handle m existing) w true
   <-> accepted [200; 201]%Z (answer handle w (team_create_call m))).
Proof.
  intros Hs Hc Ht. unfold sends, reports, accepted, Team.main_reconcile.
  rewrite Hs, Hc, Ht. unfold Team.create_team. cbn [bind Monad_M negb].
  rewrite post_spec. fold (team_create_call m).
  on_answer; [on_response rsp|]; (split; [reflexivity|]); row_iff.
Qed.

Lemma team_noop_row :
  Team.state m = present -> Py.truthy existing = true ->
  team_differs m existing = Ok false ->
  Team.main_reconcile handle m existing w
  = (Done (Result false existing
             [Lit "Team già esistente con le configurazioni richieste"]), w).
Proof.
  intros Hs Ht Hn. unfold team_differs in Hn. unfold Team.main_reconcile.
  now rewrite Hs, Ht, Hn.
Qed.

Lemma team_update_row :
  Team.state m = present -> Team.check_mode m = false ->
  Py.truthy existing = true ->
  team_differs m existing = Ok true ->
  exists id,
    Py.get existing "team_id" JNull = Ok id /\
    sends (Team.main_reconcile handle m existing) w [team_update_call m id] /\
    (reports (Team.main_reconcile handle m existing) w true
     <-> accepted [200]%Z (answer handle w (team_update_call m id))).
Proof.
  intros Hs Hc Ht Hn. unfold team_differs in Hn.
  pose proof (team_needs_update_dict _ _ _ _ _ Hn) as Hd.
  destruct existing as [| | | | |d] eqn:Ex; try discriminate Hd.
  eexists. split; [reflexivity|].
  unfold sends, reports, accepted, Team.main_reconcile.
  rewrite Hs, Hc, Ht, Hn.
  unfold Team.update_team. cbn [bind Monad_M negb lift Py.get].
  rewrite post_spec.
  match goal with
  | |- context [Team.update_team_data ?id] => fold (team_update_call m id)
  end.
  on_answer; [on_response rsp|]; (split; [reflexivity|]); row_iff.
Qed.

Lemma team_absent_noop_row :
  Team.state m = absent -> Py.truthy existing = false ->
  Team.main_reconcile handle m existing w
  = (Done (Result false (JDict [])
             [Lit "Team non trovato, nessuna azione necessaria"]), w).
Proof.
  intros Hs Ht. unfold Team.main_reconcile. now rewrite Hs, Ht.
Qed.

Lemma team_delete_row (id : value) :
  Team.state m = absent -> Team.check_mode m = false ->
  Py.truthy existing = true ->
  Py.get existing "team_id" JNull = Ok id ->
  sends (Team.main_reconcile handle m existing) w [team_delete_call id] /\
  (reports (Team.main_reconcile handle m existing) w true
   <-> status_in [200]%Z (answer handle w (team_delete_call id))).
Proof.
  intros Hs Hc Ht Hid.
  unfold sends, reports, status_in, Team.main_reconcile.
  rewrite Hs, Hc, Ht, Hid.
  unfold Team.delete_team. cbn [bind Monad_M negb lift].
  rewrite post_spec. fold (team_delete_call id).
  on_answer; [on_response rsp|]; (split; [reflexivity|]); row_iff.
Qed.

(** In check mode the team module sends nothing. *)
Lemma team_check_mode_silent :
  Team.check_mode m = true ->
  forall r w', Team.main_reconcile handle m existing w = (r, w') -> w' = w.
Proof.
  intros Hc r w'. unfold Team.main_reconcile. rewrite Hc.
  destruct (Team.state m), (Py.truthy existing);
    cbn -[Team.team_needs_update];
    try (destruct (Team.team_needs_update _ _ _ _ _) as [[|]|]; cbn);
    congruence.
Qed.

End TeamRows.


Lemma key_needs_update_dict (v : value) key_alias team_id models max_budget
  budget_duration metadata expires max_parallel_requests tpm_limit rpm_limit :
  VirtualKey.key_needs_update v key_alias team_id models max_budget
    budget_duration metadata expires max_parallel_requests tpm_limit rpm_limit
  = Ok true ->
  Py.is_dict v = true.
Proof.
  intros H. destruct (Py.is_dict v) eqn:Hd; [reflexivity|].
  unfold VirtualKey.key_needs_update in H. nondict_chain H Hd.
Qed.

Lemma key_current_key_id_dict (d : dict) :
  exists id, VirtualKey.current_key_id (JDict d) = Ok id.
Proof.
  unfold VirtualKey.current_key_id. cbn.
  destruct (Py.truthy _); eexists; reflexivity.
Qed.

Section KeyRows.

Context {Server : Type} (handle : Server -> request -> reply * Server).
Variables (m : VirtualKey.module) (existing : value) (w : world Server).

Lemma key_create_row :
  VirtualKey.state m = present -> VirtualKey.check_mode m = false ->
  Py.truthy existing = false ->
  sends (VirtualKey.main_reconcile handle m existing) w [key_create_call m] /\
  (reports (VirtualKey.main_reconcile handle m existing) w true
   <-> accepted [200; 201]%Z (answer handle w (key_create_call m))).
Proof.
  intros Hs Hc Ht.
  unfold sends, reports, accepted, VirtualKey.main_reconcile.
  rewrite Hs, Hc, Ht. unfold VirtualKey.create_key. cbn [bind Monad_M negb].
  rewrite post_spec. fold (key_create_call m).
  on_answer; [on_response rsp|]; (split; [reflexivity|]); row_iff.
Qed.

Lemma key_noop_row :
  VirtualKey.state m = present -> Py.truthy existing = true ->
  key_differs m existing = Ok false ->
  VirtualKey.main_reconcile handle m existing w
  = (Done (Result false existing
             [Lit "Virtual key già esistente con le configurazioni richieste"]),
     w).
Proof.
  intros Hs Ht Hn. unfold key_differs in Hn. unfold VirtualKey.main_reconcile.
  now rewrite Hs, Ht, Hn.
Qed.

Lemma key_update_row :
  VirtualKey.state m = present -> VirtualKey.check_mode m = false ->
  Py.truthy existing = true ->
  key_differs m existing = Ok true ->
  exists id,
    VirtualKey.current_key_id existing = Ok id /\
    sends (VirtualKey.main_reconcile handle m existing) w
      [key_update_call m id] /\
    (reports (VirtualKey.main_reconcile handle m existing) w true
     <-> accepted [200]%Z (answer handle w (key_update_call m id))).
Proof.
  intros Hs Hc Ht Hn. unfold key_differs in Hn.
  pose proof (key_needs_update_dict _ _ _ _ _ _ _ _ _ _ _ Hn) as Hd.
  destruct existing as [| | | | |d] eqn:Ex; try discriminate Hd.
  destruct (key_current_key_id_dict d) as [id Hid].
  exists id. split; [exact Hid|].
  unfold sends, reports, accepted, VirtualKey.main_reconcile.
  rewrite Hs, Hc, Ht, Hn, Hid.
  unfold VirtualKey.update_key. cbn [bind Monad_M negb lift].
  rewrite post_spec. fold (key_update_call m id).
  on_answer; [on_response rsp|]; (split; [reflexivity|]); row_iff.
Qed.

Lemma key_absent_noop_row :
  VirtualKey.state m = absent -> Py.truthy existing = false ->
  VirtualKey.main_reconcile handle m existing w
  = (Done (Result false (JDict [])
             [Lit "Virtual key non trovata, nessuna azione necessaria"]), w).
Proof.
  intros Hs Ht. unfold VirtualKey.main_reconcile. now rewrite Hs, Ht.
Qed.

Lemma key_delete_row (id : value) :
  VirtualKey.state m = absent -> VirtualKey.check_mode m = false ->
  Py.truthy existing = true ->
  VirtualKey.current_key_id existing = Ok id ->
  sends (VirtualKey.main_reconcile handle m existing) w [key_delete_call id] /\
  (reports (VirtualKey.main_reconcile handle m existing) w true
   <-> status_in [200]%Z (answer handle w (key_delete_call id))).
Proof.
  intros Hs Hc Ht Hid.
  unfold sends, reports, status_in, VirtualKey.main_reconcile.
  rewrite Hs, Hc, Ht, Hid.
  unfold VirtualKey.delete_key. cbn [bind Monad_M negb lift].
  rewrite post_spec. fold (key_delete_call id).
  on_answer; [on_response rsp|]; (split; [reflexivity|]); row_iff.
Qed.

(** In check mode the key module sends nothing. *)
Lemma key_check_mode_silent :
  VirtualKey.check_mode m = true ->
  forall r w',
    VirtualKey.main_reconcile handle m existing w = (r, w') -> w' = w.
Proof.
  intros Hc r w'. unfold VirtualKey.main_reconcile. rewrite Hc.
  destruct (VirtualKey.state m), (Py.truthy existing);
    cbn -[VirtualKey.key_needs_update];
    try (destruct (VirtualKey.key_needs_update _ _ _ _ _ _ _ _ _ _ _)
           as [[|]|]; cbn);
    congruence.
Qed.

End KeyRows.

(** X19.  The branches of [main] of the team and key modules, by
    [state], by whether a remote resource was found and by what
    [team_needs_update] or [key_needs_update] returns for the parameters
    the module received.  With [state=present]: when no remote resource
    was found the run sends the create call and nothing else, and reports
    [changed=true] exactly when the API accepts it; when one was found and
    the comparison returns false the run sends nothing and reports
    [changed=false]; when the comparison returns true the run sends the
    update call and nothing else, and reports [changed=true] exactly when
    the API accepts it.  With [state=absent]: no resource found, the
    run sends nothing and reports [changed=false]; a resource found, the
    run sends the delete call and nothing else, and reports [changed=true]
    exactly when the API answers 200. *)
Theorem decision_table
  {Server : Type} (handle : Server -> request -> reply * Server)
  (w : world Server) (existing : value) :
  (forall m : Team.module,
     let reconcile := Team.main_reconcile handle m existing in
     (Team.state m = present -> Team.check_mode m = false ->
      Py.truthy existing = false ->
      sends reconcile w [team_create_call m] /\
      (reports reconcile w true
       <-> accepted [200; 201]%Z (answer handle w (team_create_call m)))) /\
     (Team.state m = present -> Py.truthy existing = true ->
      team_differs m existing = Ok false ->
      sends reconcile w [] /\ reports reconcile w false) /\
     (Team.state m = present -> Team.check_mode m = false ->
      Py.truthy existing = true ->
      team_differs m existing = Ok true ->
      exists id,
        Py.get existing "team_id" JNull = Ok id /\
        sends reconcile w [team_update_call m id] /\
        (reports reconcile w true
         <-> accepted [200]%Z (answer handle w (team_update_call m id)))) /\
     (Team.state m = absent -> Py.truthy existing = false ->
      sends reconcile w [] /\ reports reconcile w false) /\
     (Team.state m = absent -> Team.check_mode m = false ->
      Py.truthy existing = true ->
      forall id, Py.get existing "team_id" JNull = Ok id ->
      sends reconcile w [team_delete_call id] /\
      (reports reconcile w true
       <-> status_in [200]%Z (answer handle w (team_delete_call id))))) /\
  (forall m : VirtualKey.module,
     let reconcile := VirtualKey.main_reconcile handle m existing in
     (VirtualKey.state m = present -> VirtualKey.check_mode m = false ->
      Py.truthy existing = false ->
      sends reconcile w [key_create_call m] /\
      (reports reconcile w true
       <-> accepted [200; 201]%Z (answer handle w (key_create_call m)))) /\
     (VirtualKey.state m = present -> Py.truthy existing = true ->
      key_differs m existing = Ok false ->
      sends reconcile w [] /\ reports reconcile w false) /\
     (VirtualKey.state m = present -> VirtualKey.check_mode m = false ->
      Py.truthy existing = true ->
      key_differs m existing = Ok true ->
      exists id,
        VirtualKey.current_key_id existing = Ok id /\
        sends reconcile w [key_update_call m id] /\
        (reports reconcile w true
         <-> accepted [200]%Z (answer handle w (key_update_call m id)))) /\
     (VirtualKey.state m = absent -> Py.truthy existing = false ->
      sends reconcile w [] /\ reports reconcile w false) /\
     (VirtualKey.state m = absent -> VirtualKey.check_mode m = false ->
      Py.truthy existing = true ->
      forall id, VirtualKey.current_key_id existing = Ok id ->
      sends reconcile w [key_delete_call id] /\
      (reports reconcile w true
       <-> status_in [200]%Z (answer handle w (key_delete_call id))))).
Proof.
  assert (Hquiet : forall (c : M Server result) r,
             c w = (Done r, w) -> sends c w [] /\ reports c w (changed r)).
  { intros c r E. unfold sends, reports. rewrite E. cbn. split.
    - now rewrite app_nil_r.
    - now exists r. }
  split; intros m reconcile; (split; [|split; [|split; [|split]]]).
  - intros. now apply team_create_row.
  - intros Hs Ht Hn.
    apply (Hquiet _ _ (team_noop_row handle m existing w Hs Ht Hn)).
  - intros. now apply team_update_row.
  - intros Hs Ht.
    apply (Hquiet _ _ (team_absent_noop_row handle m existing w Hs Ht)).
  - intros. now apply team_delete_row.
  - intros. now apply key_create_row.
  - intros Hs Ht Hn.
    apply (Hquiet _ _ (key_noop_row handle m existing w Hs Ht Hn)).
  - intros. now apply key_update_row.
  - intros Hs Ht.
    apply (Hquiet _ _ (key_absent_noop_row handle m existing w Hs Ht)).
  - intros. now apply key_delete_row.
Qed.

Lemma decision_table_witness :
  let w := World tt [] in
  (reports (Team.main_reconcile team_api (team_x_task present) JNull) w true /\
   reports (Team.main_reconcile team_api (team_x_task present)
              (team_x (1000 # 1))) w false /\
   reports (Team.main_reconcile team_api (team_x_task present)
              (team_x (500 # 1))) w true /\
   reports (Team.main_reconcile team_api (team_x_task absent) JNull) w false /\
   reports (Team.main_reconcile team_api (team_x_task absent)
              (team_x (500 # 1))) w true) /\
  (reports (VirtualKey.main_reconcile key_x_api (key_x_task present) JNull)
     w true /\
   reports (VirtualKey.main_reconcile key_x_api (key_x_task present)
              (key_x (1000 # 1))) w false /\
   reports (VirtualKey.main_reconcile key_x_api (key_x_task present)
              (key_x (500 # 1))) w true /\
   reports (VirtualKey.main_reconcile key_x_api (key_x_task absent) JNull)
     w false /\
   reports (VirtualKey.main_reconcile key_x_api (key_x_task absent)
              (key_x (500 # 1))) w true).
Proof.
  intros w.
  assert (Hok : forall rsp codes,
             In (status_code rsp) codes -> json rsp <> None ->
             accepted codes (Reply rsp))
    by (intros rsp codes Hin Hj; exists rsp; auto).
  split; (split; [|split; [|split; [|split]]]).
  - destruct (decision_table team_api w JNull) as [T _].
    destruct (T (team_x_task present)) as (Row & _).
    apply Row; try reflexivity.
    apply Hok; [simpl; lia | discriminate].
  - destruct (decision_table team_api w (team_x (1000 # 1))) as [T _].
    destruct (T (team_x_task present)) as (_ & Row & _).
    apply Row; reflexivity.
  - destruct (decision_table team_api w (team_x (500 # 1))) as [T _].
    destruct (T (team_x_task present)) as (_ & _ & Row & _).
    destruct Row as (id & Hid & Hrow); try reflexivity.
    injection Hid as <-. apply Hrow.
    apply Hok; [simpl; lia | discriminate].
  - destruct (decision_table team_api w JNull) as [T _].
    destruct (T (team_x_task absent)) as (_ & _ & _ & Row & _).
    apply Row; reflexivity.
  - destruct (decision_table team_api w (team_x (500 # 1))) as [T _].
    destruct (T (team_x_task absent)) as (_ & _ & _ & _ & Row).
    apply (Row eq_refl eq_refl eq_refl (JStr "t1") eq_refl).
    eexists. split; [reflexivity|]. simpl; lia.
  - destruct (decision_table key_x_api w JNull) as [_ K].
    destruct (K (key_x_task present)) as (Row & _).
    apply Row; try reflexivity.
    apply Hok; [simpl; lia | discriminate].
  - destruct (decision_table key_x_api w (key_x (1000 # 1))) as [_ K].
    destruct (K (key_x_task present)) as (_ & Row & _).
    apply Row; reflexivity.
  - destruct (decision_table key_x_api w (key_x (500 # 1))) as [_ K].
    destruct (K (key_x_task present)) as (_ & _ & Row & _).
    destruct Row as (id & Hid & Hrow); try reflexivity.
    injection Hid as <-. apply Hrow.
    apply Hok; [simpl; lia | discriminate].
  - destruct (decision_table key_x_api w JNull) as [_ K].
    destruct (K (key_x_task absent)) as (_ & _ & _ & Row & _).
    apply Row; reflexivity.
  - destruct (decision_table key_x_api w (key_x (500 # 1))) as [_ K].
    destruct (K (key_x_task absent)) as (_ & _ & _ & _ & Row).
    apply (Row eq_refl eq_refl eq_refl (JStr "k1") eq_refl).
    eexists. split; [reflexivity|]. simpl; lia.
Defined.

(** C1 at a failing input.  The remote team exists and the task declares
    its name and nothing else; the team has that name, so no field the
    task declares differs from the remote one, and the decision table asks
    for no write and [changed=false].  The run sends the update call and
    reports [changed=true]: the default [{}] of [metadata] reaches
    [team_needs_update] as a declared value and differs from the metadata
    the team has.  The same for a key and a task that declares the budget
    the key has. *)
Theorem unchanged_fields_are_updated :
  (Py.truthy (owned_team (500 # 1)) = true /\
   team_fields_differ name_only_task (owned_team (500 # 1)) = false /\
   run (Team.main owned_team_api name_only_task) tt
   = (Done (Result true (owned_team (500 # 1))
              [Lit "Team aggiornato con successo"]),
      [Request GET "/team/list" None;
       team_update_call (team_params name_only_task) (JStr "t1")])) /\
  (Py.truthy key_456 = true /\
   key_fields_differ same_budget_key_task key_456 = false /\
   run (VirtualKey.main key_456_api same_budget_key_task) tt
   = (Done (Result true key_456 [Lit "Virtual key aggiornata con successo"]),
      [Request GET "/key/info?key=key-456" None;
       key_update_call (key_params same_budget_key_task) (JStr "key-456")])).
Proof. repeat split; reflexivity. Qed.

(* ================================================================== *)
(** * Check mode *)
(* ================================================================== *)

(** Case analysis along a run that is known to end in [exit_json]. *)
Ltac follow_run H :=
  repeat match type of H with
         | context [match ?x with _ => _ end] =>
             destruct x eqn:?; cbn [fst snd negb] in H; try discriminate H
         end.

(** The team module in check mode: whenever the live run exits with a
    change flag, the dry run exits with the same flag. *)
Lemma team_check_mode_same_flag
  {Server : Type} (handle : Server -> request -> reply * Server)
  (m : Team.module) (existing : value) (w w' : world Server) (flag : bool) :
  reports (Team.main_reconcile handle m existing) w flag ->
  reports (Team.main_reconcile handle (team_in_check_mode m) existing) w' flag.
Proof.
  unfold reports, Team.main_reconcile, team_in_check_mode.
  cbn [Team.state Team.check_mode Team.name Team.metadata Team.max_budget
       Team.models negb].
  intros (r & Hr & Hf).
  destruct (Team.state m), (Py.truthy existing);
    cbn [bind ret Monad_M lift fst] in *;
    try (destruct (Team.team_needs_update _ _ _ _ _) as [[|]|];
         cbn [fst] in *; try discriminate);
    follow_run Hr; injection Hr as <-; subst flag;
    eexists; (split; [reflexivity|]); reflexivity.
Qed.

Lemma key_check_mode_same_flag
  {Server : Type} (handle : Server -> request -> reply * Server)
  (m : VirtualKey.module) (existing : value) (w w' : world Server)
  (flag : bool) :
  reports (VirtualKey.main_reconcile handle m existing) w flag ->
  reports (VirtualKey.main_reconcile handle (key_in_check_mode m) existing)
    w' flag.
Proof.
  unfold reports, VirtualKey.main_reconcile, key_in_check_mode.
  cbn [VirtualKey.state VirtualKey.check_mode VirtualKey.key_alias
       VirtualKey.team_id VirtualKey.models VirtualKey.max_budget
       VirtualKey.budget_duration VirtualKey.metadata VirtualKey.expires
       VirtualKey.max_parallel_requests VirtualKey.tpm_limit
       VirtualKey.rpm_limit negb].
  intros (r & Hr & Hf).
  destruct (VirtualKey.state m), (Py.truthy existing);
    cbn [bind ret Monad_M lift fst] in *;
    try (destruct (VirtualKey.key_needs_update _ _ _ _ _ _ _ _ _ _ _)
           as [[|]|];
         cbn [fst] in *; try discriminate);
    follow_run Hr; injection Hr as <-; subst flag;
    eexists; (split; [reflexivity|]); reflexivity.
Qed.

(** C2 at a failing input.  The endpoint and model modules declare
    [supports_check_mode=True] and never read [module.check_mode]: run in
    check mode against an API that does not list the resource, each of them
    sends the create call [POST /model/new], just as the live run does. *)
Theorem check_mode_still_creates :
  writes (snd (run (Endpoint.main empty_model_api (openai_endpoint_task true)) tt))
  = [Request POST "/model/new"
       (Some (JDict [("model_name", JStr "openai-prod");
                     ("litellm_params",
                      JDict [("model", JStr "openai/endpoint-openai-prod");
                             ("api_base", JStr "https://api.openai.com/v1")]);
                     ("model_info",
                      JDict [("endpoint_type", JStr "managed_endpoint")])]))] /\
  writes (snd (run (Model.main empty_model_api (gpt4_model_task true)) tt))
  = [Request POST "/model/new"
       (Some (JDict [("model_name", JStr "gpt-4");
                     ("litellm_params", JDict [("model", JStr "gpt-4")])]))] /\
  run (Endpoint.main empty_model_api (openai_endpoint_task true)) tt
  = run (Endpoint.main empty_model_api (openai_endpoint_task false)) tt /\
  run (Model.main empty_model_api (gpt4_model_task true)) tt
  = run (Model.main empty_model_api (gpt4_model_task false)) tt.
Proof. repeat split; reflexivity. Qed.

(** The endpoint module runs the same whatever [module.check_mode] is. *)
Lemma endpoint_ignores_check_mode
  {Server : Type} (handle : Server -> request -> reply * Server)
  n ab p k v md s (c : bool) :
  Endpoint.main handle (Endpoint.Module n ab p k v md s c)
  = Endpoint.main handle (Endpoint.Module n ab p k v md s false).
Proof. reflexivity. Qed.

Lemma model_ignores_check_mode
  {Server : Type} (handle : Server -> request -> reply * Server)
  n lp mi s (c : bool) :
  Model.main handle (Model.Module n lp mi s c)
  = Model.main handle (Model.Module n lp mi s false).
Proof. reflexivity. Qed.

(* ================================================================== *)
(** * Deleting an endpoint or a model *)
(* ================================================================== *)

Section Lookups.

Context {Server : Type} (handle : Server -> request -> reply * Server).

(** Looking an endpoint up costs exactly one [GET /model/info]. *)
Lemma get_endpoint_sends (n : string) (w : world Server) :
  sends (Endpoint.get_endpoint handle n) w [Request GET "/model/info" None].
Proof.
  unfold sends, Endpoint.get_endpoint, Endpoint.get_endpoints.
  cbn [bind Monad_M]. rewrite get_spec.
  destruct (answer handle w _) as [rsp|e]; [|reflexivity].
  destruct (status_code rsp =? 200)%Z; [|reflexivity].
  unfold lift. destruct (response_json rsp) as [data|]; [|reflexivity].
  destruct (Endpoint.endpoints_of data) as [es|]; [|reflexivity].
  destruct (Py.get es _ _) as [l|]; [|reflexivity].
  destruct (Py.iter l) as [entries|]; [|reflexivity].
  destruct (Endpoint.first_endpoint entries n); reflexivity.
Qed.

Lemma get_model_sends (n : string) (w : world Server) :
  sends (Model.get_model handle n) w [Request GET "/model/info" None].
Proof.
  unfold sends, Model.get_model, Model.get_models, Model._make_request.
  cbn [bind Monad_M]. rewrite get_spec.
  destruct (answer handle w _) as [rsp|e]; [|reflexivity].
  destruct (status_code rsp =? 200)%Z; [|reflexivity].
  unfold lift. destruct (response_json rsp) as [data|]; [|reflexivity].
  destruct (Model.model_of data n); reflexivity.
Qed.

End Lookups.

(** C4, as the code has it.  With [state=absent] and the endpoint (or the
    model) found in the listing, the run sends nothing but the lookup, so
    no delete call, and it ends in [fail_json] with the fixed message that
    tells to remove the entry from [config.yaml] by hand: a failed run, not
    an [exit_json] with [changed=false]. *)
Theorem unsupported_delete_fails
  {Server : Type} (handle : Server -> request -> reply * Server)
  (w w1 : world Server) (existing : value) :
  Py.truthy existing = true ->
  (forall task : Endpoint.module,
      Endpoint.state task = absent ->
      Endpoint.get_endpoint handle (Endpoint.endpoint_name task) w
      = (Done existing, w1) ->
      Endpoint.main handle task w = (Failed Endpoint.delete_endpoint_msg, w1) /\
      sends (Endpoint.main handle task) w [Request GET "/model/info" None]) /\
  (forall task : Model.module,
      Model.state task = absent ->
      Model.get_model handle (Model.model_name task) w = (Done existing, w1) ->
      Model.main handle task w = (Failed Model.delete_model_msg, w1) /\
      sends (Model.main handle task) w [Request GET "/model/info" None]).
Proof.
  intros Ht. split; intros task Hs Hg.
  - assert (E : Endpoint.main handle task w
                = (Failed Endpoint.delete_endpoint_msg, w1)).
    { unfold Endpoint.main, Endpoint.AnsibleModule, try_except,
        Endpoint.main_body.
      cbn [bind ret Monad_M Endpoint.state Endpoint.endpoint_name].
      rewrite Hs. cbn [bind Monad_M]. rewrite Hg, Ht. reflexivity. }
    split; [exact E|].
    unfold sends. rewrite E.
    pose proof (get_endpoint_sends handle (Endpoint.endpoint_name task) w) as L.
    unfold sends in L. now rewrite Hg in L.
  - assert (E : Model.main handle task w
                = (Failed Model.delete_model_msg, w1)).
    { unfold Model.main, Model.AnsibleModule, try_except, Model.main_body.
      cbn [bind ret Monad_M Model.state Model.model_name].
      rewrite Hs. cbn [bind Monad_M]. rewrite Hg, Ht. reflexivity. }
    split; [exact E|].
    unfold sends. rewrite E.
    pose proof (get_model_sends handle (Model.model_name task) w) as L.
    unfold sends in L. now rewrite Hg in L.
Qed.

(** C4 as stated does not hold: removing an endpoint that exists ends in a
    failure, not in an exit with [changed=false]. *)
Lemma absent_endpoint_is_a_failure :
  run (Endpoint.main old_endpoint_api old_endpoint_task) tt
  = (Failed Endpoint.delete_endpoint_msg, [Request GET "/model/info" None]) /\
  run (Model.main old_endpoint_api old_model_task) tt
  = (Failed Model.delete_model_msg, [Request GET "/model/info" None]) /\
  ~ reports (Endpoint.main old_endpoint_api old_endpoint_task)
      (World tt []) false /\
  ~ reports (Model.main old_endpoint_api old_model_task) (World tt []) false.
Proof.
  repeat split; try reflexivity; intros (r & Hr & _); discriminate Hr.
Qed.

Lemma unsupported_delete_fails_witness :
  Endpoint.main old_endpoint_api old_endpoint_task (World tt [])
  = (Failed Endpoint.delete_endpoint_msg,
     World tt [Request GET "/model/info" None]) /\
  Model.main old_endpoint_api old_model_task (World tt [])
  = (Failed Model.delete_model_msg,
     World tt [Request GET "/model/info" None]).
Proof.
  split.
  - refine (proj1 (proj1 (@unsupported_delete_fails unit old_endpoint_api
                            (World tt []) (World tt [Request GET "/model/info" None])
                            (endpoint_record "old-endpoint"
                               (Some "https://api.openai.com/v1") "openai"
                               (JDict [("endpoint_type", JStr "managed_endpoint")]))
                            eq_refl)
                     old_endpoint_task eq_refl eq_refl)).
  - destruct (@unsupported_delete_fails unit old_endpoint_api
                (World tt []) (World tt [Request GET "/model/info" None])
                (JDict [("model_name", JStr "old-endpoint");
                        ("litellm_params",
                         JDict [("model", JStr "openai/endpoint-old-endpoint");
                                ("api_base", JStr "https://api.openai.com/v1")]);
                        ("model_info",
                         JDict [("endpoint_type", JStr "managed_endpoint")])])
                eq_refl) as [_ Hm].
    exact (proj1 (Hm old_model_task eq_refl eq_refl)).
Defined.

(* ================================================================== *)
(** * Finding the existing resource *)
(* ================================================================== *)

Section PointLookups.

Context {Server : Type} (handle : Server -> request -> reply * Server).

Lemma get_team_sends (id : string) (w : world Server) :
  sends (Team.get_team handle id) w [Request GET ("/team/" ++ id) None].
Proof.
  unfold sends, Team.get_team. cbn [bind Monad_M]. rewrite get_spec.
  destruct (answer handle w _) as [rsp|e]; [|reflexivity].
  destruct (status_code rsp =? 200)%Z.
  - unfold lift. destruct (response_json rsp); reflexivity.
  - destruct (status_code rsp =? 404)%Z; reflexivity.
Qed.

Lemma get_key_sends (id : string) (w : world Server) :
  sends (VirtualKey.get_key handle id) w
    [Request GET ("/key/info?key=" ++ id) None].
Proof.
  unfold sends, VirtualKey.get_key. cbn [bind Monad_M]. rewrite get_spec.
  destruct (answer handle w _) as [rsp|e]; [|reflexivity].
  destruct (status_code rsp =? 200)%Z.
  - unfold lift. destruct (response_json rsp); reflexivity.
  - destruct (status_code rsp =? 404)%Z; reflexivity.
Qed.

End PointLookups.

(** C6, as the code has it.  When the task gives a stable ID, the lookup
    is the point lookup by that ID and nothing else: the one request sent
    is the GET of that ID, the listing is not fetched, and the name or
    alias given next to the ID plays no part, whether or not it names the
    same resource. *)
Theorem stable_id_takes_precedence
  {Server : Type} (handle : Server -> request -> reply * Server)
  (w : world Server) :
  (forall m : Team.module,
      Py.truthy_str (Team.team_id m) = true ->
      let id := Py.str_of (Team.team_id m) in
      Team.main_find handle m w = Team.get_team handle id w /\
      sends (Team.main_find handle m) w [Request GET ("/team/" ++ id) None]) /\
  (forall m : VirtualKey.module,
      Py.truthy_str (VirtualKey.key_id m) = true ->
      let id := Py.str_of (VirtualKey.key_id m) in
      VirtualKey.main_find handle m w = VirtualKey.get_key handle id w /\
      sends (VirtualKey.main_find handle m) w
        [Request GET ("/key/info?key=" ++ id) None]).
Proof.
  split; intros m H id.
  - assert (E : Team.main_find handle m = Team.get_team handle id)
      by (unfold Team.main_find; now rewrite H).
    rewrite E. split; [reflexivity | apply get_team_sends].
  - assert (E : VirtualKey.main_find handle m = VirtualKey.get_key handle id)
      by (unfold VirtualKey.main_find; now rewrite H).
    rewrite E. split; [reflexivity | apply get_key_sends].
Qed.

(** C6 as stated does not hold: the ID and the name identify two different
    teams (keys), and the lookup returns the one the ID names, without an
    error. *)
Lemma disagreement_is_not_reported :
  (run (Team.get_team two_of_each_api "t1") tt
   = (Done team_t1, [Request GET "/team/t1" None]) /\
   run (Team.get_team_by_name two_of_each_api "team-y") tt
   = (Done team_t2, [Request GET "/team/list" None]) /\
   Py.equal team_t1 team_t2 = false /\
   run (Team.main_find two_of_each_api disagreeing_team_task) tt
   = (Done team_t1, [Request GET "/team/t1" None]) /\
   ~ is_error (fst (run (Team.main_find two_of_each_api
                           disagreeing_team_task) tt))) /\
  (run (VirtualKey.get_key two_of_each_api "k1") tt
   = (Done key_k1, [Request GET "/key/info?key=k1" None]) /\
   run (VirtualKey.get_key_by_alias two_of_each_api "alias-y") tt
   = (Done key_k2, [Request GET "/key/list" None]) /\
   Py.equal key_k1 key_k2 = false /\
   run (VirtualKey.main_find two_of_each_api disagreeing_key_task) tt
   = (Done key_k1, [Request GET "/key/info?key=k1" None]) /\
   ~ is_error (fst (run (VirtualKey.main_find two_of_each_api
                           disagreeing_key_task) tt))).
Proof. repeat split; try reflexivity; intros []. Qed.

Lemma stable_id_takes_precedence_witness :
  sends (Team.main_find two_of_each_api disagreeing_team_task) (World tt [])
    [Request GET "/team/t1" None] /\
  sends (VirtualKey.main_find two_of_each_api disagreeing_key_task)
    (World tt []) [Request GET "/key/info?key=k1" None].
Proof.
  destruct (stable_id_takes_precedence two_of_each_api (World tt []))
    as [T K].
  split.
  - exact (proj2 (T disagreeing_team_task eq_refl)).
  - exact (proj2 (K disagreeing_key_task eq_refl)).
Defined.

(* ================================================================== *)
(** * The shapes of a listing *)
(* ================================================================== *)

(** C7, as the code has it.  A 200 answer to the listing is read in two
    shapes, a bare list and a dict that holds the list under [keys]
    ([teams] for teams), and both give the same first matching entry.  A
    dict without that key is read as an empty listing, so as "not found".
    A body that is neither a list nor a dict is an error: [fail_json] in
    the key module, an uncaught [AttributeError] in the team module. *)
Theorem listing_shapes
  {Server : Type} (handle : Server -> request -> reply * Server)
  (w : world Server) (rsp : response) (wanted : string) :
  status_code rsp = 200%Z ->
  (let rq := Request GET "/key/list" None in
   let find := VirtualKey.get_key_by_alias handle wanted w in
   answer handle w rq = Reply rsp ->
   (forall l, json rsp = Some (JList l) ->
      find = (Done (VirtualKey.first_key l wanted), after handle w rq)) /\
   (forall d l, json rsp = Some (JDict d) ->
      Py.lookup d "keys" = Some (JList l) ->
      find = (Done (VirtualKey.first_key l wanted), after handle w rq)) /\
   (forall d, json rsp = Some (JDict d) -> Py.lookup d "keys" = None ->
      find = (Done JNull, after handle w rq)) /\
   (forall data, json rsp = Some data ->
      is_list data = false -> Py.is_dict data = false ->
      find = (Failed [Lit "Risposta API non valida per /key/list: "; Repr data],
              after handle w rq))) /\
  (let rq := Request GET "/team/list" None in
   let find := Team.get_team_by_name handle wanted w in
   answer handle w rq = Reply rsp ->
   (forall l, json rsp = Some (JList l) ->
      find = (lift (Team.first_team l wanted) (after handle w rq))) /\
   (forall d l, json rsp = Some (JDict d) ->
      Py.lookup d "teams" = Some (JList l) ->
      find = (lift (Team.first_team l wanted) (after handle w rq))) /\
   (forall d, json rsp = Some (JDict d) -> Py.lookup d "teams" = None ->
      find = (Done JNull, after handle w rq)) /\
   (forall data, json rsp = Some data ->
      is_list data = false -> Py.is_dict data = false ->
      find = (Raised (AttributeError "get"), after handle w rq))).
Proof.
  intros Hst. split; intros rq find Ha; subst find.
  - unfold VirtualKey.get_key_by_alias. cbn [bind Monad_M].
    rewrite get_spec. fold rq. rewrite Ha, Hst. cbn [Z.eqb Pos.eqb].
    fold (after handle w rq).
    repeat split.
    + intros l ->. reflexivity.
    + intros d l -> Hl. cbn. now rewrite Hl.
    + intros d -> Hl. cbn. now rewrite Hl.
    + intros data -> Hnl Hnd. destruct data; try discriminate; reflexivity.
  - unfold Team.get_team_by_name. cbn [bind Monad_M].
    rewrite get_spec. fold rq. rewrite Ha, Hst. cbn [Z.eqb Pos.eqb].
    fold (after handle w rq). unfold response_json.
    repeat split.
    + intros l ->. cbn. destruct (Team.first_team l wanted); reflexivity.
    + intros d l -> Hl. cbn. rewrite Hl. cbn.
      destruct (Team.first_team l wanted); reflexivity.
    + intros d -> Hl. cbn. now rewrite Hl.
    + intros data -> Hnl Hnd. destruct data; try discriminate; reflexivity.
Qed.

(** C7 as stated does not hold: a listing that is a JSON object without
    the container key is neither of the two accepted shapes, and it is
    read as "not found"; the key module then goes on to create the key. *)
Lemma unrecognized_object_is_not_found :
  run (VirtualKey.get_key_by_alias error_object_api "ds-team-prod-key") tt
  = (Done JNull, [Request GET "/key/list" None]) /\
  run (Team.get_team_by_name error_object_api "team-x") tt
  = (Done JNull, [Request GET "/team/list" None]) /\
  ~ is_error (fst (run (VirtualKey.get_key_by_alias error_object_api
                          "ds-team-prod-key") tt)) /\
  ~ is_error (fst (run (Team.get_team_by_name error_object_api "team-x") tt)) /\
  run (VirtualKey.main error_object_api prod_key_task) tt
  = (Done (Result true (JDict [("key", JStr "sk-1")])
             [Lit "Virtual key creata con successo"]),
     [Request GET "/key/list" None;
      Request POST "/key/generate"
        (Some (JDict [("key_alias", JStr "ds-team-prod-key")]))]).
Proof. repeat split; try reflexivity; intros []. Qed.

Lemma listing_shapes_witness :
  VirtualKey.get_key_by_alias two_of_each_api "alias-y" (World tt [])
  = (Done key_k2, World tt [Request GET "/key/list" None]) /\
  Team.get_team_by_name two_of_each_api "team-y" (World tt [])
  = (Done team_t2, World tt [Request GET "/team/list" None]).
Proof.
  split.
  - destruct (@listing_shapes unit two_of_each_api (World tt [])
                (ok_json (JDict [("keys", JList [key_k1; key_k2])]))
                "alias-y" eq_refl) as [K _].
    destruct (K eq_refl) as (_ & Wrapped & _).
    exact (Wrapped _ [key_k1; key_k2] eq_refl eq_refl).
  - destruct (@listing_shapes unit two_of_each_api (World tt [])
                (ok_json (JList [team_t1; team_t2]))
                "team-y" eq_refl) as [_ T].
    destruct (T eq_refl) as (Bare & _).
    exact (Bare [team_t1; team_t2] eq_refl).
Defined.

(* ================================================================== *)
(** * A task without any identity *)
(* ================================================================== *)

Lemma key_main_without_identity
  {Server : Type} (handle : Server -> request -> reply * Server)
  (null_key_id : bool) (task : VirtualKey.module) :
  VirtualKey.state task = present ->
  Py.truthy_str (VirtualKey.key_id task) = false ->
  Py.truthy_str (VirtualKey.key_alias task) = false ->
  VirtualKey.main_given handle null_key_id task
  = VirtualKey.main_reconcile handle (key_params task) JNull.
Proof.
  intros Hs Hi Ha. unfold VirtualKey.main_given, VirtualKey.AnsibleModule_given.
  unfold key_params. rewrite Hs.
  unfold VirtualKey.main_find. cbn [bind ret Monad_M VirtualKey.key_id
    VirtualKey.key_alias]. rewrite Hi, Ha. reflexivity.
Qed.

Lemma team_main_without_identity
  {Server : Type} (handle : Server -> request -> reply * Server)
  (given : Team.nulls) (task : Team.module) :
  Team.state task = present ->
  Py.is_some (Team.name task) || Team.null_name given = true ->
  Py.truthy_str (Team.team_id task) = false ->
  Py.truthy_str (Team.name task) = false ->
  Team.main_given handle given task
  = Team.main_reconcile handle (team_params task) JNull.
Proof.
  intros Hs Hm Hi Hn. unfold Team.main_given, Team.AnsibleModule_given.
  unfold team_params. rewrite Hs, Hm.
  unfold Team.main_find. cbn [bind ret Monad_M Team.team_id Team.name].
  rewrite Hi, Hn. reflexivity.
Qed.

(** C8, as the code has it.  The key module does not ask for an identity
    with [state=present]: a task with neither [key_id] nor [key_alias] is
    not rejected, no lookup is made, and the live run sends the create call
    [POST /key/generate] at once, reporting [changed=true] exactly when the
    API accepts it.  The team module rejects, before any request, a task
    with [state=present] that leaves [name] out.  A task that mentions
    [name] without naming anything, [name: null] or [name: ''], passes
    [required_if]; without a [team_id] it makes no lookup either and sends
    the create call [POST /team/new] at once, with that empty name as the
    [team_alias]. *)
Theorem no_identity_goes_to_create
  {Server : Type} (handle : Server -> request -> reply * Server)
  (w : world Server) :
  (forall task : VirtualKey.module,
      VirtualKey.state task = present ->
      VirtualKey.check_mode task = false ->
      Py.truthy_str (VirtualKey.key_id task) = false ->
      Py.truthy_str (VirtualKey.key_alias task) = false ->
      let rq := key_create_call (key_params task) in
      sends (VirtualKey.main handle task) w [rq] /\
      (reports (VirtualKey.main handle task) w true
       <-> accepted [200; 201]%Z (answer handle w rq)) /\
      forall data, rq_json rq = Some (JDict data) ->
                   ~ In "key_alias" (Py.keys data)) /\
  (forall (given : Team.nulls) (task : Team.module),
      Team.state task = present ->
      Team.name task = None ->
      Team.null_name given = false ->
      exists msg, Team.main_given handle given task w = (Failed msg, w)) /\
  (forall (given : Team.nulls) (task : Team.module),
      Team.state task = present ->
      Team.check_mode task = false ->
      Py.truthy_str (Team.team_id task) = false ->
      Team.name task = Some "" \/
      (Team.name task = None /\ Team.null_name given = true) ->
      let rq := team_create_call (team_params task) in
      sends (Team.main_given handle given task) w [rq] /\
      (reports (Team.main_given handle given task) w true
       <-> accepted [200; 201]%Z (answer handle w rq)) /\
      forall data, rq_json rq = Some (JDict data) ->
                   Py.lookup data "team_alias"
                   = Some (Py.of_str (Team.name task))).
Proof.
  split; [|split].
  - intros task Hs Hc Hi Ha rq. unfold VirtualKey.main.
    rewrite (key_main_without_identity handle false task Hs Hi Ha).
    split; [now apply key_create_row|]. split; [now apply key_create_row|].
    intros data E. injection E as <-.
    unfold VirtualKey.create_key_data.
    cbn [key_params VirtualKey.key_alias]. rewrite Ha.
    repeat first [ apply not_in_keys_set_some; [|discriminate]
                 | apply not_in_keys_set_if;
                   [|first [left; discriminate | right; reflexivity]] ].
    intros [].
  - intros given task Hs Hn Hg.
    unfold Team.main_given, Team.AnsibleModule_given.
    rewrite Hs, Hn, Hg. eexists. reflexivity.
  - intros given task Hs Hc Hi Hname rq.
    assert (Hm : Py.is_some (Team.name task) || Team.null_name given = true)
      by (destruct Hname as [->|[-> ->]]; reflexivity).
    assert (Hn : Py.truthy_str (Team.name task) = false)
      by (destruct Hname as [->|[-> _]]; reflexivity).
    rewrite (team_main_without_identity handle given task Hs Hm Hi Hn).
    split; [now apply team_create_row|]. split; [now apply team_create_row|].
    intros data E. injection E as <-.
    unfold Team.create_team_data, Py.set_if, Py.set_some.
    cbn [team_params Team.name Team.metadata Team.max_budget Team.models].
    destruct (Py.truthy_dict _), (option_map JNum _), (Py.truthy_list _);
      reflexivity.
Qed.

(** C8 as stated does not hold: with neither [key_id] nor [key_alias] the
    key module does not fail, it creates a key. *)
Lemma anonymous_key_is_created :
  run (VirtualKey.main key_api anonymous_key_task) tt
  = (Done (Result true (JDict [("key", JStr "sk-1")])
             [Lit "Virtual key creata con successo"]),
     [Request POST "/key/generate"
        (Some (JDict [("max_budget", JNum (10 # 1))]))]) /\
  ~ is_error (fst (run (VirtualKey.main key_api anonymous_key_task) tt)).
Proof. split; [reflexivity | intros []]. Qed.

Lemma no_identity_goes_to_create_witness :
  let w := World tt [] in
  reports (VirtualKey.main key_api anonymous_key_task) w true /\
  (exists msg,
      Team.main_given key_api Team.no_nulls nameless_team_task w
      = (Failed msg, w)) /\
  (sends (Team.main_given team_api null_name nameless_team_task) w
     [Request POST "/team/new" (Some (JDict [("team_alias", JNull)]))] /\
   reports (Team.main_given team_api null_name nameless_team_task) w true) /\
  (sends (Team.main_given team_api Team.no_nulls empty_name_team_task) w
     [Request POST "/team/new" (Some (JDict [("team_alias", JStr "")]))] /\
   reports (Team.main_given team_api Team.no_nulls empty_name_team_task) w
     true).
Proof.
  intros w.
  destruct (no_identity_goes_to_create key_api w) as (K & T & _).
  destruct (no_identity_goes_to_create team_api w) as (_ & _ & C).
  assert (Hok : accepted [200; 201]%Z (Reply (ok_json (team_x (1000 # 1))))).
  { eexists. split; [reflexivity|]. split; [simpl; lia | discriminate]. }
  split; [|split; [|split]].
  - apply (K anonymous_key_task eq_refl eq_refl eq_refl eq_refl).
    eexists. split; [reflexivity|]. split; [simpl; lia | discriminate].
  - exact (T Team.no_nulls nameless_team_task eq_refl eq_refl eq_refl).
  - destruct (C null_name nameless_team_task eq_refl eq_refl eq_refl
                (or_intror (conj eq_refl eq_refl))) as (S & R & _).
    split; [exact S | apply R; exact Hok].
  - destruct (C Team.no_nulls empty_name_team_task eq_refl eq_refl eq_refl
                (or_introl eq_refl)) as (S & R & _).
    split; [exact S | apply R; exact Hok].
Defined.

(* ================================================================== *)
(** * Fields the task leaves out *)
(* ================================================================== *)

Section Frame.

Variables (d : dict) (k : string) (v : value).

Lemma differs_setitem_other (k' : string) (x : value) :
  k <> k' ->
  Py.differs (JDict (Py.setitem d k v)) k' x = Py.differs (JDict d) k' x.
Proof.
  intros H. unfold Py.differs, Py.get.
  now rewrite PyFacts.lookup_setitem_other.
Qed.

Lemma sets_differ_setitem_other (k' : string) (x : value) :
  k <> k' ->
  Py.sets_differ (JDict (Py.setitem d k v)) k' x
  = Py.sets_differ (JDict d) k' x.
Proof.
  intros H. unfold Py.sets_differ, Py.get.
  now rewrite PyFacts.lookup_setitem_other.
Qed.

End Frame.

(** Drops a [setitem] from under every comparison on another key. *)
Ltac frame_keys :=
  repeat match goal with
         | |- context [Py.differs (JDict (Py.setitem ?d ?k ?v)) ?k' ?x] =>
             rewrite (@differs_setitem_other d k v k' x) by discriminate
         | |- context [Py.sets_differ (JDict (Py.setitem ?d ?k ?v)) ?k' ?x] =>
             rewrite (@sets_differ_setitem_other d k v k' x) by discriminate
         end.

(** Inside the comparison the guards do their work: a parameter that
    arrives as [None] (or, for the name, empty) keeps the remote value of
    its field out of [team_needs_update]. *)
Lemma team_needs_update_frame (d : dict) (v : value)
  (name : option string) (metadata : option dict) (max_budget : option Q)
  (models : option (list string)) :
  (Py.truthy_str name = false ->
   Team.team_needs_update (JDict (Py.setitem d "team_alias" v))
     name metadata max_budget models
   = Team.team_needs_update (JDict d) name metadata max_budget models) /\
  (metadata = None ->
   Team.team_needs_update (JDict (Py.setitem d "metadata" v))
     name metadata max_budget models
   = Team.team_needs_update (JDict d) name metadata max_budget models) /\
  (max_budget = None ->
   Team.team_needs_update (JDict (Py.setitem d "max_budget" v))
     name metadata max_budget models
   = Team.team_needs_update (JDict d) name metadata max_budget models) /\
  (models = None ->
   Team.team_needs_update (JDict (Py.setitem d "models" v))
     name metadata max_budget models
   = Team.team_needs_update (JDict d) name metadata max_budget models).
Proof.
  unfold Team.team_needs_update.
  repeat split; intros H; frame_keys; rewrite H; reflexivity.
Qed.

(** C3 at a failing input.  The task sets no [metadata]; the argument
    spec turns that into [{}], which is not [None], so the guard of
    [team_needs_update] lets the comparison through: against a team whose
    remote metadata is not empty the module decides for an update, and the
    update sends [metadata: {}].  With [metadata] passed as [None] the same
    comparison asks for nothing. *)
Theorem omitted_metadata_triggers_update :
  run (Team.main owned_team_api name_only_task) tt
  = (Done (Result true (owned_team (500 # 1))
             [Lit "Team aggiornato con successo"]),
     [Request GET "/team/list" None;
      Request POST "/team/update"
        (Some (JDict [("team_id", JStr "t1"); ("team_alias", JStr "team-x");
                      ("metadata", JDict [])]))]) /\
  Team.team_needs_update (owned_team (500 # 1)) (Some "team-x") (Some [])
    None None = Ok true /\
  Team.team_needs_update (owned_team (500 # 1)) (Some "team-x") None
    None None = Ok false.
Proof. repeat split; reflexivity. Qed.

(** Inside [update_team] and [update_key] the guards do their work: the
    body holds the identifier, and a field only if its parameter is not
    [None] (for the strings, not empty). *)
Lemma update_payload_fields (id : value) (k0 : string) :
  (forall name metadata max_budget models,
      In k0 (Py.keys (Team.update_team_data id name metadata max_budget models)) ->
      k0 = "team_id" \/
      (k0 = "team_alias" /\ Py.truthy_str name = true) \/
      (k0 = "metadata" /\ metadata <> None) \/
      (k0 = "max_budget" /\ max_budget <> None) \/
      (k0 = "models" /\ models <> None)) /\
  (forall key_alias team_id models max_budget budget_duration metadata
          expires max_parallel_requests tpm_limit rpm_limit,
      In k0 (Py.keys (VirtualKey.update_key_data id key_alias team_id models
                        max_budget budget_duration metadata expires
                        max_parallel_requests tpm_limit rpm_limit)) ->
      k0 = "key" \/
      (k0 = "key_alias" /\ Py.truthy_str key_alias = true) \/
      (k0 = "team_id" /\ Py.truthy_str team_id = true) \/
      (k0 = "models" /\ models <> None) \/
      (k0 = "max_budget" /\ max_budget <> None) \/
      (k0 = "budget_duration" /\ Py.truthy_str budget_duration = true) \/
      (k0 = "metadata" /\ metadata <> None) \/
      (k0 = "expires" /\ Py.truthy_str expires = true) \/
      (k0 = "max_parallel_requests" /\ max_parallel_requests <> None) \/
      (k0 = "tpm_limit" /\ tpm_limit <> None) \/
      (k0 = "rpm_limit" /\ rpm_limit <> None)).
Proof.
  assert (Hmap : forall A (f : A -> value) (o : option A),
             option_map f o <> None -> o <> None)
    by (intros A f [a|]; [discriminate | intros H; now elim H]).
  split; intros.
  - unfold Team.update_team_data in H. payload_keys H;
      try (apply Hmap in H); try tauto.
    simpl in H. destruct H as [<-|[]]. tauto.
  - unfold VirtualKey.update_key_data in H. payload_keys H;
      try (apply Hmap in H); try tauto.
    simpl in H. destruct H as [<-|[]]. tauto.
Qed.

(** C5 at a failing input.  The task sets the budget and no [metadata];
    the argument spec turns the missing [metadata] into [{}], so the update
    call carries [metadata: {}] next to the identifier and the budget, and
    overwrites the metadata the remote resource had. *)
Theorem omitted_metadata_is_sent :
  writes (snd (run (Team.main owned_team_api budget_task) tt))
  = [Request POST "/team/update"
       (Some (JDict [("team_id", JStr "t1"); ("team_alias", JStr "team-x");
                     ("metadata", JDict []);
                     ("max_budget", JNum (1000 # 1))]))] /\
  writes (snd (run (VirtualKey.main key_456_api key_budget_task) tt))
  = [Request POST "/key/update"
       (Some (JDict [("key", JStr "key-456");
                     ("max_budget", JNum (1000 # 1));
                     ("metadata", JDict [])]))].
Proof. split; reflexivity. Qed.

(* ================================================================== *)
(** * Lookups read and never write *)
(* ================================================================== *)

Lemma writes_app (l l' : list request) :
  writes (l ++ l') = writes l ++ writes l'.
Proof. apply filter_app. Qed.

Section ListingLookups.

Context {Server : Type} (handle : Server -> request -> reply * Server).

Lemma get_team_by_name_sends (n : string) (w : world Server) :
  sends (Team.get_team_by_name handle n) w [Request GET "/team/list" None].
Proof.
  unfold sends, Team.get_team_by_name. cbn [bind Monad_M]. rewrite get_spec.
  destruct (answer handle w _) as [rsp|e]; [|reflexivity].
  destruct (status_code rsp =? 200)%Z; [|reflexivity].
  unfold lift. destruct (response_json rsp) as [data|]; [|reflexivity].
  destruct (match data with JList _ => Ok data | _ => _ end) as [teams|];
    [|reflexivity].
  destruct (Py.iter teams) as [entries|]; [|reflexivity].
  destruct (Team.first_team entries n); reflexivity.
Qed.

Lemma get_key_by_alias_sends (a : string) (w : world Server) :
  sends (VirtualKey.get_key_by_alias handle a) w
    [Request GET "/key/list" None].
Proof.
  unfold sends, VirtualKey.get_key_by_alias. cbn [bind Monad_M].
  rewrite get_spec.
  destruct (answer handle w _) as [rsp|e]; [|reflexivity].
  destruct (status_code rsp =? 200)%Z; [|reflexivity].
  destruct (json rsp) as [[| | | | l|d]|]; cbn; try reflexivity.
  destruct (Py.iter _) as [entries|]; reflexivity.
Qed.

(** X1.  Every lookup of the four managers costs exactly one GET, on a
    path that depends only on what is looked up, whatever the server
    answers and however the lookup ends: a lookup never writes. *)
Theorem lookup_sends_one_get (w : world Server) (x : string) :
  sends (Team.get_team handle x) w [Request GET ("/team/" ++ x) None] /\
  sends (Team.get_team_by_name handle x) w [Request GET "/team/list" None] /\
  sends (VirtualKey.get_key handle x) w
    [Request GET ("/key/info?key=" ++ x) None] /\
  sends (VirtualKey.get_key_by_alias handle x) w
    [Request GET "/key/list" None] /\
  sends (Endpoint.get_endpoint handle x) w [Request GET "/model/info" None] /\
  sends (Model.get_model handle x) w [Request GET "/model/info" None].
Proof.
  repeat split.
  - apply get_team_sends.
  - apply get_team_by_name_sends.
  - apply get_key_sends.
  - apply get_key_by_alias_sends.
  - apply get_endpoint_sends.
  - apply get_model_sends.
Qed.

(** The first half of [main] sends at most one GET. *)
Lemma team_find_reads (m : Team.module) (w : world Server) :
  writes (log (snd (Team.main_find handle m w))) = writes (log w).
Proof.
  unfold Team.main_find.
  destruct (Py.truthy_str (Team.team_id m)).
  - rewrite get_team_sends, writes_app. cbn. apply app_nil_r.
  - destruct (Py.truthy_str (Team.name m)); [|reflexivity].
    rewrite get_team_by_name_sends, writes_app. cbn. apply app_nil_r.
Qed.

Lemma key_find_reads (m : VirtualKey.module) (w : world Server) :
  writes (log (snd (VirtualKey.main_find handle m w))) = writes (log w).
Proof.
  unfold VirtualKey.main_find.
  destruct (Py.truthy_str (VirtualKey.key_id m)).
  - rewrite get_key_sends, writes_app. cbn. apply app_nil_r.
  - destruct (Py.truthy_str (VirtualKey.key_alias m)); [|reflexivity].
    rewrite get_key_by_alias_sends, writes_app. cbn. apply app_nil_r.
Qed.

(** [AnsibleModule] either rejects the task, before anything is sent, or
    hands over the parameters with the defaults filled in. *)
Lemma team_main_split (task : Team.module) (w : world Server) :
  (team_rejected task = true /\
   exists msg, Team.main handle task w = (Failed msg, w)) \/
  (team_rejected task = false /\
   Team.main handle task w
   = (existing <- Team.main_find handle (team_params task) ;;
      Team.main_reconcile handle (team_params task) existing) w).
Proof.
  unfold Team.main, Team.main_given, Team.AnsibleModule_given, team_params,
    team_rejected.
  cbn [Team.null_name Team.null_team_id Team.no_nulls].
  destruct (Team.state task), (Team.name task), (Team.team_id task);
    first [ right; split; reflexivity
          | left; split; [reflexivity | eexists; reflexivity] ].
Qed.

Lemma key_main_split (task : VirtualKey.module) (w : world Server) :
  (key_rejected task = true /\
   exists msg, VirtualKey.main handle task w = (Failed msg, w)) \/
  (key_rejected task = false /\
   VirtualKey.main handle task w
   = (existing <- VirtualKey.main_find handle (key_params task) ;;
      VirtualKey.main_reconcile handle (key_params task) existing) w).
Proof.
  unfold VirtualKey.main, VirtualKey.main_given,
    VirtualKey.AnsibleModule_given, key_params, key_rejected.
  destruct (VirtualKey.state task), (VirtualKey.key_id task);
    first [ right; split; reflexivity
          | left; split; [reflexivity | eexists; reflexivity] ].
Qed.

End ListingLookups.

(* ================================================================== *)
(** * What a run of the team and key modules may send *)
(* ================================================================== *)

(** X2.  In check mode a run of the team or key module never writes: the
    create, update and delete calls in its log are those that were there
    before, whatever the task, the server and the outcome. *)
Theorem dry_run_never_writes
  {Server : Type} (handle : Server -> request -> reply * Server)
  (w : world Server) :
  (forall task : Team.module,
      Team.check_mode task = true ->
      writes (log (snd (Team.main handle task w))) = writes (log w)) /\
  (forall task : VirtualKey.module,
      VirtualKey.check_mode task = true ->
      writes (log (snd (VirtualKey.main handle task w))) = writes (log w)).
Proof.
  split; intros task Hc.
  - destruct (team_main_split handle task w) as [(_ & msg & E)|[_ E]];
      rewrite E; [reflexivity|].
    cbn [bind Monad_M].
    pose proof (team_find_reads handle (team_params task) w) as Hf.
    destruct (Team.main_find handle (team_params task) w) as [[ex| |] w1];
      cbn [snd] in *; try exact Hf.
    destruct (Team.main_reconcile handle (team_params task) ex w1)
      as [r w2] eqn:Er.
    apply team_check_mode_silent in Er; [|exact Hc]. now subst w2.
  - destruct (key_main_split handle task w) as [(_ & msg & E)|[_ E]];
      rewrite E; [reflexivity|].
    cbn [bind Monad_M].
    pose proof (key_find_reads handle (key_params task) w) as Hf.
    destruct (VirtualKey.main_find handle (key_params task) w)
      as [[ex| |] w1]; cbn [snd] in *; try exact Hf.
    destruct (VirtualKey.main_reconcile handle (key_params task) ex w1)
      as [r w2] eqn:Er.
    apply key_check_mode_silent in Er; [|exact Hc]. now subst w2.
Qed.

Lemma dry_run_never_writes_witness :
  writes (log (snd (Team.main owned_team_api
                      (team_in_check_mode budget_task) (World tt []))))
  = [] /\
  writes (log (snd (VirtualKey.main key_456_api
                      (key_in_check_mode key_budget_task) (World tt []))))
  = [].
Proof.
  destruct (dry_run_never_writes owned_team_api (World tt [])) as [T _].
  destruct (dry_run_never_writes key_456_api (World tt [])) as [_ K].
  split.
  - exact (T (team_in_check_mode budget_task) eq_refl).
  - exact (K (key_in_check_mode key_budget_task) eq_refl).
Defined.

(** X3.  Whenever a run of the team or key module exits with a change
    flag, the same task run in check mode from the same state of the
    server exits with the same flag. *)
Theorem dry_run_same_flag
  {Server : Type} (handle : Server -> request -> reply * Server)
  (w : world Server) (flag : bool) :
  (forall task : Team.module,
      reports (Team.main handle task) w flag ->
      reports (Team.main handle (team_in_check_mode task)) w flag) /\
  (forall task : VirtualKey.module,
      reports (VirtualKey.main handle task) w flag ->
      reports (VirtualKey.main handle (key_in_check_mode task)) w flag).
Proof.
  split; intros task (r & Hr & Hf).
  - destruct (team_main_split handle task w) as [(_ & msg & E)|[Hj E]];
      [rewrite E in Hr; discriminate|].
    destruct (team_main_split handle (team_in_check_mode task) w)
      as [(Hj' & _)|[_ E']];
      [change (team_rejected (team_in_check_mode task))
         with (team_rejected task) in Hj'; congruence|].
    unfold reports. rewrite E'. rewrite E in Hr.
    change (team_params (team_in_check_mode task))
      with (team_in_check_mode (team_params task)).
    change (Team.main_find handle (team_in_check_mode (team_params task)))
      with (Team.main_find handle (team_params task)).
    cbn [bind Monad_M] in *.
    destruct (Team.main_find handle (team_params task) w)
      as [[ex| |] w1]; try discriminate.
    apply (@team_check_mode_same_flag Server handle (team_params task) ex w1 w1 flag).
    exists r. split; assumption.
  - destruct (key_main_split handle task w) as [(_ & msg & E)|[Hj E]];
      [rewrite E in Hr; discriminate|].
    destruct (key_main_split handle (key_in_check_mode task) w)
      as [(Hj' & _)|[_ E']];
      [change (key_rejected (key_in_check_mode task))
         with (key_rejected task) in Hj'; congruence|].
    unfold reports. rewrite E'. rewrite E in Hr.
    change (key_params (key_in_check_mode task))
      with (key_in_check_mode (key_params task)).
    change (VirtualKey.main_find handle (key_in_check_mode (key_params task)))
      with (VirtualKey.main_find handle (key_params task)).
    cbn [bind Monad_M] in *.
    destruct (VirtualKey.main_find handle (key_params task) w)
      as [[ex| |] w1]; try discriminate.
    apply (@key_check_mode_same_flag Server handle (key_params task) ex w1 w1 flag).
    exists r. split; assumption.
Qed.

Lemma dry_run_same_flag_witness :
  reports (Team.main owned_team_api (team_in_check_mode budget_task))
    (World tt []) true /\
  reports (VirtualKey.main key_456_api (key_in_check_mode key_budget_task))
    (World tt []) true.
Proof.
  destruct (dry_run_same_flag owned_team_api (World tt []) true) as [T _].
  destruct (dry_run_same_flag key_456_api (World tt []) true) as [_ K].
  split.
  - apply (T budget_task). eexists. split; reflexivity.
  - apply (K key_budget_task). eexists. split; reflexivity.
Defined.

Lemma accepted_status_in (codes codes' : list Z) (r : reply) :
  incl codes codes' -> accepted codes r -> status_in codes' r.
Proof.
  intros Hi (rsp & -> & Hin & _). exists rsp. split; [reflexivity|].
  now apply Hi.
Qed.

Section ChangeFlag.

Context {Server : Type} (handle : Server -> request -> reply * Server).

(** Past the lookup, a live run that reports a change has sent one POST,
    and the server has answered it with 200 or 201. *)
Lemma team_changed_row (m : Team.module) (ex : value) (w : world Server) :
  Team.check_mode m = false ->
  reports (Team.main_reconcile handle m ex) w true ->
  exists rq,
    sends (Team.main_reconcile handle m ex) w [rq] /\
    rq_method rq = POST /\
    status_in [200; 201]%Z (answer handle w rq).
Proof.
  intros Hc Hr.
  assert (H1 : incl [200%Z] [200%Z; 201%Z]) by (intros x [<-|[]]; now left).
  destruct (Team.state m) eqn:Hs, (Py.truthy ex) eqn:Ht.
  - destruct (team_differs m ex) as [[|]|e] eqn:Hn.
    + destruct (team_update_row handle m ex w Hs Hc Ht Hn)
        as (id & _ & Hsend & Hiff).
      eexists. split; [exact Hsend|]. split; [reflexivity|].
      apply (accepted_status_in H1). now apply Hiff.
    + pose proof (team_noop_row handle m ex w Hs Ht Hn) as E.
      destruct Hr as (r & Hr & Hf). rewrite E in Hr.
      injection Hr as <-. discriminate Hf.
    + destruct Hr as (r & Hr & _). unfold Team.main_reconcile in Hr.
      unfold team_differs in Hn. rewrite Hs, Ht, Hn in Hr. discriminate Hr.
  - destruct (team_create_row handle m ex w Hs Hc Ht) as (Hsend & Hiff).
    eexists. split; [exact Hsend|]. split; [reflexivity|].
    apply (accepted_status_in (incl_refl _)). now apply Hiff.
  - destruct (Py.get ex "team_id" JNull) as [id|e] eqn:Hid.
    + destruct (@team_delete_row Server handle m ex w id Hs Hc Ht Hid)
        as (Hsend & Hiff).
      eexists. split; [exact Hsend|]. split; [reflexivity|].
      destruct (proj1 Hiff Hr) as (rsp & E & Hin).
      exists rsp. split; [exact E|]. now apply H1.
    + destruct Hr as (r & Hr & _). unfold Team.main_reconcile in Hr.
      rewrite Hs, Ht, Hc in Hr. cbn [negb bind Monad_M lift] in Hr.
      rewrite Hid in Hr. discriminate Hr.
  - pose proof (team_absent_noop_row handle m ex w Hs Ht) as E.
    destruct Hr as (r & Hr & Hf). rewrite E in Hr.
    injection Hr as <-. discriminate Hf.
Qed.

Lemma key_changed_row (m : VirtualKey.module) (ex : value)
  (w : world Server) :
  VirtualKey.check_mode m = false ->
  reports (VirtualKey.main_reconcile handle m ex) w true ->
  exists rq,
    sends (VirtualKey.main_reconcile handle m ex) w [rq] /\
    rq_method rq = POST /\
    status_in [200; 201]%Z (answer handle w rq).
Proof.
  intros Hc Hr.
  assert (H1 : incl [200%Z] [200%Z; 201%Z]) by (intros x [<-|[]]; now left).
  destruct (VirtualKey.state m) eqn:Hs, (Py.truthy ex) eqn:Ht.
  - destruct (key_differs m ex) as [[|]|e] eqn:Hn.
    + destruct (key_update_row handle m ex w Hs Hc Ht Hn)
        as (id & _ & Hsend & Hiff).
      eexists. split; [exact Hsend|]. split; [reflexivity|].
      apply (accepted_status_in H1). now apply Hiff.
    + pose proof (key_noop_row handle m ex w Hs Ht Hn) as E.
      destruct Hr as (r & Hr & Hf). rewrite E in Hr.
      injection Hr as <-. discriminate Hf.
    + destruct Hr as (r & Hr & _). unfold VirtualKey.main_reconcile in Hr.
      unfold key_differs in Hn. rewrite Hs, Ht, Hn in Hr. discriminate Hr.
  - destruct (key_create_row handle m ex w Hs Hc Ht) as (Hsend & Hiff).
    eexists. split; [exact Hsend|]. split; [reflexivity|].
    apply (accepted_status_in (incl_refl _)). now apply Hiff.
  - destruct (VirtualKey.current_key_id ex) as [id|e] eqn:Hid.
    + destruct (@key_delete_row Server handle m ex w id Hs Hc Ht Hid)
        as (Hsend & Hiff).
      eexists. split; [exact Hsend|]. split; [reflexivity|].
      destruct (proj1 Hiff Hr) as (rsp & E & Hin).
      exists rsp. split; [exact E|]. now apply H1.
    + destruct Hr as (r & Hr & _). unfold VirtualKey.main_reconcile in Hr.
      rewrite Hs, Ht, Hc in Hr. cbn [negb bind Monad_M lift] in Hr.
      rewrite Hid in Hr. discriminate Hr.
  - pose proof (key_absent_noop_row handle m ex w Hs Ht) as E.
    destruct Hr as (r & Hr & Hf). rewrite E in Hr.
    injection Hr as <-. discriminate Hf.
Qed.

(** Past the lookup, a run that reports no change has sent nothing. *)
Lemma team_unchanged_row (m : Team.module) (ex : value) (w : world Server) :
  reports (Team.main_reconcile handle m ex) w false ->
  snd (Team.main_reconcile handle m ex w) = w.
Proof.
  unfold reports, Team.main_reconcile. intros (r & Hr & Hf).
  destruct (Team.state m), (Py.truthy ex);
    cbn [bind ret Monad_M lift fst snd] in *;
    try (destruct (Team.team_needs_update _ _ _ _ _) as [[|]|];
         cbn [fst snd] in *; try discriminate);
    try reflexivity;
    follow_run Hr; injection Hr as <-; discriminate Hf.
Qed.

Lemma key_unchanged_row (m : VirtualKey.module) (ex : value)
  (w : world Server) :
  reports (VirtualKey.main_reconcile handle m ex) w false ->
  snd (VirtualKey.main_reconcile handle m ex w) = w.
Proof.
  unfold reports, VirtualKey.main_reconcile. intros (r & Hr & Hf).
  destruct (VirtualKey.state m), (Py.truthy ex);
    cbn [bind ret Monad_M lift fst snd] in *;
    try (destruct (VirtualKey.key_needs_update _ _ _ _ _ _ _ _ _ _ _)
           as [[|]|];
         cbn [fst snd] in *; try discriminate);
    try reflexivity;
    follow_run Hr; injection Hr as <-; discriminate Hf.
Qed.

End ChangeFlag.

(** X4.  A live run of the team or key module reports [changed=true] only
    after a write the API accepted: past the lookup it has sent exactly one
    request, a POST, and the server has answered that POST with 200 or
    201.  It is the only write of the run. *)
Theorem changed_needs_accepted_write
  {Server : Type} (handle : Server -> request -> reply * Server)
  (w : world Server) :
  (forall task : Team.module,
      Team.check_mode task = false ->
      reports (Team.main handle task) w true ->
      let w1 := snd (Team.main_find handle (team_params task) w) in
      exists rq,
        log (snd (Team.main handle task w)) = log w1 ++ [rq] /\
        writes (log (snd (Team.main handle task w))) = writes (log w) ++ [rq] /\
        rq_method rq = POST /\
        status_in [200; 201]%Z (answer handle w1 rq)) /\
  (forall task : VirtualKey.module,
      VirtualKey.check_mode task = false ->
      reports (VirtualKey.main handle task) w true ->
      let w1 := snd (VirtualKey.main_find handle (key_params task) w) in
      exists rq,
        log (snd (VirtualKey.main handle task w)) = log w1 ++ [rq] /\
        writes (log (snd (VirtualKey.main handle task w)))
        = writes (log w) ++ [rq] /\
        rq_method rq = POST /\
        status_in [200; 201]%Z (answer handle w1 rq)).
Proof.
  split; intros task Hc Hr w1.
  - destruct (team_main_split handle task w) as [(_ & msg & E)|[_ E]];
      [destruct Hr as (r & Hr & _); rewrite E in Hr; discriminate|].
    pose proof (team_find_reads handle (team_params task) w) as Hf.
    unfold reports in Hr. rewrite E in *. subst w1.
    cbn [bind Monad_M] in *.
    destruct (Team.main_find handle (team_params task) w) as [[ex| |] w1];
      cbn [snd] in *;
      try (destruct Hr as (r & Hr & _); discriminate).
    destruct (@team_changed_row Server handle (team_params task) ex w1 Hc Hr)
      as (rq & Hsend & Hm & Hst).
    exists rq. unfold sends in Hsend. rewrite Hsend.
    repeat split; try assumption.
    rewrite writes_app, Hf. unfold writes at 2. cbn [filter].
    unfold is_write. now rewrite Hm.
  - destruct (key_main_split handle task w) as [(_ & msg & E)|[_ E]];
      [destruct Hr as (r & Hr & _); rewrite E in Hr; discriminate|].
    pose proof (key_find_reads handle (key_params task) w) as Hf.
    unfold reports in Hr. rewrite E in *. subst w1.
    cbn [bind Monad_M] in *.
    destruct (VirtualKey.main_find handle (key_params task) w)
      as [[ex| |] w1]; cbn [snd] in *;
      try (destruct Hr as (r & Hr & _); discriminate).
    destruct (@key_changed_row Server handle (key_params task) ex w1 Hc Hr)
      as (rq & Hsend & Hm & Hst).
    exists rq. unfold sends in Hsend. rewrite Hsend.
    repeat split; try assumption.
    rewrite writes_app, Hf. unfold writes at 2. cbn [filter].
    unfold is_write. now rewrite Hm.
Qed.

Lemma changed_needs_accepted_write_witness :
  (exists rq,
      writes (log (snd (Team.main owned_team_api budget_task (World tt []))))
      = [rq] /\ rq_method rq = POST) /\
  (exists rq,
      writes (log (snd (VirtualKey.main key_456_api key_budget_task
                          (World tt []))))
      = [rq] /\ rq_method rq = POST).
Proof.
  destruct (changed_needs_accepted_write owned_team_api (World tt []))
    as [T _].
  destruct (changed_needs_accepted_write key_456_api (World tt []))
    as [_ K].
  split.
  - destruct (T budget_task eq_refl) as (rq & _ & Hw & Hm & _).
    + eexists. split; reflexivity.
    + exists rq. split; assumption.
  - destruct (K key_budget_task eq_refl) as (rq & _ & Hw & Hm & _).
    + eexists. split; reflexivity.
    + exists rq. split; assumption.
Defined.

(** X5.  A run of the team or key module that reports [changed=false] has
    written nothing, in check mode or not: its log holds no create, update
    or delete call that was not there before. *)
Theorem unchanged_means_untouched
  {Server : Type} (handle : Server -> request -> reply * Server)
  (w : world Server) :
  (forall task : Team.module,
      reports (Team.main handle task) w false ->
      writes (log (snd (Team.main handle task w))) = writes (log w)) /\
  (forall task : VirtualKey.module,
      reports (VirtualKey.main handle task) w false ->
      writes (log (snd (VirtualKey.main handle task w))) = writes (log w)).
Proof.
  split; intros task Hr.
  - destruct (team_main_split handle task w) as [(_ & msg & E)|[_ E]];
      [rewrite E; reflexivity|].
    pose proof (team_find_reads handle (team_params task) w) as Hf.
    unfold reports in Hr. rewrite E in *. cbn [bind Monad_M] in *.
    destruct (Team.main_find handle (team_params task) w) as [[ex| |] w1];
      cbn [snd] in *; try exact Hf.
    now rewrite (@team_unchanged_row Server handle (team_params task) ex w1 Hr).
  - destruct (key_main_split handle task w) as [(_ & msg & E)|[_ E]];
      [rewrite E; reflexivity|].
    pose proof (key_find_reads handle (key_params task) w) as Hf.
    unfold reports in Hr. rewrite E in *. cbn [bind Monad_M] in *.
    destruct (VirtualKey.main_find handle (key_params task) w)
      as [[ex| |] w1]; cbn [snd] in *; try exact Hf.
    now rewrite (@key_unchanged_row Server handle (key_params task) ex w1 Hr).
Qed.

Lemma unchanged_means_untouched_witness :
  writes (log (snd (Team.main owned_team_api settled_team_task (World tt []))))
  = [] /\
  writes (log (snd (VirtualKey.main key_456_api settled_key_task
                      (World tt []))))
  = [].
Proof.
  destruct (unchanged_means_untouched owned_team_api (World tt [])) as [T _].
  destruct (unchanged_means_untouched key_456_api (World tt [])) as [_ K].
  split.
  - apply (T settled_team_task). eexists. split; reflexivity.
  - apply (K settled_key_task). eexists. split; reflexivity.
Defined.

(* ================================================================== *)
(** * An API that cannot be reached *)
(* ================================================================== *)

Section Unreachable.

Context {Server : Type} (handle : Server -> request -> reply * Server).

Hypothesis down : forall s rq, exists e, fst (handle s rq) = RequestException e.

Lemma down_answer (w : world Server) (rq : request) :
  exists e, answer handle w rq = RequestException e.
Proof. apply down. Qed.

Lemma get_endpoint_down (n : string) (w : world Server) :
  exists e,
    Endpoint.get_endpoint handle n w
    = (Failed [Lit "Errore nella richiesta HTTP: "; Lit e],
       after handle w (Request GET "/model/info" None)).
Proof.
  destruct (down_answer w (Request GET "/model/info" None)) as [e He].
  exists e. unfold Endpoint.get_endpoint, Endpoint.get_endpoints.
  cbn [bind Monad_M]. rewrite get_spec, He. reflexivity.
Qed.

Lemma get_model_down (n : string) (w : world Server) :
  exists e,
    Model.get_model handle n w
    = (Failed [Lit "Errore nella richiesta HTTP: "; Lit e],
       after handle w (Request GET "/model/info" None)).
Proof.
  destruct (down_answer w (Request GET "/model/info" None)) as [e He].
  exists e. unfold Model.get_model, Model.get_models, Model._make_request.
  cbn [bind Monad_M]. rewrite get_spec, He. reflexivity.
Qed.

(** X6.  When no request gets through ([requests] raises on every call),
    no module reports a change it did not make: a live run of the team or
    key module never exits with [changed=true], and a run of the endpoint
    or model module always ends in [fail_json], without a write. *)
Theorem unreachable_api_changes_nothing (w : world Server) :
  (forall task : Team.module,
      Team.check_mode task = false ->
      ~ reports (Team.main handle task) w true) /\
  (forall task : VirtualKey.module,
      VirtualKey.check_mode task = false ->
      ~ reports (VirtualKey.main handle task) w true) /\
  (forall task : Endpoint.module,
      (exists msg, fst (Endpoint.main handle task w) = Failed msg) /\
      writes (log (snd (Endpoint.main handle task w))) = writes (log w)) /\
  (forall task : Model.module,
      (exists msg, fst (Model.main handle task w) = Failed msg) /\
      writes (log (snd (Model.main handle task w))) = writes (log w)).
Proof.
  assert (Hno : forall w1 rq, ~ status_in [200; 201]%Z (answer handle w1 rq)).
  { intros w1 rq (rsp & E & _). destruct (down_answer w1 rq) as [e He].
    congruence. }
  assert (Hw : forall rq, writes (log (after handle w rq))
                          = writes (log w) ++ writes [rq])
    by (intros rq; apply writes_app).
  split; [|split; [|split]].
  - intros task Hc Hr.
    destruct (team_main_split handle task w) as [(_ & msg & E)|[_ E]];
      unfold reports in Hr; rewrite E in Hr;
      [destruct Hr as (r & Hr & _); discriminate|].
    cbn [bind Monad_M] in Hr.
    destruct (Team.main_find handle (team_params task) w) as [[ex| |] w1];
      try (destruct Hr as (r & Hr & _); discriminate).
    destruct (@team_changed_row Server handle (team_params task) ex w1 Hc Hr)
      as (rq & _ & _ & Hst).
    exact (Hno _ _ Hst).
  - intros task Hc Hr.
    destruct (key_main_split handle task w) as [(_ & msg & E)|[_ E]];
      unfold reports in Hr; rewrite E in Hr;
      [destruct Hr as (r & Hr & _); discriminate|].
    cbn [bind Monad_M] in Hr.
    destruct (VirtualKey.main_find handle (key_params task) w)
      as [[ex| |] w1];
      try (destruct Hr as (r & Hr & _); discriminate).
    destruct (@key_changed_row Server handle (key_params task) ex w1 Hc Hr)
      as (rq & _ & _ & Hst).
    exact (Hno _ _ Hst).
  - intros task.
    destruct (get_endpoint_down (Endpoint.endpoint_name task) w) as [e He].
    unfold Endpoint.main, Endpoint.AnsibleModule, try_except,
      Endpoint.main_body.
    cbn [bind ret Monad_M Endpoint.state Endpoint.endpoint_name
         Endpoint.api_base Endpoint.provider].
    destruct (Endpoint.state task).
    + destruct (negb (Py.truthy_str (Endpoint.api_base task))
                || negb (Py.truthy_str (Endpoint.provider task)));
        cbn [bind ret Monad_M fail_json fst snd].
      * split; [eexists; reflexivity | reflexivity].
      * rewrite He. cbn [fst snd]. split; [eexists; reflexivity|].
        rewrite Hw. cbn. apply app_nil_r.
    + cbn [bind Monad_M]. rewrite He. cbn [fst snd].
      split; [eexists; reflexivity|].
      rewrite Hw. cbn. apply app_nil_r.
  - intros task.
    destruct (get_model_down (Model.model_name task) w) as [e He].
    unfold Model.main, Model.AnsibleModule, try_except, Model.main_body.
    cbn [bind ret Monad_M Model.state Model.model_name Model.litellm_params].
    destruct (Model.state task).
    + destruct (negb (Py.truthy_dict (Model.litellm_params task)));
        cbn [bind ret Monad_M fail_json fst snd].
      * split; [eexists; reflexivity | reflexivity].
      * rewrite He. cbn [fst snd]. split; [eexists; reflexivity|].
        rewrite Hw. cbn. apply app_nil_r.
    + cbn [bind Monad_M]. rewrite He. cbn [fst snd].
      split; [eexists; reflexivity|].
      rewrite Hw. cbn. apply app_nil_r.
Qed.

End Unreachable.

Lemma unreachable_api_changes_nothing_witness :
  ~ reports (Team.main (unreachable "Connection refused") budget_task)
      (World tt []) true /\
  exists msg,
    fst (Endpoint.main (unreachable "Connection refused")
           (openai_endpoint_task false) (World tt []))
    = Failed msg.
Proof.
  assert (D : forall (s : unit) rq,
             exists e, fst (unreachable "Connection refused" s rq)
                       = RequestException e)
    by (intros s rq; eexists; reflexivity).
  destruct (unreachable_api_changes_nothing
              (unreachable "Connection refused") D (World tt []))
    as (T & _ & E & _).
  split.
  - exact (T budget_task eq_refl).
  - exact (proj1 (E (openai_endpoint_task false))).
Defined.

(* ================================================================== *)
(** * An ID the API does not know *)
(* ================================================================== *)

Section UnknownId.

Context {Server : Type} (handle : Server -> request -> reply * Server).

Lemma get_team_404 (id : string) (w : world Server) (rsp : response) :
  answer handle w (Request GET ("/team/" ++ id) None) = Reply rsp ->
  status_code rsp = 404%Z ->
  Team.get_team handle id w
  = (Done JNull, after handle w (Request GET ("/team/" ++ id) None)).
Proof.
  intros Ha Hs. unfold Team.get_team. cbn [bind Monad_M].
  rewrite get_spec, Ha, Hs. reflexivity.
Qed.

Lemma get_key_404 (id : string) (w : world Server) (rsp : response) :
  answer handle w (Request GET ("/key/info?key=" ++ id) None) = Reply rsp ->
  status_code rsp = 404%Z ->
  VirtualKey.get_key handle id w
  = (Done JNull, after handle w (Request GET ("/key/info?key=" ++ id) None)).
Proof.
  intros Ha Hs. unfold VirtualKey.get_key. cbn [bind Monad_M].
  rewrite get_spec, Ha, Hs. reflexivity.
Qed.

(** X7.  A 404 on the point lookup means "absent", not an error: with
    [state=present] the live run goes on to create.  The create call is
    the one of a task without ID: its body does not carry the ID the task
    gave, so the resource that comes out is a new one under an ID of the
    server's choosing. *)
Theorem unknown_id_creates (w : world Server) (rsp : response) :
  status_code rsp = 404%Z ->
  (forall task : Team.module,
      Team.state task = present -> Team.check_mode task = false ->
      Team.name task <> None ->
      Py.truthy_str (Team.team_id task) = true ->
      let lookup := Request GET ("/team/" ++ Py.str_of (Team.team_id task))
                      None in
      let create := team_create_call (team_params task) in
      answer handle w lookup = Reply rsp ->
      sends (Team.main handle task) w [lookup; create] /\
      (reports (Team.main handle task) w true
       <-> accepted [200; 201]%Z (answer handle (after handle w lookup) create)) /\
      forall data, rq_json create = Some (JDict data) ->
                   ~ In "team_id" (Py.keys data)) /\
  (forall task : VirtualKey.module,
      VirtualKey.state task = present -> VirtualKey.check_mode task = false ->
      Py.truthy_str (VirtualKey.key_id task) = true ->
      let lookup := Request GET ("/key/info?key="
                                 ++ Py.str_of (VirtualKey.key_id task)) None in
      let create := key_create_call (key_params task) in
      answer handle w lookup = Reply rsp ->
      sends (VirtualKey.main handle task) w [lookup; create] /\
      (reports (VirtualKey.main handle task) w true
       <-> accepted [200; 201]%Z (answer handle (after handle w lookup) create)) /\
      forall data, rq_json create = Some (JDict data) ->
                   ~ In "key" (Py.keys data)).
Proof.
  intros H404. split.
  - intros task Hs Hc Hn Hid lookup create Ha.
    assert (E : Team.main handle task w
                = Team.main_reconcile handle (team_params task) JNull
                    (after handle w lookup)).
    { destruct (team_main_split handle task w) as [(Hj & _)|[_ E]].
      - unfold team_rejected in Hj. rewrite Hs in Hj.
        destruct (Team.name task); [discriminate | now elim Hn].
      - rewrite E. cbn [bind Monad_M]. unfold Team.main_find.
        cbn [team_params Team.team_id]. rewrite Hid.
        now rewrite (get_team_404 _ _ Ha H404). }
    destruct (team_create_row handle (team_params task) JNull
                (after handle w lookup) Hs Hc eq_refl) as (Hsend & Hiff).
    split; [|split].
    + unfold sends in *. rewrite E, Hsend. cbn [after log].
      now rewrite <- app_assoc.
    + unfold reports in *. rewrite E. exact Hiff.
    + intros data Ed. injection Ed as <-. unfold Team.create_team_data.
      repeat first [ apply not_in_keys_set_some; [|discriminate]
                   | apply not_in_keys_set_if; [|left; discriminate] ].
      intros [H|[]]. discriminate H.
  - intros task Hs Hc Hid lookup create Ha.
    assert (E : VirtualKey.main handle task w
                = VirtualKey.main_reconcile handle (key_params task) JNull
                    (after handle w lookup)).
    { destruct (key_main_split handle task w) as [(Hj & _)|[_ E]].
      - unfold key_rejected in Hj. rewrite Hs in Hj. discriminate.
      - rewrite E. cbn [bind Monad_M]. unfold VirtualKey.main_find.
        cbn [key_params VirtualKey.key_id]. rewrite Hid.
        now rewrite (get_key_404 _ _ Ha H404). }
    destruct (key_create_row handle (key_params task) JNull
                (after handle w lookup) Hs Hc eq_refl) as (Hsend & Hiff).
    split; [|split].
    + unfold sends in *. rewrite E, Hsend. cbn [after log].
      now rewrite <- app_assoc.
    + unfold reports in *. rewrite E. exact Hiff.
    + intros data Ed. injection Ed as <-. unfold VirtualKey.create_key_data.
      repeat first [ apply not_in_keys_set_some; [|discriminate]
                   | apply not_in_keys_set_if; [|left; discriminate] ].
      intros [].
Qed.

End UnknownId.

Lemma unknown_id_creates_witness :
  sends (Team.main team_api unknown_team_task) (World tt [])
    [Request GET "/team/t9" None;
     Request POST "/team/new"
       (Some (JDict [("team_alias", JStr "team-x")]))] /\
  sends (VirtualKey.main key_api unknown_key_task) (World tt [])
    [Request GET "/key/info?key=k9" None;
     Request POST "/key/generate"
       (Some (JDict [("max_budget", JNum (10 # 1))]))].
Proof.
  destruct (@unknown_id_creates unit team_api (World tt [])
              (Response 404 None "Not Found") eq_refl) as [T _].
  destruct (@unknown_id_creates unit key_api (World tt [])
              (Response 404 None "Not Found") eq_refl) as [_ K].
  split.
  - refine (proj1 (T unknown_team_task eq_refl eq_refl _ eq_refl eq_refl)).
    discriminate.
  - exact (proj1 (K unknown_key_task eq_refl eq_refl eq_refl eq_refl)).
Defined.

(* ================================================================== *)
(** * Endpoints and models that exist already *)
(* ================================================================== *)

(** X8.  The endpoint and model modules never update: with
    [state=present], once the name is found in the listing the run sends
    two lookups and no write, whatever base URL, provider, parameters or
    metadata the task declares, and it never reports [changed=true]; when
    the second lookup succeeds the run exits with [changed=false] and the
    resource as the API lists it. *)
Theorem existing_is_never_updated
  {Server : Type} (handle : Server -> request -> reply * Server)
  (w w1 : world Server) (existing : value) :
  Py.truthy existing = true ->
  let lookup := Request GET "/model/info" None in
  (forall task : Endpoint.module,
      Endpoint.state task = present ->
      Py.truthy_str (Endpoint.api_base task) = true ->
      Py.truthy_str (Endpoint.provider task) = true ->
      Endpoint.get_endpoint handle (Endpoint.endpoint_name task) w
      = (Done existing, w1) ->
      sends (Endpoint.main handle task) w [lookup; lookup] /\
      ~ reports (Endpoint.main handle task) w true /\
      forall found w2,
        Endpoint.get_endpoint handle (Endpoint.endpoint_name task) w1
        = (Done found, w2) ->
        Endpoint.main handle task w
        = (Done (Result false found
                   [Lit ("Endpoint '" ++ Endpoint.endpoint_name task
                         ++ "' già esistente")]), w2)) /\
  (forall task : Model.module,
      Model.state task = present ->
      Py.truthy_dict (Model.litellm_params task) = true ->
      Model.get_model handle (Model.model_name task) w = (Done existing, w1) ->
      sends (Model.main handle task) w [lookup; lookup] /\
      ~ reports (Model.main handle task) w true /\
      forall found w2,
        Model.get_model handle (Model.model_name task) w1 = (Done found, w2) ->
        Model.main handle task w
        = (Done (Result false found
                   [Lit ("Modello '" ++ Model.model_name task
                         ++ "' già esistente")]), w2)).
Proof.
  intros Ht lookup. split.
  - intros task Hs Hb Hp Hg.
    pose proof (get_endpoint_sends handle (Endpoint.endpoint_name task) w)
      as L1.
    pose proof (get_endpoint_sends handle (Endpoint.endpoint_name task) w1)
      as L2.
    unfold sends in L1, L2. rewrite Hg in L1. cbn [snd] in L1.
    assert (E : Endpoint.main handle task w
                = (let (o, w2) := Endpoint.get_endpoint handle
                                    (Endpoint.endpoint_name task) w1 in
                   match o with
                   | Done found =>
                       (Done (Result false found
                                [Lit ("Endpoint '" ++ Endpoint.endpoint_name task
                                      ++ "' già esistente")]), w2)
                   | Failed msg => (Failed msg, w2)
                   | Raised e =>
                       (Failed [Lit "Errore imprevisto: "; ExnStr e], w2)
                   end)).
    { unfold Endpoint.main, Endpoint.AnsibleModule, try_except,
        Endpoint.main_body.
      cbn [bind ret Monad_M Endpoint.state Endpoint.endpoint_name
           Endpoint.api_base Endpoint.provider].
      rewrite Hs, Hb, Hp. cbn [negb orb bind ret Monad_M].
      rewrite Hg, Ht. cbn [bind ret Monad_M].
      destruct (Endpoint.get_endpoint handle (Endpoint.endpoint_name task) w1)
        as [[found| |] w2]; reflexivity. }
    unfold sends, reports. rewrite !E.
    destruct (Endpoint.get_endpoint handle (Endpoint.endpoint_name task) w1)
      as [[found| |] w2]; cbn [fst snd] in *;
      (split; [rewrite L2, L1; now rewrite <- app_assoc|]);
      (split; [intros (r & Hr & Hf); try discriminate;
               injection Hr as <-; discriminate Hf|]);
      intros f w3 Ef; congruence.
  - intros task Hs Hl Hg.
    pose proof (get_model_sends handle (Model.model_name task) w) as L1.
    pose proof (get_model_sends handle (Model.model_name task) w1) as L2.
    unfold sends in L1, L2. rewrite Hg in L1. cbn [snd] in L1.
    assert (E : Model.main handle task w
                = (let (o, w2) := Model.get_model handle
                                    (Model.model_name task) w1 in
                   match o with
                   | Done found =>
                       (Done (Result false found
                                [Lit ("Modello '" ++ Model.model_name task
                                      ++ "' già esistente")]), w2)
                   | Failed msg => (Failed msg, w2)
                   | Raised e =>
                       (Failed [Lit "Errore imprevisto: "; ExnStr e], w2)
                   end)).
    { unfold Model.main, Model.AnsibleModule, try_except, Model.main_body.
      cbn [bind ret Monad_M Model.state Model.model_name
           Model.litellm_params].
      rewrite Hs, Hl. cbn [negb bind ret Monad_M].
      rewrite Hg, Ht. cbn [bind ret Monad_M].
      destruct (Model.get_model handle (Model.model_name task) w1)
        as [[found| |] w2]; reflexivity. }
    unfold sends, reports. rewrite !E.
    destruct (Model.get_model handle (Model.model_name task) w1)
      as [[found| |] w2]; cbn [fst snd] in *;
      (split; [rewrite L2, L1; now rewrite <- app_assoc|]);
      (split; [intros (r & Hr & Hf); try discriminate;
               injection Hr as <-; discriminate Hf|]);
      intros f w3 Ef; congruence.
Qed.

Lemma existing_is_never_updated_witness :
  sends (Endpoint.main old_endpoint_api moved_endpoint_task) (World tt [])
    [Request GET "/model/info" None; Request GET "/model/info" None] /\
  sends (Model.main old_endpoint_api moved_model_task) (World tt [])
    [Request GET "/model/info" None; Request GET "/model/info" None].
Proof.
  split.
  - destruct (@existing_is_never_updated unit old_endpoint_api
                (World tt []) (World tt [Request GET "/model/info" None])
                (endpoint_record "old-endpoint"
                   (Some "https://api.openai.com/v1") "openai"
                   (JDict [("endpoint_type", JStr "managed_endpoint")]))
                eq_refl) as [E _].
    exact (proj1 (E moved_endpoint_task eq_refl eq_refl eq_refl eq_refl)).
  - destruct (@existing_is_never_updated unit old_endpoint_api
                (World tt []) (World tt [Request GET "/model/info" None])
                (JDict [("model_name", JStr "old-endpoint");
                        ("litellm_params",
                         JDict [("model", JStr "openai/endpoint-old-endpoint");
                                ("api_base", JStr "https://api.openai.com/v1")]);
                        ("model_info",
                         JDict [("endpoint_type", JStr "managed_endpoint")])])
                eq_refl) as [_ M].
    exact (proj1 (M moved_model_task eq_refl eq_refl eq_refl)).
Defined.

(** X9.  With [state=present] the endpoint module asks for [api_base] and
    [provider], and the model module for [litellm_params]: a task that
    leaves one of them out, or empty, fails before anything is sent. *)
Theorem present_needs_parameters
  {Server : Type} (handle : Server -> request -> reply * Server)
  (w : world Server) :
  (forall task : Endpoint.module,
      Endpoint.state task = present ->
      Py.truthy_str (Endpoint.api_base task) = false \/
      Py.truthy_str (Endpoint.provider task) = false ->
      Endpoint.main handle task w
      = (Failed [Lit "api_base e provider sono richiesti quando state è 'present'"],
         w)) /\
  (forall task : Model.module,
      Model.state task = present ->
      Py.truthy_dict (Model.litellm_params task) = false ->
      Model.main handle task w
      = (Failed [Lit "litellm_params è richiesto quando state è 'present'"],
         w)).
Proof.
  split.
  - intros task Hs Hm.
    unfold Endpoint.main, Endpoint.AnsibleModule, try_except,
      Endpoint.main_body.
    cbn [bind ret Monad_M Endpoint.state Endpoint.endpoint_name
         Endpoint.api_base Endpoint.provider].
    rewrite Hs.
    destruct Hm as [-> | ->]; [|rewrite orb_true_r]; reflexivity.
  - intros task Hs Hm.
    unfold Model.main, Model.AnsibleModule, try_except, Model.main_body.
    cbn [bind ret Monad_M Model.state Model.model_name Model.litellm_params].
    rewrite Hs, Hm. reflexivity.
Qed.

Lemma present_needs_parameters_witness :
  (exists msg,
      Endpoint.main empty_model_api incomplete_endpoint_task (World tt [])
      = (Failed msg, World tt [])) /\
  (exists msg,
      Model.main empty_model_api incomplete_model_task (World tt [])
      = (Failed msg, World tt [])).
Proof.
  destruct (present_needs_parameters empty_model_api (World tt []))
    as [E M].
  split; eexists.
  - apply (E incomplete_endpoint_task eq_refl). now right.
  - exact (M incomplete_model_task eq_refl eq_refl).
Defined.

(* ================================================================== *)
(** * Scanning a listing *)
(* ================================================================== *)

(** X10.  The scan of a listing returns the first entry that matches, and
    [None] when none does; entries after the first match, further matches
    included, are not looked at.  The key module steps over entries that
    are not dicts; the team module raises [AttributeError] on the first
    such entry it meets before a match. *)
Theorem first_match_wins (wanted : string) :
  (forall l,
      (forall x, In x l -> key_matches wanted x = false) ->
      VirtualKey.first_key l wanted = JNull) /\
  (forall pre k post,
      (forall x, In x pre -> key_matches wanted x = false) ->
      key_matches wanted k = true ->
      VirtualKey.first_key (pre ++ k :: post) wanted = k) /\
  (forall l,
      (forall x, In x l -> Py.is_dict x = true /\ team_matches wanted x = false) ->
      Team.first_team l wanted = Ok JNull) /\
  (forall pre t post,
      (forall x, In x pre -> Py.is_dict x = true /\ team_matches wanted x = false) ->
      team_matches wanted t = true ->
      Team.first_team (pre ++ t :: post) wanted = Ok t) /\
  (forall pre x post,
      (forall y, In y pre -> Py.is_dict y = true /\ team_matches wanted y = false) ->
      Py.is_dict x = false ->
      Team.first_team (pre ++ x :: post) wanted = Exn (AttributeError "get")).
Proof.
  assert (Kstep : forall x rest,
             key_matches wanted x = false ->
             VirtualKey.first_key (x :: rest) wanted
             = VirtualKey.first_key rest wanted).
  { intros x rest H. destruct x; try reflexivity.
    cbn in *. now rewrite H. }
  assert (Tstep : forall x rest,
             Py.is_dict x = true -> team_matches wanted x = false ->
             Team.first_team (x :: rest) wanted
             = Team.first_team rest wanted).
  { intros x rest Hd H. destruct x; try discriminate.
    cbn in *. apply orb_false_elim in H as [H1 H2]. now rewrite H1, H2. }
  assert (Tpre : forall pre rest,
             (forall x, In x pre ->
                        Py.is_dict x = true /\ team_matches wanted x = false) ->
             Team.first_team (pre ++ rest) wanted
             = Team.first_team rest wanted).
  { induction pre as [|x pre IH]; intros rest H; [reflexivity|].
    cbn [app]. destruct (H x (or_introl eq_refl)) as [Hd Hm].
    rewrite (Tstep _ _ Hd Hm). apply IH. intros y Hy. apply H. now right. }
  split; [|split; [|split; [|split]]].
  - induction l as [|x l IH]; intros H; [reflexivity|].
    rewrite Kstep by (apply H; now left). apply IH. intros y Hy.
    apply H. now right.
  - induction pre as [|x pre IH]; intros k post H Hk.
    + destruct k; try discriminate. cbn in *. now rewrite Hk.
    + cbn [app]. rewrite Kstep by (apply H; now left).
      apply IH; [|exact Hk]. intros y Hy. apply H. now right.
  - intros l H. rewrite <- (app_nil_r l). now rewrite Tpre.
  - intros pre t post H Ht. rewrite (Tpre _ _ H).
    destruct t; try discriminate. cbn in *.
    destruct (Py.equal _ _); [reflexivity|]. cbn in Ht. now rewrite Ht.
  - intros pre x post H Hx. rewrite (Tpre _ _ H).
    destruct x; try discriminate; reflexivity.
Qed.

Lemma first_match_wins_witness :
  VirtualKey.first_key twin_keys "twin"
  = JDict [("token", JStr "k2"); ("key_alias", JStr "twin")].
Proof.
  destruct (first_match_wins "twin") as (_ & K & _).
  apply (K [JStr "noise";
            JDict [("token", JStr "k1"); ("key_alias", JStr "other")]]
           (JDict [("token", JStr "k2"); ("key_alias", JStr "twin")])
           [JDict [("token", JStr "k3"); ("key_name", JStr "twin")]]).
  - intros x [<-|[<-|[]]]; reflexivity.
  - reflexivity.
Defined.

(* ================================================================== *)
(** * The provider of an endpoint *)
(* ================================================================== *)

Lemma split_head_no_slash (s : string) :
  Py.is_substring "/" (hd "" (Py.split "/" s)) = false.
Proof.
  induction s as [|c s IH]; [reflexivity|].
  change (Py.split "/" (String c s))
    with (if Ascii.eqb c "/" then "" :: Py.split "/" s
          else match Py.split "/" s with
               | h :: t => String c h :: t
               | [] => [String c ""]
               end).
  destruct (Ascii.eqb c "/") eqn:Hc; [reflexivity|].
  destruct (Py.split "/" s) as [|h t] eqn:E.
  - now apply PyFacts.split_nonempty in E.
  - cbn [hd] in *. now rewrite PyFacts.has_slash_cons, Hc, IH.
Qed.

(** X11.  Whatever [litellm_params] a listed model carries, the provider
    [_extract_provider] returns is a string without a slash: what
    precedes the first slash of the [model] parameter, and [unknown] when
    that parameter is missing or has no slash. *)
Theorem provider_has_no_slash (litellm_params : value) :
  (forall provider,
      Endpoint._extract_provider litellm_params = Ok provider ->
      exists s, provider = JStr s /\ Py.contains "/" provider = Ok false) /\
  (forall d, litellm_params = JDict d -> Py.lookup d "model" = None ->
      Endpoint._extract_provider litellm_params = Ok (JStr "unknown")) /\
  (forall d s, litellm_params = JDict d ->
      Py.lookup d "model" = Some (JStr s) ->
      Endpoint._extract_provider litellm_params
      = Ok (JStr (if Py.is_substring "/" s then hd "" (Py.split "/" s)
                  else "unknown"))).
Proof.
  split; [|split].
  - intros provider. unfold Endpoint._extract_provider.
    destruct (Py.get litellm_params "model" (JStr "")) as [model|];
      [|discriminate].
    cbn [bind Monad_res].
    destruct (Py.contains "/" model) as [[|]|]; try discriminate.
    + destruct model; try discriminate. intros E. injection E as <-.
      eexists. split; [reflexivity|]. cbn. f_equal.
      apply split_head_no_slash.
    + intros E. injection E as <-. eexists. split; reflexivity.
  - intros d -> H. unfold Endpoint._extract_provider. cbn. rewrite H.
    reflexivity.
  - intros d s -> H. unfold Endpoint._extract_provider. cbn. rewrite H.
    cbn. destruct (Py.is_substring "/" s); reflexivity.
Qed.

Lemma provider_has_no_slash_witness :
  Endpoint._extract_provider (JDict [("model", JStr "azure/eu/gpt-4")])
  = Ok (JStr "azure") /\
  Endpoint._extract_provider (JDict [("api_base", JStr "http://x")])
  = Ok (JStr "unknown").
Proof.
  split.
  - exact (proj2 (proj2 (provider_has_no_slash
                           (JDict [("model", JStr "azure/eu/gpt-4")])))
             _ "azure/eu/gpt-4" eq_refl eq_refl).
  - exact (proj1 (proj2 (provider_has_no_slash
                           (JDict [("api_base", JStr "http://x")])))
             _ eq_refl eq_refl).
Defined.

(* ================================================================== *)
(** * A remote list of models that is no list *)
(* ================================================================== *)

Lemma flag_if_differs_dict (d : dict) (g : bool) (k : string) (x : value)
  (n : bool) :
  exists b, Py.flag_if g (Py.differs (JDict d) k x) n = Ok b.
Proof. destruct g; cbn; eexists; reflexivity. Qed.

(** Runs a chain of guarded comparisons on a dict up to the comparison of
    the models. *)
Ltac upto_models :=
  cbn [bind ret Monad_res];
  repeat match goal with
         | |- context [Py.flag_if ?g (Py.differs (JDict ?d) ?k ?x) ?n] =>
             let b := fresh "b" in
             let E := fresh "E" in
             destruct (flag_if_differs_dict d g k x n) as [b E];
             rewrite E; clear E
         end.

(** X12.  The default [[]] of [current.get('models', [])] only covers a
    missing key.  When the remote resource carries [models] with a value
    [set()] cannot take ([null], a number, a list that holds a dict), and
    the task declares models, the comparison raises; nothing catches the
    exception, so the run of the team or key module ends in a traceback
    before anything is sent. *)
Theorem remote_models_must_be_a_list
  {Server : Type} (handle : Server -> request -> reply * Server)
  (d : dict) (c : value) (e : exn) (desired : list string) :
  Py.lookup d "models" = Some c ->
  Py.to_set c = Exn e ->
  Py.truthy (JDict d) = true /\
  (forall name metadata max_budget,
      Team.team_needs_update (JDict d) name metadata max_budget (Some desired)
      = Exn e) /\
  (forall key_alias team_id max_budget budget_duration metadata expires
          max_parallel_requests tpm_limit rpm_limit,
      VirtualKey.key_needs_update (JDict d) key_alias team_id (Some desired)
        max_budget budget_duration metadata expires max_parallel_requests
        tpm_limit rpm_limit = Exn e) /\
  (forall (m : Team.module) (w : world Server),
      Team.state m = present -> Team.models m = Some desired ->
      Team.main_reconcile handle m (JDict d) w = (Raised e, w)) /\
  (forall (m : VirtualKey.module) (w : world Server),
      VirtualKey.state m = present -> VirtualKey.models m = Some desired ->
      VirtualKey.main_reconcile handle m (JDict d) w = (Raised e, w)).
Proof.
  intros Hl Hc.
  assert (Hs : forall n, Py.flag_if (Py.is_some (Some desired))
                           (Py.sets_differ (JDict d) "models"
                              (Py.of_list (Some desired))) n = Exn e).
  { intros n. unfold Py.sets_differ. cbn [Py.is_some Py.flag_if Py.get].
    rewrite Hl. cbn [bind Monad_res]. now rewrite Hc. }
  assert (Ht : forall name metadata max_budget,
      Team.team_needs_update (JDict d) name metadata max_budget (Some desired)
      = Exn e).
  { intros. unfold Team.team_needs_update. upto_models. now rewrite Hs. }
  assert (Hk : forall key_alias team_id max_budget budget_duration metadata
                      expires max_parallel_requests tpm_limit rpm_limit,
      VirtualKey.key_needs_update (JDict d) key_alias team_id (Some desired)
        max_budget budget_duration metadata expires max_parallel_requests
        tpm_limit rpm_limit = Exn e).
  { intros. unfold VirtualKey.key_needs_update. upto_models. now rewrite Hs. }
  assert (Htr : Py.truthy (JDict d) = true)
    by (destruct d; [discriminate Hl | reflexivity]).
  split; [exact Htr|]. split; [exact Ht|]. split; [exact Hk|]. split.
  - intros m w Hp Hm. unfold Team.main_reconcile.
    rewrite Hp, Htr, Hm, Ht. reflexivity.
  - intros m w Hp Hm. unfold VirtualKey.main_reconcile.
    rewrite Hp, Htr, Hm, Hk. reflexivity.
Qed.

Lemma remote_models_must_be_a_list_witness :
  Team.main_reconcile team_api gpt4_team_task team_with_null_models
    (World tt [])
  = (Raised TypeError, World tt []).
Proof.
  destruct (@remote_models_must_be_a_list unit team_api
              [("team_id", JStr "t1"); ("team_alias", JStr "team-x");
               ("models", JNull)]
              JNull TypeError ["gpt-4"] eq_refl eq_refl)
    as (_ & _ & _ & T & _).
  exact (T gpt4_team_task (World tt []) eq_refl eq_refl).
Defined.

(* ================================================================== *)
(** * One listing, two modules *)
(* ================================================================== *)

Lemma contains_key (d : dict) (k : string) :
  existsb (String.eqb k) (Py.keys d) = Py.is_some (Py.lookup d k).
Proof.
  induction d as [|[k' v] d IH]; [reflexivity|].
  cbn. rewrite (String.eqb_sym k k'). destruct (k' =? k); [reflexivity|].
  exact IH.
Qed.

(** One round of the loop of [get_endpoints], by what the tests and
    accesses on the model give. *)
Lemma endpoints_among_skip (model : value) (rest : list value) :
  Py.contains "litellm_params" model = Ok false \/
  (exists lp, Py.contains "litellm_params" model = Ok true /\
              Py.getitem model "litellm_params" = Ok lp /\
              Py.contains "api_base" lp = Ok false) ->
  Endpoint.endpoints_among (model :: rest) = Endpoint.endpoints_among rest.
Proof.
  intros [H|(lp & H1 & H2 & H3)]; cbn [Endpoint.endpoints_among].
  - now rewrite H.
  - rewrite H1. cbn [bind Monad_res]. rewrite H2. cbn [bind Monad_res].
    now rewrite H3.
Qed.

Lemma endpoints_among_keep (model lp name api_base provider info : value)
  (rest : list value) :
  Py.contains "litellm_params" model = Ok true ->
  Py.getitem model "litellm_params" = Ok lp ->
  Py.contains "api_base" lp = Ok true ->
  Py.get model "model_name" (JStr "unknown") = Ok name ->
  Py.getitem lp "api_base" = Ok api_base ->
  Endpoint._extract_provider lp = Ok provider ->
  Py.get model "model_info" (JDict []) = Ok info ->
  Endpoint.endpoints_among (model :: rest)
  = (endpoints <- Endpoint.endpoints_among rest ;;
     ret (JDict [("endpoint_name", name); ("api_base", api_base);
                 ("provider", provider); ("metadata", info)] :: endpoints)).
Proof.
  intros H1 H2 H3 H4 H5 H6 H7. cbn [Endpoint.endpoints_among].
  rewrite H1. cbn [bind Monad_res]. rewrite H2. cbn [bind Monad_res].
  rewrite H3, H4. cbn [bind Monad_res]. rewrite H5. cbn [bind Monad_res].
  rewrite H6. cbn [bind Monad_res]. rewrite H7. reflexivity.
Qed.

(** X13.  The endpoint and model modules read the same listing
    [/model/info].  [get_endpoints] keeps a model exactly when its
    [litellm_params] carry an [api_base]: a model without one is skipped,
    so the endpoint module does not see it (and would register its name
    again); a model [litellm_model] registers with an [api_base] is listed
    as an endpoint under its model name. *)
Theorem endpoints_are_models_with_api_base
  (model_name : string) (rest : list value) :
  (forall d,
      Py.lookup d "litellm_params" = None ->
      Endpoint.endpoints_among (JDict d :: rest)
      = Endpoint.endpoints_among rest) /\
  (forall d lp,
      Py.lookup d "litellm_params" = Some (JDict lp) ->
      Py.lookup lp "api_base" = None ->
      Endpoint.endpoints_among (JDict d :: rest)
      = Endpoint.endpoints_among rest) /\
  (forall lp model_info api_base provider,
      Py.lookup lp "api_base" = Some api_base ->
      Endpoint._extract_provider (JDict lp) = Ok provider ->
      Endpoint.endpoints_among
        (JDict (Model.create_model_data model_name (Some lp) model_info)
         :: rest)
      = (endpoints <- Endpoint.endpoints_among rest ;;
         ret (JDict [("endpoint_name", JStr model_name);
                     ("api_base", api_base);
                     ("provider", provider);
                     ("metadata",
                      JDict (if Py.truthy_dict model_info
                             then match model_info with
                                  | Some i => i
                                  | None => []
                                  end
                             else []))]
              :: endpoints))).
Proof.
  assert (Hin : forall d k, Py.contains k (JDict d)
                            = Ok (Py.is_some (Py.lookup d k)))
    by (intros d k; unfold Py.contains; now rewrite contains_key).
  split; [|split].
  - intros d H. apply endpoints_among_skip. left. now rewrite Hin, H.
  - intros d lp H Hb. apply endpoints_among_skip. right. exists (JDict lp).
    split; [now rewrite Hin, H|]. split; [cbn; now rewrite H|].
    now rewrite Hin, Hb.
  - intros lp model_info api_base provider Hb Hp.
    apply endpoints_among_keep with (lp := JDict lp); try assumption.
    + destruct model_info as [[|i info]|]; reflexivity.
    + destruct model_info as [[|i info]|]; reflexivity.
    + now rewrite Hin, Hb.
    + destruct model_info as [[|i info]|]; reflexivity.
    + cbn. now rewrite Hb.
    + destruct model_info as [[|i info]|]; reflexivity.
Qed.

Lemma endpoints_are_models_with_api_base_witness :
  Endpoint.endpoints_among [plain_gpt4] = Ok [] /\
  Endpoint.endpoints_among
    [JDict (Model.create_model_data "azure-gpt"
              (Some [("model", JStr "azure/gpt-35");
                     ("api_base", JStr "https://az.example.com")]) None)]
  = Ok [JDict [("endpoint_name", JStr "azure-gpt");
               ("api_base", JStr "https://az.example.com");
               ("provider", JStr "azure");
               ("metadata", JDict [])]].
Proof.
  destruct (endpoints_are_models_with_api_base "azure-gpt" [])
    as (_ & _ & Listed).
  destruct (endpoints_are_models_with_api_base "gpt-4" [])
    as (_ & Skipped & _).
  split.
  - exact (Skipped [("model_name", JStr "gpt-4");
                    ("litellm_params", JDict [("model", JStr "gpt-4")])]
             [("model", JStr "gpt-4")] eq_refl eq_refl).
  - exact (Listed [("model", JStr "azure/gpt-35");
                   ("api_base", JStr "https://az.example.com")]
             None (JStr "https://az.example.com") (JStr "azure")
             eq_refl eq_refl).
Defined.

(** X14.  An endpoint is a model under the same name: in a listing that
    starts with the model [create_endpoint] registers, [get_model] of the
    model module finds that very model under the endpoint's name. *)
Theorem endpoint_is_found_as_model
  (endpoint_name : string) (api_base provider api_key api_version : option string)
  (metadata : option dict) (others : list value) :
  let data := JDict (Endpoint.create_endpoint_data endpoint_name api_base
                       provider api_key api_version metadata) in
  Model.model_of (JDict [("data", JList (data :: others))]) endpoint_name
  = Ok data /\
  Py.truthy data = true.
Proof.
  intros data. split; [|reflexivity].
  unfold Model.model_of. cbn. now rewrite String.eqb_refl.
Qed.

(* ================================================================== *)
(** * A second run against a server that stores what it is sent *)
(* ================================================================== *)

Lemma first_model_app (models l : list value) (n : string) :
  Model.first_model models n = Ok JNull ->
  Model.first_model (models ++ l) n = Model.first_model l n.
Proof.
  induction models as [|m models IH]; intros H; [reflexivity|].
  cbn [Model.first_model app] in *.
  destruct (Py.get m "model_name" JNull) as [v|e] eqn:E;
    cbn [bind Monad_res] in *; [|discriminate].
  destruct (Py.equal v (JStr n)); [|now apply IH].
  injection H as ->. discriminate.
Qed.

Lemma first_endpoint_app (es l : list value) (n : string) :
  Endpoint.first_endpoint es n = Ok JNull ->
  Endpoint.first_endpoint (es ++ l) n = Endpoint.first_endpoint l n.
Proof.
  induction es as [|m es IH]; intros H; [reflexivity|].
  cbn [Endpoint.first_endpoint app] in *.
  destruct (Py.get m "endpoint_name" JNull) as [v|e] eqn:E;
    cbn [bind Monad_res] in *; [|discriminate].
  destruct (Py.equal v (JStr n)); [|now apply IH].
  injection H as ->. discriminate.
Qed.

(** The listing pass of [get_endpoints] goes through the models in order:
    what it makes of a longer listing extends what it made of the shorter
    one. *)
Lemma endpoints_among_app (models l es : list value) :
  Endpoint.endpoints_among models = Ok es ->
  Endpoint.endpoints_among (models ++ l)
  = (more <- Endpoint.endpoints_among l ;; ret (es ++ more)).
Proof.
  revert es. induction models as [|m models IH]; intros es H.
  - injection H as <-. cbn [app]. now destruct (Endpoint.endpoints_among l).
  - cbn [Endpoint.endpoints_among app bind Monad_res] in *.
    repeat match type of H with
           | match ?x with _ => _ end = _ =>
               destruct x; try discriminate; try (now apply IH)
           end.
    cbn [ret Monad_res] in H. injection H as <-.
    erewrite IH by reflexivity.
    destruct (Endpoint.endpoints_among l); reflexivity.
Qed.

(** The model manager on the storing server. *)
Lemma get_model_stored (models : list value) (l : list request) (n : string) :
  Model.get_model model_store n (World models l)
  = lift (Model.first_model models n) (World models (l ++ [listing_call])).
Proof. reflexivity. Qed.

Lemma create_model_stored (models : list value) (l : list request)
  (n : string) (lp mi : option dict) :
  let data := JDict (Model.create_model_data n lp mi) in
  Model.create_model model_store n lp mi (World models l)
  = (Done data,
     World (models ++ [data]) (l ++ [Request POST "/model/new" (Some data)])).
Proof. reflexivity. Qed.

Lemma first_model_created (n : string) (lp mi : option dict) :
  let data := JDict (Model.create_model_data n lp mi) in
  Model.first_model [data] n = Ok data /\ Py.truthy data = true.
Proof.
  unfold Model.create_model_data.
  destruct (Py.truthy_dict mi); cbn; now rewrite String.eqb_refl.
Qed.

(** X15.  A second run of [litellm_model] changes nothing.  Against a
    server that stores the models it is sent, a task with [state=present]
    whose model is not listed yet registers it (listing, create call,
    listing again, [changed=true]); the same task run again finds the model
    it registered, sends the two listing requests only, leaves the server
    as it is and exits with [changed=false] and the same model. *)
Theorem model_second_run_changes_nothing
  (task : Model.module) (models : list value) :
  Model.state task = present ->
  Py.truthy_dict (Model.litellm_params task) = true ->
  fst (Model.get_model model_store (Model.model_name task) (World models []))
  = Done JNull ->
  let data := registered_model task in
  let stored := models ++ [data] in
  exists msg msg',
    Model.main model_store task (World models [])
    = (Done (Result true data msg),
       World stored
         [listing_call; Request POST "/model/new" (Some data); listing_call])
    /\
    Model.main model_store task (World stored [])
    = (Done (Result false data msg'),
       World stored [listing_call; listing_call]).
Proof.
  destruct task as [n lp mi st chk]. intros Hst Hlp Hnone.
  cbn [Model.state Model.litellm_params Model.model_name] in Hst, Hlp, Hnone.
  subst st. unfold registered_model.
  cbn [Model.litellm_params Model.model_name Model.model_info].
  set (info := match mi with Some m => Some m | None => Some [] end).
  set (data := JDict (Model.create_model_data n lp info)).
  set (stored := models ++ [data]).
  rewrite get_model_stored in Hnone. unfold lift in Hnone. cbn [fst] in Hnone.
  destruct (Model.first_model models n) as [v|] eqn:E; [|discriminate].
  injection Hnone as ->.
  assert (Efound : Model.first_model stored n = Ok data).
  { unfold stored. rewrite (@first_model_app models [data] n E).
    apply first_model_created. }
  assert (Htrue : Py.truthy data = true) by apply first_model_created.
  do 2 eexists.
  unfold Model.main, Model.AnsibleModule, try_except, Model.main_body.
  cbn [bind ret Monad_M Model.state Model.litellm_params Model.model_name
       Model.model_info].
  fold info. rewrite Hlp. cbn [negb]. split.
  - rewrite get_model_stored, E. cbn [lift Py.truthy].
    rewrite create_model_stored. fold data. fold stored.
    rewrite get_model_stored, Efound. reflexivity.
  - rewrite get_model_stored, Efound. cbn [lift]. rewrite Htrue.
    rewrite get_model_stored, Efound. reflexivity.
Qed.

Lemma model_second_run_changes_nothing_witness :
  let data := registered_model (gpt4_model_task false) in
  exists msg msg',
    Model.main model_store (gpt4_model_task false) (World [plain_gpt4_turbo] [])
    = (Done (Result true data msg),
       World [plain_gpt4_turbo; data]
         [listing_call; Request POST "/model/new" (Some data); listing_call])
    /\
    Model.main model_store (gpt4_model_task false)
      (World [plain_gpt4_turbo; data] [])
    = (Done (Result false data msg'),
       World [plain_gpt4_turbo; data] [listing_call; listing_call]).
Proof.
  exact (@model_second_run_changes_nothing (gpt4_model_task false)
           [plain_gpt4_turbo] eq_refl eq_refl eq_refl).
Defined.

(** The endpoint manager on the storing server. *)
Lemma get_endpoint_stored (models : list value) (l : list request)
  (n : string) :
  Endpoint.get_endpoint model_store n (World models l)
  = lift (es <- Endpoint.endpoints_among models ;;
          Endpoint.first_endpoint es n)
      (World models (l ++ [listing_call])).
Proof.
  unfold Endpoint.get_endpoint, Endpoint.get_endpoints.
  cbn -[Endpoint.endpoints_among Endpoint.first_endpoint].
  destruct (Endpoint.endpoints_among models); reflexivity.
Qed.

Lemma create_endpoint_stored (models : list value) (l : list request)
  (n : string) (ab p k v : option string) (md : option dict) :
  let data := JDict (Endpoint.create_endpoint_data n ab p k v md) in
  Endpoint.create_endpoint model_store n ab p k v md (World models l)
  = (Done data,
     World (models ++ [data]) (l ++ [Request POST "/model/new" (Some data)])).
Proof. reflexivity. Qed.

(** The model [create_endpoint] registers is an endpoint for the listing
    pass, under the name it was created with, whatever the provider. *)
Lemma endpoints_among_created (n : string) (ab p k v : option string)
  (md : option dict) :
  exists r,
    Endpoint.endpoints_among
      [JDict (Endpoint.create_endpoint_data n ab p k v md)] = Ok [r] /\
    Endpoint.first_endpoint [r] n = Ok r /\
    Py.truthy r = true.
Proof.
  assert (Hp : forall lp,
             Py.lookup lp "model"
               = Some (JStr (Py.format p ++ "/endpoint-" ++ n)) ->
             exists q, Endpoint._extract_provider (JDict lp) = Ok (JStr q)).
  { intros lp E. unfold Endpoint._extract_provider. simpl. rewrite E. simpl.
    rewrite PyFacts.has_slash_app. eexists. reflexivity. }
  unfold Endpoint.create_endpoint_data.
  destruct (Py.truthy_str k), (Py.truthy_str v);
    (match goal with
     | |- context [("litellm_params", JDict ?lp)] =>
         destruct (Hp lp eq_refl) as (q & Eq)
     end);
    eexists;
    (split;
     [ erewrite endpoints_among_keep;
       [ reflexivity | reflexivity | reflexivity | reflexivity | reflexivity
       | reflexivity | exact Eq | reflexivity ]
     | split; [cbn; now rewrite String.eqb_refl | reflexivity] ]).
Qed.

(** X16.  A second run of [litellm_endpoint] changes nothing.  Against a
    server that stores the models it is sent, a task with [state=present]
    whose endpoint is not listed yet registers its model (listing, create
    call, listing again, [changed=true]); the same task run again finds the
    endpoint, sends the two listing requests only, leaves the server as it
    is and exits with [changed=false] and the same endpoint record. *)
Theorem endpoint_second_run_changes_nothing
  (task : Endpoint.module) (models : list value) :
  Endpoint.state task = present ->
  Py.truthy_str (Endpoint.api_base task) = true ->
  Py.truthy_str (Endpoint.provider task) = true ->
  fst (Endpoint.get_endpoint model_store (Endpoint.endpoint_name task)
         (World models [])) = Done JNull ->
  let data := endpoint_model task in
  let stored := models ++ [data] in
  exists endpoint msg msg',
    Endpoint.main model_store task (World models [])
    = (Done (Result true endpoint msg),
       World stored
         [listing_call; Request POST "/model/new" (Some data); listing_call])
    /\
    Endpoint.main model_store task (World stored [])
    = (Done (Result false endpoint msg'),
       World stored [listing_call; listing_call]).
Proof.
  destruct task as [n ab p k v md st chk]. intros Hst Hab Hp Hnone.
  cbn [Endpoint.state Endpoint.api_base Endpoint.provider
       Endpoint.endpoint_name] in Hst, Hab, Hp, Hnone.
  subst st. unfold endpoint_model.
  cbn [Endpoint.endpoint_name Endpoint.api_base Endpoint.provider
       Endpoint.endpoint_api_key Endpoint.api_version Endpoint.metadata].
  set (meta := match md with Some m => Some m | None => Some [] end).
  set (data := JDict (Endpoint.create_endpoint_data n ab p k v meta)).
  set (stored := models ++ [data]).
  rewrite get_endpoint_stored in Hnone. unfold lift in Hnone.
  cbn [fst] in Hnone.
  destruct (Endpoint.endpoints_among models) as [es|] eqn:E; [|discriminate].
  cbn [bind Monad_res] in Hnone.
  destruct (Endpoint.first_endpoint es n) as [x|] eqn:E'; [|discriminate].
  injection Hnone as ->.
  destruct (endpoints_among_created n ab p k v meta) as (r & Er & Efirst & Hr).
  fold data in Er.
  assert (Efound : (es <- Endpoint.endpoints_among stored ;;
                    Endpoint.first_endpoint es n) = Ok r).
  { unfold stored. rewrite (@endpoints_among_app models [data] es E), Er.
    cbn [bind ret Monad_res].
    now rewrite (@first_endpoint_app es [r] n E'). }
  exists r. do 2 eexists.
  unfold Endpoint.main, Endpoint.AnsibleModule, try_except, Endpoint.main_body.
  cbn [bind ret Monad_M Endpoint.state Endpoint.api_base Endpoint.provider
       Endpoint.endpoint_name Endpoint.endpoint_api_key Endpoint.api_version
       Endpoint.metadata].
  fold meta. rewrite Hab, Hp. cbn [negb orb]. split.
  - rewrite get_endpoint_stored, E. cbn [bind Monad_res]. rewrite E'.
    cbn [lift Py.truthy].
    rewrite create_endpoint_stored. fold data. fold stored.
    rewrite get_endpoint_stored, Efound. reflexivity.
  - rewrite get_endpoint_stored, Efound. cbn [lift]. rewrite Hr.
    rewrite get_endpoint_stored, Efound. reflexivity.
Qed.

Lemma endpoint_second_run_changes_nothing_witness :
  let data := endpoint_model (openai_endpoint_task false) in
  exists endpoint msg msg',
    Endpoint.main model_store (openai_endpoint_task false)
      (World [plain_gpt4_turbo] [])
    = (Done (Result true endpoint msg),
       World [plain_gpt4_turbo; data]
         [listing_call; Request POST "/model/new" (Some data); listing_call])
    /\
    Endpoint.main model_store (openai_endpoint_task false)
      (World [plain_gpt4_turbo; data] [])
    = (Done (Result false endpoint msg'),
       World [plain_gpt4_turbo; data] [listing_call; listing_call]).
Proof.
  exact (@endpoint_second_run_changes_nothing (openai_endpoint_task false)
           [plain_gpt4_turbo] eq_refl eq_refl eq_refl eq_refl).
Defined.

(* ================================================================== *)
(** * A resource stored as it was created *)
(* ================================================================== *)

Lemma value_deep_ind (P : value -> Prop) :
  P JNull -> (forall b, P (JBool b)) -> (forall q, P (JNum q)) ->
  (forall s, P (JStr s)) ->
  (forall l, Forall P l -> P (JList l)) ->
  (forall d, Forall (fun kv => P (snd kv)) d -> P (JDict d)) ->
  forall v, P v.
Proof.
  intros H0 H1 H2 H3 H4 H5. fix IH 1.
  intros [|b|q|s|l|d];
    [exact H0 | apply H1 | apply H2 | apply H3 | apply H4 | apply H5].
  - induction l as [|x l IHl]; constructor; [apply IH | exact IHl].
  - induction d as [|[k x] d IHd]; constructor; [apply IH | exact IHd].
Qed.

Lemma equal_dict (d e : dict) :
  Py.equal (JDict d) (JDict e)
  = (length d =? length e)%nat
    && forallb (fun kv => match Py.lookup e (fst kv) with
                          | Some v' => Py.equal (snd kv) v'
                          | None => false
                          end) d.
Proof.
  simpl. f_equal. induction d as [|[k v] d IH]; simpl; [reflexivity|].
  now rewrite IH.
Qed.

Lemma equal_list_refl (l : list value) :
  Forall (fun x => Py.equal x x = true) l -> Py.equal (JList l) (JList l) = true.
Proof.
  induction 1 as [|x l Hx _ IH]; [reflexivity|].
  simpl in *. now rewrite Hx.
Qed.

Lemma lookup_not_key (d : dict) (k : string) :
  existsb (String.eqb k) (Py.keys d) = false -> Py.lookup d k = None.
Proof.
  induction d as [|[k' v] d IH]; simpl; [reflexivity|].
  intros H. apply orb_false_elim in H as [H1 H2].
  rewrite String.eqb_sym, H1. now apply IH.
Qed.

(** [v == v] holds for a value whose dictionaries hold each key once. *)
Lemma equal_refl (v : value) : unique_keys v = true -> Py.equal v v = true.
Proof.
  induction v as [|b|q|s|l IH|d IH] using value_deep_ind; intros H.
  - reflexivity.
  - simpl. now destruct b.
  - simpl. apply Qeq_bool_iff. reflexivity.
  - apply PyFacts.equal_str_refl.
  - apply equal_list_refl. induction IH as [|x l Hx _ IHl]; constructor.
    + apply Hx. simpl in H. now apply andb_prop in H.
    + apply IHl. simpl in H. now apply andb_prop in H.
  - rewrite equal_dict, Nat.eqb_refl. cbn [andb].
    assert (G : forall e,
               (forall k x, In (k, x) e -> Py.lookup d k = Some x /\
                                           Py.equal x x = true) ->
               forallb (fun kv => match Py.lookup d (fst kv) with
                                  | Some v' => Py.equal (snd kv) v'
                                  | None => false
                                  end) e = true).
    { intros e He. apply forallb_forall. intros [k x] Hin.
      cbn [fst snd]. destruct (He k x Hin) as [-> Hx]. exact Hx. }
    apply G. clear G.
    induction IH as [|[k x] d Hx _ IHd]; intros k0 x0 Hin; [easy|].
    simpl in H. apply andb_prop in H as [H Hall].
    apply andb_prop in H as [Hk Hu]. apply negb_true_iff in Hk.
    destruct Hin as [Heq|Hin].
    + injection Heq as <- <-. simpl. rewrite String.eqb_refl.
      split; [reflexivity | now apply Hx].
    + destruct (IHd Hall k0 x0 Hin) as [Hl Hx0]. split; [|exact Hx0].
      simpl. destruct (k =? k0) eqn:E; [|exact Hl].
      apply String.eqb_eq in E. subst k0.
      rewrite (lookup_not_key _ _ Hk) in Hl. discriminate.
Qed.

Section PayloadLookups.

Variables (d : dict) (k k' : string).

Lemma lookup_setitem (v : value) :
  Py.lookup (Py.setitem d k v) k'
  = if k =? k' then Some v else Py.lookup d k'.
Proof.
  destruct (String.eqb_spec k k') as [<-|H].
  - apply PyFacts.lookup_setitem_same.
  - now apply PyFacts.lookup_setitem_other.
Qed.

Lemma lookup_set_if (c : bool) (v : value) :
  Py.lookup (Py.set_if c d k v) k'
  = if (k =? k') && c then Some v else Py.lookup d k'.
Proof.
  destruct c; cbn [Py.set_if]; [rewrite lookup_setitem|];
    now destruct (k =? k').
Qed.

Lemma lookup_set_some (o : option value) :
  Py.lookup (Py.set_some d k o) k'
  = if (k =? k') && Py.is_some o then o else Py.lookup d k'.
Proof.
  destruct o; cbn [Py.set_some]; [rewrite lookup_setitem|];
    now destruct (k =? k').
Qed.

End PayloadLookups.

(** A guarded comparison of a field with the value the record holds for
    it asks for nothing. *)
Lemma flag_if_same (d : dict) (g : bool) (k : string) (v : value)
  (needs_update : bool) :
  (g = true -> Py.lookup d k = Some v /\ unique_keys v = true) ->
  Py.flag_if g (Py.differs (JDict d) k v) needs_update = Ok needs_update.
Proof.
  destruct g; [|reflexivity]. intros H. destruct (H eq_refl) as [Hk Hv].
  unfold Py.flag_if, Py.differs, Py.get. rewrite Hk. cbn [bind ret Monad_res].
  now rewrite (equal_refl _ Hv).
Qed.

(** The models of the record are those of the task, or the record has no
    models and the task's list is empty: equal as sets either way. *)
Lemma flag_if_same_models (d : dict) (models : option (list string))
  (needs_update : bool) :
  Py.lookup d "models"
  = (if Py.truthy_list models then Some (Py.of_list models) else None) ->
  Py.flag_if (Py.is_some models)
    (Py.sets_differ (JDict d) "models" (Py.of_list models)) needs_update
  = Ok needs_update.
Proof.
  destruct models as [l|]; [|reflexivity]. intros H.
  unfold Py.flag_if. cbn [Py.is_some].
  rewrite (@sets_differ_same_elements (JDict d) "models" (map JStr l) l);
    [reflexivity | | tauto].
  unfold Py.get. rewrite H. now destruct l.
Qed.

Ltac payload_lookup :=
  repeat first [ rewrite lookup_setitem | rewrite lookup_set_if
               | rewrite lookup_set_some ];
  cbn [String.eqb Ascii.eqb Bool.eqb andb Py.lookup].

(** X17.  A team that the server holds exactly as [create_team] sent it
    (plus an identifier) needs no update for the same parameters, unless
    [metadata] is the empty dictionary: [create_team] leaves an empty
    [metadata] out of the body, and [team_needs_update] then compares the
    missing field with [{}] and asks for an update. *)
Theorem created_team_needs_no_update (id : value) (m : Team.module) :
  unique_keys (Py.of_dict (Team.metadata m)) = true ->
  team_differs m (team_as_created id m)
  = Ok (empty_metadata (Team.metadata m)).
Proof.
  destruct m as [tid name metadata max_budget models st chk].
  unfold team_differs, team_as_created, Team.team_needs_update.
  cbn [Team.name Team.metadata Team.max_budget Team.models].
  intros Hu.
  set (data := Py.setitem _ "team_id" id).
  rewrite flag_if_same; cycle 1.
  { intros _. split; [|now destruct name].
    unfold data, Team.create_team_data. payload_lookup. reflexivity. }
  cbn [bind Monad_res].
  assert (Hmeta : Py.flag_if (Py.is_some metadata)
                    (Py.differs (JDict data) "metadata" (Py.of_dict metadata))
                    false = Ok (empty_metadata metadata)).
  { destruct metadata as [[|kv md]|]; [| |reflexivity].
    - unfold Py.flag_if, Py.differs, Py.get, data, Team.create_team_data.
      payload_lookup. reflexivity.
    - apply flag_if_same. intros _. split; [|exact Hu].
      unfold data, Team.create_team_data. payload_lookup. reflexivity. }
  rewrite Hmeta. cbn [bind Monad_res].
  rewrite flag_if_same; cycle 1.
  { intros H. split; [|now destruct max_budget].
    unfold data, Team.create_team_data. payload_lookup.
    destruct max_budget; [reflexivity | discriminate]. }
  cbn [bind Monad_res].
  rewrite flag_if_same_models; [reflexivity|].
  unfold data, Team.create_team_data. payload_lookup.
  now destruct (Py.truthy_list models).
Qed.

Lemma created_team_needs_no_update_witness :
  unique_keys (Py.of_dict (Team.metadata settled_team_task)) = true /\
  team_differs settled_team_task
    (team_as_created (JStr "t1") settled_team_task) = Ok false /\
  team_differs (team_params name_only_task)
    (team_as_created (JStr "t1") (team_params name_only_task)) = Ok true.
Proof.
  split; [reflexivity|]. split.
  - exact (@created_team_needs_no_update (JStr "t1") settled_team_task
             eq_refl).
  - exact (@created_team_needs_no_update (JStr "t1")
             (team_params name_only_task) eq_refl).
Defined.

(** X18.  The same for a virtual key: a key that the server holds exactly
    as [create_key] sent it (plus its token) needs no update for the same
    parameters, unless [metadata] is the empty dictionary, which
    [create_key] leaves out of the body and [key_needs_update] compares
    with the missing field. *)
Theorem created_key_needs_no_update (id : value) (m : VirtualKey.module) :
  unique_keys (Py.of_dict (VirtualKey.metadata m)) = true ->
  key_differs m (key_as_created id m)
  = Ok (empty_metadata (VirtualKey.metadata m)).
Proof.
  destruct m as [kid key_alias team_id models max_budget budget_duration
                   metadata expires max_parallel_requests tpm_limit rpm_limit
                   st chk].
  unfold key_differs, key_as_created, VirtualKey.key_needs_update.
  cbn [VirtualKey.key_alias VirtualKey.team_id VirtualKey.models
       VirtualKey.max_budget VirtualKey.budget_duration VirtualKey.metadata
       VirtualKey.expires VirtualKey.max_parallel_requests
       VirtualKey.tpm_limit VirtualKey.rpm_limit].
  intros Hu.
  set (data := Py.setitem _ "token" id).
  assert (Hstr : forall (g : bool) k (s : option string) nu,
             Py.lookup data k = (if g then Some (Py.of_str s) else None) ->
             Py.flag_if g (Py.differs (JDict data) k (Py.of_str s)) nu
             = Ok nu).
  { intros g k s nu H. apply flag_if_same. intros ->.
    split; [exact H | now destruct s]. }
  assert (Hint : forall k (z : option Z) nu,
             Py.lookup data k = option_map Py.int z ->
             Py.flag_if (Py.is_some z) (Py.differs (JDict data) k (Py.of_int z))
               nu = Ok nu).
  { intros k z nu H. apply flag_if_same. intros Hz.
    destruct z; [|discriminate]. split; [exact H | reflexivity]. }
  rewrite Hstr; cycle 1.
  { unfold data, VirtualKey.create_key_data. payload_lookup.
    now destruct (Py.truthy_str key_alias). }
  cbn [bind Monad_res].
  rewrite Hstr; cycle 1.
  { unfold data, VirtualKey.create_key_data. payload_lookup.
    now destruct (Py.truthy_str team_id). }
  cbn [bind Monad_res].
  rewrite flag_if_same_models; cycle 1.
  { unfold data, VirtualKey.create_key_data. payload_lookup.
    now destruct (Py.truthy_list models). }
  cbn [bind Monad_res].
  rewrite flag_if_same; cycle 1.
  { intros H. split; [|now destruct max_budget].
    unfold data, VirtualKey.create_key_data. payload_lookup.
    destruct max_budget; [reflexivity | discriminate]. }
  cbn [bind Monad_res].
  rewrite Hstr; cycle 1.
  { unfold data, VirtualKey.create_key_data. payload_lookup.
    now destruct (Py.truthy_str budget_duration). }
  cbn [bind Monad_res].
  assert (Hmeta : Py.flag_if (Py.is_some metadata)
                    (Py.differs (JDict data) "metadata" (Py.of_dict metadata))
                    false = Ok (empty_metadata metadata)).
  { destruct metadata as [[|kv md]|]; [| |reflexivity].
    - unfold Py.flag_if, Py.differs, Py.get, data, VirtualKey.create_key_data.
      payload_lookup. reflexivity.
    - apply flag_if_same. intros _. split; [|exact Hu].
      unfold data, VirtualKey.create_key_data. payload_lookup. reflexivity. }
  rewrite Hmeta. cbn [bind Monad_res].
  rewrite Hstr; cycle 1.
  { unfold data, VirtualKey.create_key_data. payload_lookup.
    now destruct (Py.truthy_str expires). }
  cbn [bind Monad_res].
  rewrite Hint; cycle 1.
  { unfold data, VirtualKey.create_key_data. payload_lookup.
    now destruct max_parallel_requests. }
  cbn [bind Monad_res].
  rewrite Hint; cycle 1.
  { unfold data, VirtualKey.create_key_data. payload_lookup.
    now destruct tpm_limit. }
  cbn [bind Monad_res].
  rewrite Hint; cycle 1.
  { unfold data, VirtualKey.create_key_data. payload_lookup.
    now destruct rpm_limit. }
  reflexivity.
Qed.

Lemma created_key_needs_no_update_witness :
  unique_keys (Py.of_dict (VirtualKey.metadata settled_key_task)) = true /\
  key_differs settled_key_task
    (key_as_created (JStr "sk-1") settled_key_task) = Ok false /\
  key_differs (key_params prod_key_task)
    (key_as_created (JStr "sk-1") (key_params prod_key_task)) = Ok true.
Proof.
  split; [reflexivity|]. split.
  - exact (@created_key_needs_no_update (JStr "sk-1") settled_key_task
             eq_refl).
  - exact (@created_key_needs_no_update (JStr "sk-1")
             (key_params prod_key_task) eq_refl).
Defined.


(* ================================================================== *)
(** * What the comparison compares *)
(* ================================================================== *)

Section Comparisons.

Variables (d : dict) (k : string).

(** One guarded comparison adds the difference of its field, when the
    guard is the test that the field is declared. *)
Lemma flag_if_declared (g : bool) (v : value) (declared : option value)
  (needs_update : bool) :
  g = Py.is_some declared ->
  (forall x, declared = Some x -> v = x) ->
  Py.flag_if g (Py.differs (JDict d) k v) needs_update
  = Ok (needs_update || declared_differs (JDict d) k declared).
Proof.
  intros -> Hv. destruct declared as [x|]; cbn [Py.is_some Py.flag_if].
  - rewrite (Hv x eq_refl). unfold Py.differs, declared_differs, remote_field.
    cbn [Py.get bind ret Monad_res].
    destruct (negb _); [now rewrite orb_true_r | now rewrite orb_false_r].
  - cbn. now rewrite orb_false_r.
Qed.

Lemma flag_if_declared_str (s : option string) (needs_update : bool) :
  named s = true ->
  Py.flag_if (Py.truthy_str s) (Py.differs (JDict d) k (Py.of_str s))
    needs_update
  = Ok (needs_update || declared_differs (JDict d) k (option_map JStr s)).
Proof.
  intros H. apply flag_if_declared.
  - destruct s as [s|]; [exact H | reflexivity].
  - destruct s; intros x E; now inversion E.
Qed.

End Comparisons.

Lemma flag_if_declared_set (d : dict) (models : option (list string))
  (needs_update : bool) :
  lists_models (JDict d) = true ->
  Py.flag_if (Py.is_some models)
    (Py.sets_differ (JDict d) "models" (Py.of_list models)) needs_update
  = Ok (needs_update || declared_set_differs (JDict d) "models" models).
Proof.
  intros H. destruct models as [l|]; cbn [Py.is_some Py.flag_if];
    [|cbn; now rewrite orb_false_r].
  unfold Py.sets_differ, declared_set_differs, remote_set, remote_field.
  cbn [Py.get bind ret Monad_res Py.of_list]. cbn [lists_models] in H.
  unfold Py.to_set, Py.of_strs. cbn [Py.iter bind Monad_res].
  rewrite strings_hashable.
  destruct (Py.lookup d "models") as [[| | | |remote|]|]; try discriminate.
  - cbn [Py.iter bind Monad_res]. rewrite H. cbn [bind ret Monad_res].
    destruct (negb _); [now rewrite orb_true_r | now rewrite orb_false_r].
  - cbn [Py.iter bind ret Monad_res forallb].
    destruct (negb _); [now rewrite orb_true_r | now rewrite orb_false_r].
Qed.

(** On the parameters a manager receives, [team_needs_update] and
    [key_needs_update] return whether some field that is set differs. *)
Lemma team_needs_update_fields (m : Team.module) (d : dict) :
  named (Team.name m) = true ->
  lists_models (JDict d) = true ->
  team_differs m (JDict d) = Ok (team_fields_differ m (JDict d)).
Proof.
  intros Hn Hl. unfold team_differs, Team.team_needs_update, team_fields_differ.
  rewrite flag_if_declared_str by exact Hn. cbn [bind Monad_res orb].
  rewrite (@flag_if_declared d "metadata" _ _
             (option_map JDict (Team.metadata m)));
    [| now destruct (Team.metadata m)
     | destruct (Team.metadata m); intros x E; now inversion E ].
  cbn [bind Monad_res].
  rewrite (@flag_if_declared d "max_budget" _ _
             (option_map JNum (Team.max_budget m)));
    [| now destruct (Team.max_budget m)
     | destruct (Team.max_budget m); intros x E; now inversion E ].
  cbn [bind Monad_res].
  rewrite flag_if_declared_set by exact Hl. reflexivity.
Qed.

Ltac compare_declared k f v :=
  rewrite (@flag_if_declared _ k _ _ (option_map f v));
  [ cbn [bind Monad_res]
  | now destruct v
  | destruct v; intros ? ?E; now inversion E ].

Lemma key_needs_update_fields (m : VirtualKey.module) (d : dict) :
  named (VirtualKey.key_alias m) = true ->
  named (VirtualKey.team_id m) = true ->
  named (VirtualKey.budget_duration m) = true ->
  named (VirtualKey.expires m) = true ->
  lists_models (JDict d) = true ->
  key_differs m (JDict d) = Ok (key_fields_differ m (JDict d)).
Proof.
  intros Ha Ht Hb He Hl.
  unfold key_differs, VirtualKey.key_needs_update, key_fields_differ.
  rewrite flag_if_declared_str by exact Ha. cbn [bind Monad_res orb].
  rewrite flag_if_declared_str by exact Ht. cbn [bind Monad_res].
  rewrite flag_if_declared_set by exact Hl. cbn [bind Monad_res].
  compare_declared "max_budget" JNum (VirtualKey.max_budget m).
  rewrite flag_if_declared_str by exact Hb. cbn [bind Monad_res].
  compare_declared "metadata" JDict (VirtualKey.metadata m).
  rewrite flag_if_declared_str by exact He. cbn [bind Monad_res].
  compare_declared "max_parallel_requests" Py.int
    (VirtualKey.max_parallel_requests m).
  compare_declared "tpm_limit" Py.int (VirtualKey.tpm_limit m).
  compare_declared "rpm_limit" Py.int (VirtualKey.rpm_limit m).
  reflexivity.
Qed.

(** Turns the comparisons of the fields into variables and decides the
    equation between the disjunctions. *)
Ltac by_truth_table :=
  repeat match goal with
         | |- context [declared_differs ?r ?k ?o] =>
             generalize (declared_differs r k o); intro
         | |- context [declared_set_differs ?r ?k ?o] =>
             generalize (declared_set_differs r k o); intro
         | |- context [Py.equal ?a ?b] =>
             generalize (Py.equal a b); intro
         end;
  repeat match goal with
         | b : bool |- _ => destruct b
         end;
  reflexivity.

(** X20.  What [main] of the team and key modules compares.  Against a
    remote resource that is a dict and lists its models, if any, as a list,
    and for a task whose string parameters are not empty, the comparison
    on the parameters the module receives returns true exactly when some
    field the task declares differs from the remote one, or when the task
    leaves [metadata] out and the remote metadata is not [{}]: the default
    of [metadata] is compared as if the task had declared it. *)
Theorem needs_update_compares_declared_fields (d : dict) :
  lists_models (JDict d) = true ->
  (forall task : Team.module,
      named (Team.name task) = true ->
      team_differs (team_params task) (JDict d)
      = Ok (team_fields_differ task (JDict d)
            || default_metadata_differs (Team.metadata task) (JDict d))) /\
  (forall task : VirtualKey.module,
      named (VirtualKey.key_alias task) = true ->
      named (VirtualKey.team_id task) = true ->
      named (VirtualKey.budget_duration task) = true ->
      named (VirtualKey.expires task) = true ->
      key_differs (key_params task) (JDict d)
      = Ok (key_fields_differ task (JDict d)
            || default_metadata_differs (VirtualKey.metadata task) (JDict d))).
Proof.
  intros Hl. split.
  - intros task Hn. rewrite team_needs_update_fields; [|exact Hn|exact Hl].
    f_equal. unfold team_fields_differ, default_metadata_differs.
    cbn [team_params Team.name Team.metadata Team.max_budget Team.models].
    destruct (Team.metadata task);
      cbn [option_map declared_differs Py.is_some negb andb];
      by_truth_table.
  - intros task Ha Ht Hb He.
    rewrite key_needs_update_fields; [|assumption..].
    f_equal. unfold key_fields_differ, default_metadata_differs.
    cbn [key_params VirtualKey.key_alias VirtualKey.team_id VirtualKey.models
         VirtualKey.max_budget VirtualKey.budget_duration VirtualKey.metadata
         VirtualKey.expires VirtualKey.max_parallel_requests
         VirtualKey.tpm_limit VirtualKey.rpm_limit].
    destruct (VirtualKey.metadata task);
      cbn [option_map declared_differs Py.is_some negb andb];
      by_truth_table.
Qed.

Lemma needs_update_compares_declared_fields_witness :
  lists_models (owned_team (500 # 1)) = true /\
  named (Team.name name_only_task) = true /\
  team_fields_differ name_only_task (owned_team (500 # 1)) = false /\
  team_differs (team_params name_only_task) (owned_team (500 # 1)) = Ok true /\
  key_fields_differ same_budget_key_task key_456 = false /\
  key_differs (key_params same_budget_key_task) key_456 = Ok true.
Proof.
  split; [reflexivity|]. split; [reflexivity|]. split; [reflexivity|].
  split; [|split; [reflexivity|]].
  - apply (needs_update_compares_declared_fields
             [("team_id", JStr "t1"); ("team_alias", JStr "team-x");
              ("max_budget", JNum (500 # 1));
              ("metadata", JDict [("owner", JStr "ml")])] eq_refl).
    reflexivity.
  - apply (needs_update_compares_declared_fields
             [("token", JStr "key-456"); ("max_budget", JNum (500 # 1));
              ("metadata", JDict [("environment", JStr "production")])]
             eq_refl); reflexivity.
Defined.

(* ================================================================== *)
(** * An identifier set to null *)
(* ================================================================== *)

(** X21.  With [state=absent] the team module asks for [team_id] and the
    key module for [key_id], and a task that leaves the identifier out is
    turned down before any request.  A task that sets the identifier to
    [null] passes, since [required_if] looks for the parameter and not for
    a value; [main] then finds the resource by the name or alias the task
    gives, and the live run deletes what it found: the run sends the
    listing request and the delete call, and reports [changed=true]
    exactly when the API answers the delete call with 200. *)
Theorem null_id_deletes_by_name
  {Server : Type} (handle : Server -> request -> reply * Server)
  (w w1 : world Server) (existing id : value) :
  Py.truthy existing = true ->
  (forall (given : Team.nulls) (task : Team.module),
      Team.state task = absent -> Team.check_mode task = false ->
      Team.team_id task = None ->
      Py.truthy_str (Team.name task) = true ->
      Team.get_team_by_name handle (Py.str_of (Team.name task)) w
      = (Done existing, w1) ->
      Py.get existing "team_id" JNull = Ok id ->
      (Team.null_team_id given = false ->
       exists msg, Team.main_given handle given task w = (Failed msg, w)) /\
      (Team.null_team_id given = true ->
       sends (Team.main_given handle given task) w
         [Request GET "/team/list" None; team_delete_call id] /\
       (reports (Team.main_given handle given task) w true
        <-> status_in [200]%Z (answer handle w1 (team_delete_call id))))) /\
  (forall (null_key_id : bool) (task : VirtualKey.module),
      VirtualKey.state task = absent -> VirtualKey.check_mode task = false ->
      VirtualKey.key_id task = None ->
      Py.truthy_str (VirtualKey.key_alias task) = true ->
      VirtualKey.get_key_by_alias handle (Py.str_of (VirtualKey.key_alias task))
        w = (Done existing, w1) ->
      VirtualKey.current_key_id existing = Ok id ->
      (null_key_id = false ->
       exists msg,
         VirtualKey.main_given handle null_key_id task w = (Failed msg, w)) /\
      (null_key_id = true ->
       sends (VirtualKey.main_given handle null_key_id task) w
         [Request GET "/key/list" None; key_delete_call id] /\
       (reports (VirtualKey.main_given handle null_key_id task) w true
        <-> status_in [200]%Z (answer handle w1 (key_delete_call id))))).
Proof.
  intros Ht. split.
  - intros given [tid name md mb ms st chk] Hs Hc Hi Hn Hfind Hid.
    cbn [Team.state Team.check_mode Team.team_id Team.name] in *.
    subst st chk tid.
    unfold Team.main_given, Team.AnsibleModule_given.
    cbn [Team.state Team.team_id Team.name Team.metadata Team.max_budget
         Team.models Team.check_mode Py.is_some orb].
    split; intros ->; [eexists; reflexivity|].
    pose proof (@get_team_by_name_sends Server handle (Py.str_of name) w) as L.
    unfold sends in L. rewrite Hfind in L. cbn [snd] in L.
    unfold sends, reports.
    cbn [bind ret Monad_M]. unfold Team.main_find.
    cbn [Team.team_id Team.name Py.truthy_str]. rewrite Hn, Hfind.
    match goal with
    | |- context [Team.main_reconcile handle ?m existing w1] =>
        destruct (@team_delete_row Server handle m existing w1 id
                    eq_refl eq_refl Ht Hid) as (Hsend & Hiff)
    end.
    unfold sends, reports in Hsend, Hiff.
    split; [|exact Hiff].
    rewrite Hsend, L. now rewrite <- app_assoc.
  - intros null [kid alias tid ms mb bd md ex mp tpm rpm st chk]
           Hs Hc Hi Hn Hfind Hid.
    cbn [VirtualKey.state VirtualKey.check_mode VirtualKey.key_id
         VirtualKey.key_alias] in *.
    subst st chk kid.
    unfold VirtualKey.main_given, VirtualKey.AnsibleModule_given.
    cbn [VirtualKey.state VirtualKey.key_id VirtualKey.key_alias
         VirtualKey.team_id VirtualKey.models VirtualKey.max_budget
         VirtualKey.budget_duration VirtualKey.metadata VirtualKey.expires
         VirtualKey.max_parallel_requests VirtualKey.tpm_limit
         VirtualKey.rpm_limit VirtualKey.check_mode Py.is_some orb].
    split; intros ->; [eexists; reflexivity|].
    pose proof (@get_key_by_alias_sends Server handle (Py.str_of alias) w) as L.
    unfold sends in L. rewrite Hfind in L. cbn [snd] in L.
    unfold sends, reports.
    cbn [bind ret Monad_M]. unfold VirtualKey.main_find.
    cbn [VirtualKey.key_id VirtualKey.key_alias Py.truthy_str].
    rewrite Hn, Hfind.
    match goal with
    | |- context [VirtualKey.main_reconcile handle ?m existing w1] =>
        destruct (@key_delete_row Server handle m existing w1 id
                    eq_refl eq_refl Ht Hid) as (Hsend & Hiff)
    end.
    unfold sends, reports in Hsend, Hiff.
    split; [|exact Hiff].
    rewrite Hsend, L. now rewrite <- app_assoc.
Qed.

Lemma null_id_deletes_by_name_witness :
  let w := World tt [] in
  (exists msg,
      Team.main_given removal_api Team.no_nulls remove_team_x_task w
      = (Failed msg, w)) /\
  sends (Team.main_given removal_api null_team_id remove_team_x_task) w
    [Request GET "/team/list" None; team_delete_call (JStr "t1")] /\
  reports (Team.main_given removal_api null_team_id remove_team_x_task) w
    true /\
  (exists msg,
      VirtualKey.main_given removal_api false remove_alias_x_task w
      = (Failed msg, w)) /\
  sends (VirtualKey.main_given removal_api true remove_alias_x_task) w
    [Request GET "/key/list" None; key_delete_call (JStr "k1")] /\
  reports (VirtualKey.main_given removal_api true remove_alias_x_task) w true.
Proof.
  intros w.
  assert (Hok : status_in [200]%Z (Reply (ok_json (JDict [])))).
  { eexists. split; [reflexivity | simpl; lia]. }
  destruct (@null_id_deletes_by_name unit removal_api w
              (World tt [Request GET "/team/list" None]) team_t1 (JStr "t1")
              eq_refl) as (T & _).
  destruct (@null_id_deletes_by_name unit removal_api w
              (World tt [Request GET "/key/list" None]) key_k1 (JStr "k1")
              eq_refl) as (_ & K).
  destruct (T Team.no_nulls remove_team_x_task eq_refl eq_refl eq_refl eq_refl
              eq_refl eq_refl) as (Tfail & _).
  destruct (T null_team_id remove_team_x_task eq_refl eq_refl eq_refl eq_refl
              eq_refl eq_refl) as (_ & Tdel).
  destruct (K false remove_alias_x_task eq_refl eq_refl eq_refl eq_refl
              eq_refl eq_refl) as (Kfail & _).
  destruct (K true remove_alias_x_task eq_refl eq_refl eq_refl eq_refl
              eq_refl eq_refl) as (_ & Kdel).
  destruct (Tdel eq_refl) as (Ts & Tr). destruct (Kdel eq_refl) as (Ks & Kr).
  split; [exact (Tfail eq_refl)|]. split; [exact Ts|].
  split; [apply Tr; exact Hok|].
  split; [exact (Kfail eq_refl)|]. split; [exact Ks|]. apply Kr; exact Hok.
Defined.
